(** * DreamAnalysis: record store, signal generator, auth layer and export

    A shallow embedding of the TypeScript sources

    - [server/storage.ts]            (in-memory record store, [MemStorage]),
    - the Express routes             ([registerRoutes]),
    - the serverless handlers        ([api/...], backed by the durable store),
    - the auth helpers               ([getJWTSecret], [generateToken], ...),
    - [client/src/hooks/use-metrics.tsx] (the signal generator),

    followed by the properties stated about them.

    Conventions.  A JavaScript [number] holding an integer is a [Z]; a
    number that may carry a fraction ([sleepDuration], waveform samples,
    the result of [Math.random]) is a [Q].  A [Date] is its [getTime()]
    value in milliseconds.  [null] and [undefined] of an optional field
    are [None].  A [Map] is the list of its entries in insertion order.
    Values that come from outside the program ([randomUUID()],
    [new Date()], [Math.random()], the chat-completion service) are
    explicit arguments of the function that draws them. *)

From Stdlib Require Import ZArith QArith Qround Qminmax Lqa Lia.
From Stdlib Require Import String Ascii Bool List.
From Stdlib Require Import Sorting.Sorted Sorting.Permutation.
From Stdlib Require Import DecimalString.
Import ListNotations.

Open Scope string_scope.
Open Scope Z_scope.

(* ================================================================== *)
(** ** JavaScript primitives used by the sources *)
(* ================================================================== *)

Module Js.

(** A computation that may [throw]. *)
Inductive result (A : Type) : Type :=
| Ok (a : A)
| Throw (message : string).
Arguments Ok {A} a.
Arguments Throw {A} message.

Definition bind {A B} (r : result A) (k : A -> result B) : result B :=
  match r with
  | Ok a => k a
  | Throw m => Throw m
  end.

(** [x || null] on an optional string: [undefined], [null] and [""] are falsy. *)
Definition string_or_null (x : option string) : option string :=
  match x with
  | Some s => if String.eqb s "" then None else Some s
  | None => None
  end.

(** [x || null] on an optional integer number: [0] is falsy. *)
Definition int_or_null (x : option Z) : option Z :=
  match x with
  | Some n => if n =? 0 then None else Some n
  | None => None
  end.

(** [x || null] on an optional fractional number: [0] is falsy. *)
Definition num_or_null (x : option Q) : option Q :=
  match x with
  | Some q => if Qeq_bool q 0 then None else Some q
  | None => None
  end.

(** [x || d] where [x] is an optional array or object: present values are
    truthy, whatever they hold. *)
Definition or_default {A} (x : option A) (d : A) : A :=
  match x with
  | Some a => a
  | None => d
  end.

(** [x || d] on an optional string. *)
Definition string_or (x : option string) (d : string) : string :=
  match string_or_null x with
  | Some s => s
  | None => d
  end.

(** [a === b] where [a : string | null] and [b : string]. *)
Definition strict_eq (a : option string) (b : string) : bool :=
  match a with
  | Some s => String.eqb s b
  | None => false
  end.

(** Relative index of [Array.prototype.slice]: a negative index counts
    from the end, and the result is clamped to [0 .. len]. *)
Definition relative_index (len i : Z) : Z :=
  if i <? 0 then Z.max (len + i) 0 else Z.min i len.

(** [l.slice(start, end)]; [end_ = None] is the one-argument call. *)
Definition slice {A} (start : Z) (end_ : option Z) (l : list A) : list A :=
  let len := Z.of_nat (length l) in
  let k := relative_index len start in
  let final := match end_ with
               | Some e => relative_index len e
               | None => len
               end in
  firstn (Z.to_nat (final - k)) (skipn (Z.to_nat k) l).

(** [Array.prototype.sort(compare)]: a stable sort; [compare a b <= 0]
    keeps [a] before [b]. *)
Fixpoint sort_insert {A} (compare : A -> A -> Z) (x : A) (l : list A) : list A :=
  match l with
  | [] => [x]
  | y :: l' =>
      if compare x y <=? 0 then x :: y :: l'
      else y :: sort_insert compare x l'
  end.

Fixpoint sort {A} (compare : A -> A -> Z) (l : list A) : list A :=
  match l with
  | [] => []
  | x :: l' => sort_insert compare x (sort compare l')
  end.

(** [Array.prototype.find]. *)
Definition find {A} (p : A -> bool) (l : list A) : option A := List.find p l.

(** [Array.prototype.join(sep)] on strings. *)
Definition join (sep : string) (l : list string) : string := String.concat sep l.

(** [String(n)] for an integer number below [1e21] in absolute value,
    which JavaScript prints with all its digits (from [1e21] on it prints
    an exponent). *)
Definition string_of_int (n : Z) : string :=
  NilZero.string_of_int (Z.to_int n).

(** A [Map<string, V>]: entries in insertion order. *)
Definition map (V : Type) : Type := list (string * V).

Fixpoint map_set {V} (k : string) (v : V) (m : map V) : map V :=
  match m with
  | [] => [(k, v)]
  | (k', v') :: m' =>
      if String.eqb k' k then (k, v) :: m'
      else (k', v') :: map_set k v m'
  end.

Fixpoint map_get {V} (k : string) (m : map V) : option V :=
  match m with
  | [] => None
  | (k', v') :: m' => if String.eqb k' k then Some v' else map_get k m'
  end.

Definition map_values {V} (m : map V) : list V := List.map snd m.

Definition map_keys {V} (m : map V) : list string := List.map fst m.

End Js.

(* ================================================================== *)
(** ** The schema: record types of [shared/schema] *)
(* ================================================================== *)

(** A [Date], as milliseconds since the epoch. *)
Definition Date : Type := Z.

Module User.
Record t : Type := mk {
  id : string;
  username : string;
  password : string
}.
End User.

Module InsertUser.
Record t : Type := mk {
  username : string;
  password : string
}.
End InsertUser.

Module HealthMetrics.
Record t : Type := mk {
  id : string;
  userId : option string;
  heartRate : Z;
  stressLevel : Z;
  sleepQuality : Z;
  neuralActivity : Z;
  dailySteps : option Z;
  sleepDuration : option Q;
  timestamp : Date
}.
End HealthMetrics.

Module InsertHealthMetrics.
Record t : Type := mk {
  userId : option string;
  heartRate : Z;
  stressLevel : Z;
  sleepQuality : Z;
  neuralActivity : Z;
  dailySteps : option Z;
  sleepDuration : option Q
}.
End InsertHealthMetrics.

Module Emotion.
Record t : Type := mk {
  emotion : string;
  intensity : Z
}.
End Emotion.

Module DreamAnalysis.
Record t : Type := mk {
  id : string;
  userId : option string;
  dreamText : string;
  symbols : list string;
  emotions : list Emotion.t;
  aiAnalysis : option string;
  timestamp : Date
}.
End DreamAnalysis.

Module InsertDreamAnalysis.
Record t : Type := mk {
  userId : option string;
  dreamText : string;
  symbols : option (list string);
  emotions : option (list Emotion.t);
  aiAnalysis : option string
}.
End InsertDreamAnalysis.

Module AiChat.
Record t : Type := mk {
  id : string;
  userId : option string;
  message : string;
  isUser : bool;
  timestamp : Date
}.
End AiChat.

Module InsertAiChat.
Record t : Type := mk {
  userId : option string;
  message : string;
  isUser : bool
}.
End InsertAiChat.

(** [alertThresholds] is a JSON object from names to numbers; [{}] is [[]]. *)
Definition Thresholds : Type := list (string * Z).

(** Every column of [user_settings] but the key is nullable: [None] is [null]. *)
Module UserSettings.
Record t : Type := mk {
  id : string;
  userId : option string;
  theme : option string;
  electrodeCount : option Z;
  samplingRate : option Z;
  alertThresholds : option Thresholds;
  animationsEnabled : option bool
}.
End UserSettings.

(** [Partial<InsertUserSettings>]: a key is absent ([None]) or present with
    a value that may itself be [null] ([Some None]). *)
Module PartialSettings.
Record t : Type := mk {
  userId : option (option string);
  theme : option (option string);
  electrodeCount : option (option Z);
  samplingRate : option (option Z);
  alertThresholds : option (option Thresholds);
  animationsEnabled : option (option bool)
}.

(** The object [{}]. *)
Definition empty : t := mk None None None None None None.
End PartialSettings.

(** One key of an object spread [{ ...base, ...over }]: the later object
    wins where it has the key. *)
Definition spread {A} (base : A) (over : option A) : A :=
  match over with
  | Some v => v
  | None => base
  end.

(* ================================================================== *)
(** ** [server/storage.ts]: the in-memory store *)
(* ================================================================== *)

Module MemStorage.

Record t : Type := mk {
  users : Js.map User.t;
  healthMetrics : Js.map HealthMetrics.t;
  dreamAnalyses : Js.map DreamAnalysis.t;
  aiChats : Js.map AiChat.t;
  userSettings : Js.map UserSettings.t
}.

(** [constructor()]. *)
Definition new : t := mk [] [] [] [] [].

Definition getUser (st : t) (id : string) : option User.t :=
  Js.map_get id (users st).

Definition getUserByUsername (st : t) (username : string) : option User.t :=
  Js.find (fun user => String.eqb (User.username user) username)
          (Js.map_values (users st)).

(** [uuid] is the value of [randomUUID()]. *)
Definition createUser (uuid : string) (insertUser : InsertUser.t) (st : t)
  : User.t * t :=
  let id := uuid in
  let user := User.mk id (InsertUser.username insertUser)
                      (InsertUser.password insertUser) in
  (user, mk (Js.map_set id user (users st)) (healthMetrics st)
            (dreamAnalyses st) (aiChats st) (userSettings st)).

Definition getHealthMetrics (st : t) (userId : string) (limit : Z)
  : list HealthMetrics.t :=
  Js.slice 0 (Some limit)
    (Js.sort (fun a b => HealthMetrics.timestamp b - HealthMetrics.timestamp a)
       (filter (fun metric => Js.strict_eq (HealthMetrics.userId metric) userId)
          (Js.map_values (healthMetrics st)))).

(** [uuid] is the value of [randomUUID()], [now] that of [new Date()]. *)
Definition createHealthMetrics (uuid : string) (now : Date)
    (insertMetrics : InsertHealthMetrics.t) (st : t) : HealthMetrics.t * t :=
  let id := uuid in
  let metrics :=
    HealthMetrics.mk id
      (Js.string_or_null (InsertHealthMetrics.userId insertMetrics))
      (InsertHealthMetrics.heartRate insertMetrics)
      (InsertHealthMetrics.stressLevel insertMetrics)
      (InsertHealthMetrics.sleepQuality insertMetrics)
      (InsertHealthMetrics.neuralActivity insertMetrics)
      (Js.int_or_null (InsertHealthMetrics.dailySteps insertMetrics))
      (Js.num_or_null (InsertHealthMetrics.sleepDuration insertMetrics))
      now in
  (metrics, mk (users st) (Js.map_set id metrics (healthMetrics st))
               (dreamAnalyses st) (aiChats st) (userSettings st)).

Definition getDreamAnalyses (st : t) (userId : string) (limit : Z)
  : list DreamAnalysis.t :=
  Js.slice 0 (Some limit)
    (Js.sort (fun a b => DreamAnalysis.timestamp b - DreamAnalysis.timestamp a)
       (filter (fun analysis => Js.strict_eq (DreamAnalysis.userId analysis) userId)
          (Js.map_values (dreamAnalyses st)))).

Definition createDreamAnalysis (uuid : string) (now : Date)
    (insertAnalysis : InsertDreamAnalysis.t) (st : t) : DreamAnalysis.t * t :=
  let id := uuid in
  let analysis :=
    DreamAnalysis.mk id
      (Js.string_or_null (InsertDreamAnalysis.userId insertAnalysis))
      (InsertDreamAnalysis.dreamText insertAnalysis)
      (Js.or_default (InsertDreamAnalysis.symbols insertAnalysis) [])
      (Js.or_default (InsertDreamAnalysis.emotions insertAnalysis) [])
      (Js.string_or_null (InsertDreamAnalysis.aiAnalysis insertAnalysis))
      now in
  (analysis, mk (users st) (healthMetrics st)
                (Js.map_set id analysis (dreamAnalyses st))
                (aiChats st) (userSettings st)).

Definition getAiChats (st : t) (userId : string) (limit : Z) : list AiChat.t :=
  Js.slice (- limit) None
    (Js.sort (fun a b => AiChat.timestamp a - AiChat.timestamp b)
       (filter (fun chat => Js.strict_eq (AiChat.userId chat) userId)
          (Js.map_values (aiChats st)))).

Definition createAiChat (uuid : string) (now : Date)
    (insertChat : InsertAiChat.t) (st : t) : AiChat.t * t :=
  let id := uuid in
  let chat :=
    AiChat.mk id
      (Js.string_or_null (InsertAiChat.userId insertChat))
      (InsertAiChat.message insertChat)
      (InsertAiChat.isUser insertChat)
      now in
  (chat, mk (users st) (healthMetrics st) (dreamAnalyses st)
            (Js.map_set id chat (aiChats st)) (userSettings st)).

Definition getUserSettings (st : t) (userId : string) : option UserSettings.t :=
  Js.find (fun settings => Js.strict_eq (UserSettings.userId settings) userId)
          (Js.map_values (userSettings st)).

(** The built-in defaults written out in the object literal. *)
Definition default_theme : option string := Some "dark".
Definition default_electrodeCount : option Z := Some 64.
Definition default_samplingRate : option Z := Some 500.
Definition default_alertThresholds : option Thresholds := Some [].
Definition default_animationsEnabled : option bool := Some true.

(** The key the record is stored under: [existing?.id || randomUUID()]. *)
Definition settingsKey (uuid : string) (existing : option UserSettings.t) : string :=
  Js.string_or (option_map UserSettings.id existing) uuid.

(** The object literal
    [{ id, userId, theme: "dark", ..., ...existing, ...partialSettings }]:
    [existing], when there is one, carries every key; [partialSettings]
    has no [id]. *)
Definition mergeSettings (id userId : string) (existing : option UserSettings.t)
    (partialSettings : PartialSettings.t) : UserSettings.t :=
  UserSettings.mk
    (spread id (option_map UserSettings.id existing))
    (spread (spread (Some userId) (option_map UserSettings.userId existing))
            (PartialSettings.userId partialSettings))
    (spread (spread default_theme (option_map UserSettings.theme existing))
            (PartialSettings.theme partialSettings))
    (spread (spread default_electrodeCount
                    (option_map UserSettings.electrodeCount existing))
            (PartialSettings.electrodeCount partialSettings))
    (spread (spread default_samplingRate
                    (option_map UserSettings.samplingRate existing))
            (PartialSettings.samplingRate partialSettings))
    (spread (spread default_alertThresholds
                    (option_map UserSettings.alertThresholds existing))
            (PartialSettings.alertThresholds partialSettings))
    (spread (spread default_animationsEnabled
                    (option_map UserSettings.animationsEnabled existing))
            (PartialSettings.animationsEnabled partialSettings)).

Definition updateUserSettings (uuid : string) (userId : string)
    (partialSettings : PartialSettings.t) (st : t) : UserSettings.t * t :=
  let existing := getUserSettings st userId in
  let id := settingsKey uuid existing in
  let settings := mergeSettings id userId existing partialSettings in
  (settings, mk (users st) (healthMetrics st) (dreamAnalyses st) (aiChats st)
                (Js.map_set id settings (userSettings st))).

End MemStorage.

(* ================================================================== *)
(** ** The process environment and HTTP responses *)
(* ================================================================== *)

(** [process.env]: a variable is unset ([None]) or holds a string. *)
Module Env.
Record t : Type := mk {
  JWT_SECRET : option string;
  DATABASE_URL : option string;
  OPENAI_API_KEY : option string
}.
End Env.

Module Http.

Inductive Body : Type :=
| Json_metrics (metrics : list HealthMetrics.t)
| Json_dream (analysis : DreamAnalysis.t)
| Json_chat (chat : AiChat.t)
| Json_settings (settings : option UserSettings.t)
| Json_message (message : string)   (* the object [{ message }] *)
| Json_error (error : string)       (* the object [{ error }] *)
| Text (content : string).          (* [res.send(content)] *)

Record Response : Type := mk {
  status : Z;
  headers : list (string * string);
  body : Body
}.

(** [api/_lib/response.ts]. *)
Definition success (data : Body) (status : Z) : Response := mk status [] data.

Definition error (message : string) (status : Z) : Response :=
  mk status [] (Json_error message).

Definition methodNotAllowed (allowedMethods : list string) : Response :=
  mk 405 [("Allow", Js.join ", " allowedMethods)] (Json_error "Method not allowed").

Definition unauthorized (message : string) : Response :=
  mk 401 [] (Json_error message).

Definition badRequest (message : string) : Response :=
  mk 400 [] (Json_error message).

End Http.

(* ================================================================== *)
(** ** The auth helpers ([api/_lib/auth.ts]) *)
(* ================================================================== *)

(** The [jsonwebtoken] package is a dependency of the repository.  Its
    [sign] and [verify] are modelled for the one configuration the
    sources use: an HMAC signature over the claims and [expiresIn: '7d'].
    A compact token string is kept as its parsed view; [hs256], the
    signature function, is a parameter. *)
Module Jwt.

Record Payload : Type := mkPayload {
  userId : string;
  username : string
}.

(** What [verify] returns: the payload together with the registered
    claims [iat] and [exp], both in seconds. *)
Record Claims : Type := mkClaims {
  payload : Payload;
  iat : Z;
  exp : Z
}.

Inductive Token : Type :=
| Signed (claims : Claims) (signature : string)
| Malformed (raw : string).

(** [ms('7d') / 1000]. *)
Definition seven_days : Z := 7 * 24 * 60 * 60.

(** [Math.floor(Date.now() / 1000)]. *)
Definition clockTimestamp (now : Date) : Z := now / 1000.

Section WithSignature.
Variable hs256 : string -> Claims -> string.

Definition sign (p : Payload) (secret : string) (now : Date) : Js.result Token :=
  if String.eqb secret "" then Js.Throw "secretOrPrivateKey must have a value"
  else
    let timestamp := clockTimestamp now in
    let claims := mkClaims p timestamp (timestamp + seven_days) in
    Js.Ok (Signed claims (hs256 secret claims)).

Definition verify (token : Token) (secret : string) (now : Date) : Js.result Claims :=
  match token with
  | Malformed _ => Js.Throw "jwt malformed"
  | Signed claims signature =>
      if String.eqb secret "" then Js.Throw "secret or public key must be provided"
      else if negb (String.eqb signature (hs256 secret claims))
      then Js.Throw "invalid signature"
      else if clockTimestamp now >=? exp claims then Js.Throw "jwt expired"
      else Js.Ok claims
  end.

End WithSignature.
End Jwt.

Module Text.

(** [s.startsWith(p)]. *)
Definition startsWith (p s : string) : bool := String.prefix p s.

(** [s.substring(n)]. *)
Definition substring_from (n : nat) (s : string) : string :=
  String.substring n (String.length s - n) s.

(** [s.split(sep)] for a one-character separator. *)
Fixpoint split_aux (sep : ascii) (s : string) (current : string) : list string :=
  match s with
  | EmptyString => [current]
  | String c s' =>
      if Ascii.eqb c sep then current :: split_aux sep s' EmptyString
      else split_aux sep s' (current ++ String c EmptyString)
  end.

Definition split (sep : ascii) (s : string) : list string :=
  split_aux sep s EmptyString.

(** A string is the sequence of its code units, each below 256: header
    values reach the program decoded as Latin-1.  Among these code units
    [trim] removes the white space and the line terminators of the
    language: tab, line feed, vertical tab, form feed, carriage return,
    space and the no-break space [U+00A0]. *)
Definition is_space (c : ascii) : bool :=
  let n := nat_of_ascii c in
  (Nat.eqb n 32 || (Nat.leb 9 n && Nat.leb n 13) || Nat.eqb n 160)%bool.

Fixpoint trimStart (s : string) : string :=
  match s with
  | EmptyString => EmptyString
  | String c s' => if is_space c then trimStart s' else s
  end.

Fixpoint trimEnd (s : string) : string :=
  match s with
  | EmptyString => EmptyString
  | String c s' =>
      match trimEnd s' with
      | EmptyString => if is_space c then EmptyString else String c EmptyString
      | rest => String c rest
      end
  end.

Definition trim (s : string) : string := trimEnd (trimStart s).

End Text.

Module Auth.

(** The two headers the helpers read from a request. *)
Record Headers : Type := mkHeaders {
  authorization : option string;
  cookie : option string
}.

Definition getJWTSecret (env : Env.t) : Js.result string :=
  match Js.string_or_null (Env.JWT_SECRET env) with
  | Some secret => Js.Ok secret
  | None =>
      Js.Throw "JWT_SECRET environment variable is not set. This is required for secure authentication."
  end.

Definition JWT_EXPIRES_IN : string := "7d".

(** The cookie header folded into an object: [acc[key] = value] for the
    first two [=]-separated pieces of every [;]-separated part; a part
    without [=] stores [undefined]. *)
Definition parseCookies (cookieHeader : string) : Js.map (option string) :=
  fold_left
    (fun acc cookie =>
       match Text.split "=" (Text.trim cookie) with
       | key :: value :: _ => Js.map_set key (Some value) acc
       | [key] => Js.map_set key None acc
       | [] => acc
       end)
    (Text.split ";" cookieHeader) [].

Definition bearer (headers : Headers) : option string :=
  match authorization headers with
  | Some authHeader =>
      if Text.startsWith "Bearer " authHeader
      then Some (Text.substring_from 7 authHeader)
      else None
  | None => None
  end.

Definition getAuthToken (headers : Headers) : option string :=
  match bearer headers with
  | Some token => Some token
  | None =>
      match Js.string_or_null (cookie headers) with
      | Some cookieHeader =>
          match Js.map_get "auth_token" (parseCookies cookieHeader) with
          | Some value => Js.string_or_null value
          | None => None
          end
      | None => None
      end
  end.

Section WithJwt.
Variable hs256 : string -> Jwt.Claims -> string.
(** The parsed view of a token string taken from a header. *)
Variable decode : string -> Jwt.Token.

(** [env] is [process.env] and [now] the clock at the time of the call. *)
Definition generateToken (env : Env.t) (now : Date) (p : Jwt.Payload)
  : Js.result Jwt.Token :=
  Js.bind (getJWTSecret env) (fun secret => Jwt.sign hs256 p secret now).

(** The [try]/[catch] turns every exception, of [getJWTSecret] as well
    as of [verify], into [null]. *)
Definition verifyToken (env : Env.t) (now : Date) (token : Jwt.Token)
  : option Jwt.Claims :=
  match Js.bind (getJWTSecret env) (fun secret => Jwt.verify hs256 token secret now) with
  | Js.Ok claims => Some claims
  | Js.Throw _ => None
  end.

(** Returns the payload, or the response written by [unauthorized]. *)
Definition requireAuth (env : Env.t) (now : Date) (headers : Headers)
  : Jwt.Claims + Http.Response :=
  match Js.string_or_null (getAuthToken headers) with
  | None => inr (Http.unauthorized "No authentication token provided")
  | Some token =>
      match verifyToken env now (decode token) with
      | None => inr (Http.unauthorized "Invalid or expired token")
      | Some claims => inl claims
      end
  end.

End WithJwt.

(** Evaluating the module runs its top-level statements, which read
    nothing from the environment. *)
Definition load (env : Env.t) : Js.result string := Js.Ok JWT_EXPIRES_IN.

End Auth.

(* ================================================================== *)
(** ** The interpretation collaborator and the CSV rendering *)
(* ================================================================== *)

(** The chat-completion service, seen from a route: the request it is
    sent and what comes back.  [Rejected] is a call that throws (no
    client, transport failure, a response without a first choice);
    [Content c] is [response.choices[0].message.content]. *)
Module Upstream.

Record Request : Type := mk {
  model : string;
  system : string;
  user : string;
  json_object : bool
}.

Inductive Completion : Type :=
| Rejected
| Content (content : option string).

(** The object the dream prompt asks for; every key may be missing. *)
Record Analysis : Type := mkAnalysis {
  symbols : option (list string);
  emotions : option (list Emotion.t);
  analysis : option string
}.

Definition chatPrompt (healthContext : string) : string :=
  "You are an AI wellness companion for a Brain-Computer Interface system. You help users with mood analysis, stress relief, and wellness guidance. "
  ++ healthContext
  ++ " Be supportive, insightful, and provide actionable advice. Keep responses concise but meaningful.".

Definition dreamPrompt : string :=
  "You are a dream analysis expert. Analyze the dream text and provide insights about symbols, emotions, and psychological meanings. Respond with JSON in this format: { 'symbols': string[], 'emotions': { 'emotion': string, 'intensity': number }[], 'analysis': string }".

Definition healthContext (recentMetrics : list HealthMetrics.t) : string :=
  match recentMetrics with
  | m :: _ =>
      "Recent health data: Heart rate " ++ Js.string_of_int (HealthMetrics.heartRate m)
      ++ ", Stress level " ++ Js.string_of_int (HealthMetrics.stressLevel m)
      ++ ", Sleep quality " ++ Js.string_of_int (HealthMetrics.sleepQuality m)
  | [] => ""
  end.

Definition chatRequest (recentMetrics : list HealthMetrics.t) (message : string)
  : Request :=
  mk "gpt-5" (chatPrompt (healthContext recentMetrics)) message false.

Definition dreamRequest (dreamText : string) : Request :=
  mk "gpt-5" dreamPrompt ("Analyze this dream: " ++ dreamText) true.

Definition fallbackReply : string :=
  "I'm here to help you with your wellness journey.".

End Upstream.

Module Csv.
Section WithToString.
(** [String(d)] for a [Date] and [String(x)] for a fractional number are
    the host's. *)
Variable Date_toString : Date -> string.
Variable Number_toString : Q -> string.

(** [Object.keys] of an element of [csvData]. *)
Definition keys : list string :=
  ["timestamp"; "heartRate"; "stressLevel"; "sleepQuality"; "neuralActivity";
   "dailySteps"; "sleepDuration"].

(** [Object.values(row)], each as [join] prints it: [null] prints empty. *)
Definition values (m : HealthMetrics.t) : list string :=
  [ Date_toString (HealthMetrics.timestamp m);
    Js.string_of_int (HealthMetrics.heartRate m);
    Js.string_of_int (HealthMetrics.stressLevel m);
    Js.string_of_int (HealthMetrics.sleepQuality m);
    Js.string_of_int (HealthMetrics.neuralActivity m);
    match HealthMetrics.dailySteps m with
    | Some n => Js.string_of_int n
    | None => ""
    end;
    match HealthMetrics.sleepDuration m with
    | Some q => Number_toString q
    | None => ""
    end ].

Definition csvRows (metrics : list HealthMetrics.t) : list string :=
  List.map (fun row => Js.join "," (values row)) metrics.

(** [Object.keys(csvData[0] || {}).join(',')]. *)
Definition csvHeader_or_empty (metrics : list HealthMetrics.t) : string :=
  match metrics with
  | _ :: _ => Js.join "," keys
  | [] => Js.join "," []
  end.

Definition csvHeader : string := Js.join "," keys.

Definition exportHeaders : list (string * string) :=
  [("Content-Type", "text/csv");
   ("Content-Disposition", "attachment; filename=neural_data.csv")].

End WithToString.
End Csv.

(* ================================================================== *)
(** ** The Express routes ([registerRoutes]), over [MemStorage] *)
(* ================================================================== *)

Module Routes.

(** The body of a chat request is read without validation: its [userId]
    key is absent ([None]: the variable is [undefined]), or present with
    [null] ([Some None]) or with a string. *)
Record ChatBody : Type := mkChatBody {
  message : string;
  chat_userId : option (option string)
}.

(** [userId] as the object literal [{ userId, message, isUser }] hands it
    to [createAiChat], where [undefined] and [null] are both falsy. *)
Definition insert_userId (body : ChatBody) : option string :=
  spread None (chat_userId body).

Record DreamBody : Type := mkDreamBody {
  dreamText : string;
  dream_userId : option string
}.

(** The two identifiers and the two clock readings a chat request draws. *)
Record ChatDraws : Type := mkChatDraws {
  uuid1 : string; now1 : Date;
  uuid2 : string; now2 : Date
}.

Definition json (data : Http.Body) : Http.Response := Http.mk 200 [] data.

Definition fail (status : Z) (message : string) : Http.Response :=
  Http.mk status [] (Http.Json_message message).

(** The store once the user's message of a chat request is in. *)
Definition with_user_message (d : ChatDraws) (body : ChatBody) (st : MemStorage.t)
  : MemStorage.t :=
  snd (MemStorage.createAiChat (uuid1 d) (now1 d)
         (InsertAiChat.mk (insert_userId body) (message body) true) st).

(** [storage.getHealthMetrics(userId, 5)] with the [userId] of the body.
    The filter is [metric.userId === userId]: an [undefined] [userId]
    matches no sample, and a [null] one matches the samples stored
    without owner. *)
Definition recentMetrics (body : ChatBody) (st1 : MemStorage.t) : list HealthMetrics.t :=
  match chat_userId body with
  | Some (Some userId) => MemStorage.getHealthMetrics st1 userId 5
  | Some None =>
      Js.slice 0 (Some 5)
        (Js.sort (fun a b => HealthMetrics.timestamp b - HealthMetrics.timestamp a)
           (filter (fun metric =>
                      match HealthMetrics.userId metric with
                      | None => true
                      | Some _ => false
                      end)
              (Js.map_values (MemStorage.healthMetrics st1))))
  | None => []
  end.

(** The completion request of a chat request, with the latest of these
    samples as context. *)
Definition chat_request (body : ChatBody) (st1 : MemStorage.t) : Upstream.Request :=
  Upstream.chatRequest (recentMetrics body st1) (message body).

Section WithCollaborators.
Variable openai : Upstream.Request -> Upstream.Completion.
(** [JSON.parse] into the analysis object; [None] when it throws or the
    text is the JSON [null]. *)
Variable JSON_parse : string -> option Upstream.Analysis.
Variable Date_toString : Date -> string.
Variable Number_toString : Q -> string.

(** [GET /api/health-metrics/:userId]. *)
Definition get_health_metrics (userId : string) (st : MemStorage.t) : Http.Response :=
  json (Http.Json_metrics (MemStorage.getHealthMetrics st userId 50)).

(** [POST /api/dream-analysis]: the collaborator is called and its answer
    parsed before anything is stored. *)
Definition post_dream_analysis (uuid : string) (now : Date) (body : DreamBody)
    (st : MemStorage.t) : Http.Response * MemStorage.t :=
  match openai (Upstream.dreamRequest (dreamText body)) with
  | Upstream.Rejected => (fail 500 "Failed to analyze dream", st)
  | Upstream.Content content =>
      match JSON_parse (Js.string_or content "{}") with
      | None => (fail 500 "Failed to analyze dream", st)
      | Some analysis =>
          let (dreamAnalysis, st') :=
            MemStorage.createDreamAnalysis uuid now
              (InsertDreamAnalysis.mk (dream_userId body) (dreamText body)
                 (Some (Js.or_default (Upstream.symbols analysis) []))
                 (Some (Js.or_default (Upstream.emotions analysis) []))
                 (Some (Js.string_or (Upstream.analysis analysis) "")))
              st in
          (json (Http.Json_dream dreamAnalysis), st')
      end
  end.

(** [POST /api/ai-chat]: the user's message is stored first, then the
    collaborator is called, then its reply is stored. *)
Definition post_ai_chat (d : ChatDraws) (body : ChatBody) (st : MemStorage.t)
  : Http.Response * MemStorage.t :=
  let st1 := with_user_message d body st in
  match openai (chat_request body st1) with
  | Upstream.Rejected => (fail 500 "Failed to process chat message", st1)
  | Upstream.Content content =>
      let aiResponse := Js.string_or content Upstream.fallbackReply in
      let (aiChat, st2) :=
        MemStorage.createAiChat (uuid2 d) (now2 d)
          (InsertAiChat.mk (insert_userId body) aiResponse false) st1 in
      (json (Http.Json_chat aiChat), st2)
  end.

(** The metric samples the export route turns into lines. *)
Definition export_metrics (userId : string) (st : MemStorage.t) : list HealthMetrics.t :=
  MemStorage.getHealthMetrics st userId 50.

(** [GET /api/export/:userId]; the route also reads the user's dream
    analyses, which it does not use. *)
Definition get_export (userId : string) (st : MemStorage.t) : Http.Response :=
  let metrics := export_metrics userId st in
  let csvHeader := Csv.csvHeader_or_empty metrics in
  let csvRows := Csv.csvRows Date_toString Number_toString metrics in
  let csvContent := Js.join (String "010" EmptyString) (csvHeader :: csvRows) in
  Http.mk 200 Csv.exportHeaders (Http.Text csvContent).

(** [GET /api/settings/:userId]. *)
Definition get_settings (userId : string) (st : MemStorage.t) : Http.Response :=
  json (Http.Json_settings (MemStorage.getUserSettings st userId)).

(** [POST /api/settings/:userId]; [body] is [None] when the schema rejects
    the request body. *)
Definition post_settings (uuid : string) (userId : string)
    (body : option PartialSettings.t) (st : MemStorage.t)
  : Http.Response * MemStorage.t :=
  match body with
  | None => (fail 400 "Invalid settings data", st)
  | Some validatedData =>
      let (settings, st') := MemStorage.updateUserSettings uuid userId validatedData st in
      (json (Http.Json_settings (Some settings)), st')
  end.

End WithCollaborators.
End Routes.

(* ================================================================== *)
(** ** The durable store ([api/_lib/db.ts] and the queries of [api/...]) *)
(* ================================================================== *)

Module Db.

(** The tables of the schema, rows in storage order. *)
Record Tables : Type := mkTables {
  users : list User.t;
  healthMetrics : list HealthMetrics.t;
  dreamAnalysis : list DreamAnalysis.t;
  aiChats : list AiChat.t;
  userSettings : list UserSettings.t
}.

Definition empty : Tables := mkTables [] [] [] [] [].

(** The names under which [shared/schema] exports its tables.  A named
    import of the schema is bound to the export of that name; a name the
    schema does not export leaves the binding [undefined]. *)
Definition schema_exports : list string :=
  ["users"; "healthMetrics"; "dreamAnalysis"; "aiChats"; "userSettings"].

Definition exported (name : string) : bool :=
  existsb (String.eqb name) schema_exports.

(** [user_id ... .references(() => users.id)], declared by the four
    record tables: the database accepts a row whose [user_id] is [NULL]
    or the [id] of a row of [users], and refuses any other. *)
Definition references_users (userId : option string) (t : Tables) : bool :=
  match userId with
  | None => true
  | Some u => existsb (fun user => String.eqb (User.id user) u) (users t)
  end.

(** [user_id ... .unique()], declared by [user_settings]: the database
    refuses a row whose [user_id], when not [NULL], another row holds. *)
Definition userId_taken (userId : option string) (rows : list UserSettings.t) : bool :=
  match userId with
  | None => false
  | Some u => existsb (fun row => Js.strict_eq (UserSettings.userId row) u) rows
  end.

Definition foreign_key_violation : string :=
  "insert or update on table violates foreign key constraint".

Definition unique_violation : string :=
  "duplicate key value violates unique constraint".

(** A function instance: the module variable [cachedDb] (the client,
    known by the connection string it was built from) and the database
    it talks to. *)
Record Instance : Type := mkInstance {
  cachedDb : option string;
  tables : Tables
}.

(** Evaluating the module runs [let cachedDb = null]. *)
Definition load (env : Env.t) : Js.result (option string) := Js.Ok None.

Definition getDb (env : Env.t) (cached : option string)
  : Js.result string * option string :=
  match cached with
  | Some db => (Js.Ok db, cached)
  | None =>
      match Js.string_or_null (Env.DATABASE_URL env) with
      | None => (Js.Throw "DATABASE_URL environment variable is not set", cached)
      | Some databaseUrl => (Js.Ok databaseUrl, Some databaseUrl)
      end
  end.

(** [.where(eq(table.userId, userId))]: a [NULL] owner matches nobody. *)
Definition where_userId {R} (owner : R -> option string) (userId : string)
    (rows : list R) : list R :=
  filter (fun row => Js.strict_eq (owner row) userId) rows.

(** [.orderBy(desc(table.timestamp))].  The database leaves the order of
    rows with equal timestamps open; here they stay in storage order.
    What is stated below about which rows a query returns either does
    not depend on that order or assumes distinct timestamps. *)
Definition orderBy_desc {R} (timestamp : R -> Date) (rows : list R) : list R :=
  Js.sort (fun a b => timestamp b - timestamp a) rows.

(** [.limit(n)]. *)
Definition limit {R} (n : nat) (rows : list R) : list R := firstn n rows.

(** An insert into the table of chat messages,
    [.values({ userId, message, isUser }).returning()]: [id] and
    [timestamp] take their column defaults, [uuid] and [now], drawn by
    the database. *)
Definition insert_aiChat (uuid : string) (now : Date) (userId message : string)
    (isUser : bool) (t : Tables) : Js.result (AiChat.t * Tables) :=
  let row := AiChat.mk uuid (Some userId) message isUser now in
  if references_users (Some userId) t then
    Js.Ok (row, mkTables (users t) (healthMetrics t) (dreamAnalysis t)
                         (aiChats t ++ [row]) (userSettings t))
  else Js.Throw foreign_key_violation.

(** [insert(healthMetrics).values(validatedData).returning()]: the values
    are stored as given, [id] and [timestamp] take their defaults. *)
Definition insert_healthMetrics (uuid : string) (now : Date)
    (validatedData : InsertHealthMetrics.t) (t : Tables)
  : Js.result (HealthMetrics.t * Tables) :=
  let row :=
    HealthMetrics.mk uuid
      (InsertHealthMetrics.userId validatedData)
      (InsertHealthMetrics.heartRate validatedData)
      (InsertHealthMetrics.stressLevel validatedData)
      (InsertHealthMetrics.sleepQuality validatedData)
      (InsertHealthMetrics.neuralActivity validatedData)
      (InsertHealthMetrics.dailySteps validatedData)
      (InsertHealthMetrics.sleepDuration validatedData)
      now in
  if references_users (InsertHealthMetrics.userId validatedData) t then
    Js.Ok (row, mkTables (users t) (healthMetrics t ++ [row]) (dreamAnalysis t)
                         (aiChats t) (userSettings t))
  else Js.Throw foreign_key_violation.

(** [insert(dreamAnalysis).values({ userId, dreamText, symbols, emotions,
    aiAnalysis }).returning()]. *)
Definition insert_dreamAnalysis (uuid : string) (now : Date) (userId dreamText : string)
    (symbols : list string) (emotions : list Emotion.t) (aiAnalysis : string)
    (t : Tables) : Js.result (DreamAnalysis.t * Tables) :=
  let row := DreamAnalysis.mk uuid (Some userId) dreamText symbols emotions
                              (Some aiAnalysis) now in
  if references_users (Some userId) t then
    Js.Ok (row, mkTables (users t) (healthMetrics t) (dreamAnalysis t ++ [row])
                         (aiChats t) (userSettings t))
  else Js.Throw foreign_key_violation.

(** Column defaults of [user_settings]: [theme], [electrodeCount],
    [samplingRate] and [animationsEnabled] declare one; [alertThresholds]
    declares none, so a row inserted without it holds [NULL]. *)
Definition column_theme : option string := Some "dark".
Definition column_electrodeCount : option Z := Some 64.
Definition column_samplingRate : option Z := Some 500.
Definition column_alertThresholds : option Thresholds := None.
Definition column_animationsEnabled : option bool := Some true.

(** [insert(userSettings).values({ ...validatedData, userId }).returning()]. *)
Definition insert_userSettings (uuid : string) (userId : string)
    (validatedData : PartialSettings.t) (t : Tables)
  : Js.result (UserSettings.t * Tables) :=
  let row :=
    UserSettings.mk uuid (Some userId)
      (spread column_theme (PartialSettings.theme validatedData))
      (spread column_electrodeCount (PartialSettings.electrodeCount validatedData))
      (spread column_samplingRate (PartialSettings.samplingRate validatedData))
      (spread column_alertThresholds (PartialSettings.alertThresholds validatedData))
      (spread column_animationsEnabled (PartialSettings.animationsEnabled validatedData)) in
  if negb (references_users (Some userId) t) then Js.Throw foreign_key_violation
  else if userId_taken (Some userId) (userSettings t) then Js.Throw unique_violation
  else Js.Ok (row, mkTables (users t) (healthMetrics t) (dreamAnalysis t) (aiChats t)
                            (userSettings t ++ [row])).

(** One row under [.set(validatedData)]: the keys present are written. *)
Definition set_userSettings (validatedData : PartialSettings.t) (row : UserSettings.t)
  : UserSettings.t :=
  UserSettings.mk (UserSettings.id row)
    (spread (UserSettings.userId row) (PartialSettings.userId validatedData))
    (spread (UserSettings.theme row) (PartialSettings.theme validatedData))
    (spread (UserSettings.electrodeCount row) (PartialSettings.electrodeCount validatedData))
    (spread (UserSettings.samplingRate row) (PartialSettings.samplingRate validatedData))
    (spread (UserSettings.alertThresholds row) (PartialSettings.alertThresholds validatedData))
    (spread (UserSettings.animationsEnabled row)
            (PartialSettings.animationsEnabled validatedData)).

Definition has_no_key (p : PartialSettings.t) : bool :=
  match PartialSettings.userId p, PartialSettings.theme p,
        PartialSettings.electrodeCount p, PartialSettings.samplingRate p,
        PartialSettings.alertThresholds p, PartialSettings.animationsEnabled p with
  | None, None, None, None, None, None => true
  | _, _, _, _, _, _ => false
  end.

(** [update(userSettings).set(validatedData).where(eq(userId)).returning()]:
    the rows of [userId] are rewritten in place and returned; the query
    builder refuses a [set] without any column.  When [validatedData]
    carries [userId], the rows get a new [user_id], which the database
    checks against [users] and against the [user_id] of the other rows. *)
Definition update_userSettings (userId : string) (validatedData : PartialSettings.t)
    (t : Tables) : Js.result (list UserSettings.t * Tables) :=
  if has_no_key validatedData then Js.Throw "No values to set"
  else
    let hit row := Js.strict_eq (UserSettings.userId row) userId in
    let hits := filter hit (userSettings t) in
    let others := filter (fun row => negb (hit row)) (userSettings t) in
    let rows' :=
      List.map (fun row => if hit row then set_userSettings validatedData row else row)
               (userSettings t) in
    let updated :=
      Js.Ok (List.map (set_userSettings validatedData) hits,
             mkTables (users t) (healthMetrics t) (dreamAnalysis t) (aiChats t) rows') in
    match PartialSettings.userId validatedData with
    | None => updated
    | Some newId =>
        if negb (references_users newId t) then Js.Throw foreign_key_violation
        else if userId_taken newId others then Js.Throw unique_violation
        else
          match newId, hits with
          | Some _, _ :: _ :: _ => Js.Throw unique_violation
          | _, _ => updated
          end
    end.

End Db.

(* ================================================================== *)
(** ** The serverless handlers ([api/...]), over the durable store *)
(* ================================================================== *)

Module Api.

(** The body of [POST /api/ai-chat] and [POST /api/dream-analysis]. *)
Record ChatBody : Type := mkChatBody {
  message : option string;
  chat_userId : option string
}.

Record DreamBody : Type := mkDreamBody {
  dreamText : option string;
  dream_userId : option string
}.

(** [import { aiChat, healthMetrics } from '../../shared/schema'] in
    [api/ai-chat/index.ts]: the binding [aiChat] is defined when the
    schema exports that name.  It does not (the table of chat messages is
    exported as [aiChats]), so [aiChat] is [undefined]. *)
Definition aiChat_defined : bool := Db.exported "aiChat".

(** [db.insert(aiChat).values({ userId, message, isUser })]: the query
    builder throws on an [undefined] table. *)
Definition insert_aiChat (uuid : string) (now : Date) (userId message : string)
    (isUser : bool) (t : Db.Tables) : Js.result (AiChat.t * Db.Tables) :=
  if aiChat_defined then Db.insert_aiChat uuid now userId message isUser t
  else Js.Throw "Cannot convert undefined or null to object".

(** The first statement after [getDb()]: the insert of the user's
    message. *)
Definition with_user_message (d : Routes.ChatDraws) (userId message : string)
    (t : Db.Tables) : Js.result Db.Tables :=
  Js.bind (insert_aiChat (Routes.uuid1 d) (Routes.now1 d) userId message true t)
          (fun inserted => Js.Ok (snd inserted)).

(** The completion request of a chat request. *)
Definition chat_request (userId message : string) (t1 : Db.Tables) : Upstream.Request :=
  let recentMetrics :=
    Db.limit 5
      (Db.orderBy_desc HealthMetrics.timestamp
         (Db.where_userId HealthMetrics.userId userId (Db.healthMetrics t1))) in
  Upstream.chatRequest recentMetrics message.

Section WithCollaborators.
(** [openai] stands for [getOpenAIClient()] followed by the completion
    call: a client that cannot be built is a [Rejected] call. *)
Variable openai : Upstream.Request -> Upstream.Completion.
Variable JSON_parse : string -> option Upstream.Analysis.
Variable Date_toString : Date -> string.
Variable Number_toString : Q -> string.

(** A handler is given the environment, the request and the instance it
    runs in, and leaves a response and the instance as it is afterwards.
    [userId] is [req.query.userId] when it is a string. *)

(** [api/health-metrics/[userId].ts]. *)
Definition health_metrics_userId (env : Env.t) (method : string)
    (userId : option string) (i : Db.Instance) : Http.Response * Db.Instance :=
  match userId with
  | None => (Http.error "Invalid user ID" 400, i)
  | Some userId =>
      if String.eqb method "GET" then
        match Db.getDb env (Db.cachedDb i) with
        | (Js.Throw _, cached) =>
            (Http.error "Failed to fetch health metrics" 500,
             Db.mkInstance cached (Db.tables i))
        | (Js.Ok _, cached) =>
            let metrics :=
              Db.limit 50
                (Db.orderBy_desc HealthMetrics.timestamp
                   (Db.where_userId HealthMetrics.userId userId
                      (Db.healthMetrics (Db.tables i)))) in
            (Http.success (Http.Json_metrics metrics) 200,
             Db.mkInstance cached (Db.tables i))
        end
      else (Http.methodNotAllowed ["GET"], i)
  end.

(** The rows the export handler selects: no [limit] in this query. *)
Definition export_metrics (userId : string) (t : Db.Tables) : list HealthMetrics.t :=
  Db.orderBy_desc HealthMetrics.timestamp
    (Db.where_userId HealthMetrics.userId userId (Db.healthMetrics t)).

(** [api/export/[userId].ts]. *)
Definition export_userId (env : Env.t) (method : string)
    (userId : option string) (i : Db.Instance) : Http.Response * Db.Instance :=
  match userId with
  | None => (Http.error "Invalid user ID" 400, i)
  | Some userId =>
      if String.eqb method "GET" then
        match Db.getDb env (Db.cachedDb i) with
        | (Js.Throw _, cached) =>
            (Http.error "Failed to export data" 500,
             Db.mkInstance cached (Db.tables i))
        | (Js.Ok _, cached) =>
            let metrics := export_metrics userId (Db.tables i) in
            let i' := Db.mkInstance cached (Db.tables i) in
            match metrics with
            | [] => (Http.mk 200 Csv.exportHeaders (Http.Text "No data available"), i')
            | _ :: _ =>
                let csvRows := Csv.csvRows Date_toString Number_toString metrics in
                let csvContent :=
                  Js.join (String "010" EmptyString) (Csv.csvHeader :: csvRows) in
                (Http.mk 200 Csv.exportHeaders (Http.Text csvContent), i')
            end
        end
      else (Http.methodNotAllowed ["GET"], i)
  end.

(** [api/ai-chat/index.ts]; [d] holds the identifiers and clock readings
    of the two inserted rows.  Every statement after the check of the
    body runs inside the [try], whose [catch] answers 500. *)
Definition ai_chat (env : Env.t) (method : string) (d : Routes.ChatDraws)
    (body : ChatBody) (i : Db.Instance) : Http.Response * Db.Instance :=
  if String.eqb method "POST" then
    match Js.string_or_null (message body), Js.string_or_null (chat_userId body) with
    | Some message, Some userId =>
        match Db.getDb env (Db.cachedDb i) with
        | (Js.Throw _, cached) =>
            (Http.error "Failed to process chat message" 500,
             Db.mkInstance cached (Db.tables i))
        | (Js.Ok _, cached) =>
            match with_user_message d userId message (Db.tables i) with
            | Js.Throw _ =>
                (Http.error "Failed to process chat message" 500,
                 Db.mkInstance cached (Db.tables i))
            | Js.Ok t1 =>
                match openai (chat_request userId message t1) with
                | Upstream.Rejected =>
                    (Http.error "Failed to process chat message" 500,
                     Db.mkInstance cached t1)
                | Upstream.Content content =>
                    let aiResponse := Js.string_or content Upstream.fallbackReply in
                    match insert_aiChat (Routes.uuid2 d) (Routes.now2 d) userId
                                        aiResponse false t1 with
                    | Js.Throw _ =>
                        (Http.error "Failed to process chat message" 500,
                         Db.mkInstance cached t1)
                    | Js.Ok (newChat, t2) =>
                        (Http.success (Http.Json_chat newChat) 201,
                         Db.mkInstance cached t2)
                    end
                end
            end
        end
    | _, _ => (Http.badRequest "Missing message or userId", i)
    end
  else (Http.methodNotAllowed ["POST"], i).

(** [api/dream-analysis/index.ts]. *)
Definition dream_analysis (env : Env.t) (method : string) (uuid : string) (now : Date)
    (body : DreamBody) (i : Db.Instance) : Http.Response * Db.Instance :=
  if String.eqb method "POST" then
    match Js.string_or_null (dreamText body), Js.string_or_null (dream_userId body) with
    | Some dreamText, Some userId =>
        match openai (Upstream.dreamRequest dreamText) with
        | Upstream.Rejected => (Http.error "Failed to analyze dream" 500, i)
        | Upstream.Content content =>
            match JSON_parse (Js.string_or content "{}") with
            | None => (Http.error "Failed to analyze dream" 500, i)
            | Some analysis =>
                match Db.getDb env (Db.cachedDb i) with
                | (Js.Throw _, cached) =>
                    (Http.error "Failed to analyze dream" 500,
                     Db.mkInstance cached (Db.tables i))
                | (Js.Ok _, cached) =>
                    match Db.insert_dreamAnalysis uuid now userId dreamText
                            (Js.or_default (Upstream.symbols analysis) [])
                            (Js.or_default (Upstream.emotions analysis) [])
                            (Js.string_or (Upstream.analysis analysis) "")
                            (Db.tables i) with
                    | Js.Throw _ =>
                        (Http.error "Failed to analyze dream" 500,
                         Db.mkInstance cached (Db.tables i))
                    | Js.Ok (newAnalysis, t') =>
                        (Http.success (Http.Json_dream newAnalysis) 201,
                         Db.mkInstance cached t')
                    end
                end
            end
        end
    | _, _ => (Http.badRequest "Missing dreamText or userId", i)
    end
  else (Http.methodNotAllowed ["POST"], i).

(** [api/settings/[userId].ts], the [POST]/[PUT] branch; [body] is [None]
    when the schema rejects the request body.  [getDb()] is called
    outside the [try]: when it throws, the handler throws. *)
Definition settings_userId_post (env : Env.t) (uuid : string) (userId : string)
    (body : option PartialSettings.t) (i : Db.Instance)
  : Js.result (Http.Response * Db.Instance) :=
  match Db.getDb env (Db.cachedDb i) with
  | (Js.Throw m, _) => Js.Throw m
  | (Js.Ok _, cached) =>
      match body with
      | None => Js.Ok (Http.badRequest "Invalid settings data",
                       Db.mkInstance cached (Db.tables i))
      | Some validatedData =>
          let existing :=
            Db.limit 1 (Db.where_userId UserSettings.userId userId
                          (Db.userSettings (Db.tables i))) in
          match existing with
          | _ :: _ =>
              match Db.update_userSettings userId validatedData (Db.tables i) with
              | Js.Throw _ =>
                  Js.Ok (Http.error "Failed to update settings" 500,
                         Db.mkInstance cached (Db.tables i))
              | Js.Ok (updated, t') =>
                  Js.Ok (Http.success (Http.Json_settings (hd_error updated)) 200,
                         Db.mkInstance cached t')
              end
          | [] =>
              match Db.insert_userSettings uuid userId validatedData (Db.tables i) with
              | Js.Throw _ =>
                  Js.Ok (Http.error "Failed to update settings" 500,
                         Db.mkInstance cached (Db.tables i))
              | Js.Ok (result, t') =>
                  Js.Ok (Http.success (Http.Json_settings (Some result)) 200,
                         Db.mkInstance cached t')
              end
          end
      end
  end.

End WithCollaborators.
End Api.

(* ================================================================== *)
(** ** The signal generator ([client/src/hooks/use-metrics.tsx]) *)
(* ================================================================== *)

Module Signal.

Record HealthMetrics : Type := mkHealthMetrics {
  heartRate : Z;
  stressLevel : Z;
  sleepQuality : Z;
  neuralActivity : Z;
  dailySteps : option Z;
  sleepDuration : option Q
}.

Record EEGData : Type := mkEEGData {
  alphaWaves : list Q;
  betaWaves : list Q;
  timestamp : Date
}.

Record NeuralActivity : Type := mkNeuralActivity {
  frontal : Z;
  temporal : Z;
  parietal : Z;
  occipital : Z;
  brainstem : Z
}.

(** The three pieces of state of [useMetrics]. *)
Record State : Type := mkState {
  currentMetrics : HealthMetrics;
  eegData : EEGData;
  regions : NeuralActivity
}.

(** What one call of [updateMetrics] draws from outside: the results of
    [Math.random()], in the order of the calls, and of [Date.now()]. *)
Record Tick : Type := mkTick {
  r_heartRate : Q;
  r_stressLevel : Q;
  r_sleepQuality : Q;
  r_neuralActivity : Q;
  r_dailySteps : Q;
  now_alpha : Date;
  r_alpha : Q;
  now_beta : Date;
  r_beta : Q;
  now_stamp : Date;
  r_frontal : Q;
  r_temporal : Q;
  r_parietal : Q;
  r_occipital : Q;
  r_brainstem : Q
}.

(** [Math.floor(r * k)]. *)
Definition floor_times (r : Q) (k : Z) : Z := Qfloor (r * inject_Z k).

(** [Math.max(lo, Math.min(hi, x))]. *)
Definition clamp (lo hi x : Z) : Z := Z.max lo (Z.min hi x).

(** The value of [Math.PI]. *)
Definition Math_PI : Q := 884279719003555 # 281474976710656.

Section WithSine.
Variable Math_sin : Q -> Q.

(** [Math.sin(x) * amplitude + r * noise], as the exact rational.  In
    floating point the two products and the sum are each rounded to the
    nearest double; rounding never crosses a whole number, so a closed
    bound by whole numbers on the exact value holds for the double too,
    while a strict bound may be reached. *)
Definition wave (x : Q) (amplitude : Z) (r : Q) (noise : Z) : Q :=
  (Math_sin x * inject_Z amplitude + r * inject_Z noise)%Q.

(** [Array.from({length}, f)], the [i]-th call of [f] drawing [draws i]. *)
Definition Array_from {A D} (length : nat) (draws : nat -> D) (f : D -> A) : list A :=
  List.map (fun i => f (draws i)) (seq 0 length).

(** The initial state; [alpha0 i] and [beta0 i] are the two random
    numbers of the [i]-th initial sample of each band, [now] the clock. *)
Definition initial (alpha0 beta0 : nat -> Q * Q) (now : Date) : State :=
  mkState
    (mkHealthMetrics 72 34 87 92 (Some 8247) (Some (738 # 100)))
    (mkEEGData
       (Array_from 50 alpha0 (fun d => wave (fst d * Math_PI * 2) 50 (snd d) 20))
       (Array_from 50 beta0 (fun d => wave (fst d * Math_PI * 4) 30 (snd d) 15))
       now)
    (mkNeuralActivity 85 72 68 91 77).

Definition nextMetrics (k : Tick) (prev : HealthMetrics) : HealthMetrics :=
  mkHealthMetrics
    (clamp 60 100 (heartRate prev + floor_times (r_heartRate k) 6 - 3))
    (clamp 0 100 (stressLevel prev + floor_times (r_stressLevel k) 10 - 5))
    (clamp 0 100 (sleepQuality prev + floor_times (r_sleepQuality k) 6 - 3))
    (clamp 0 100 (neuralActivity prev + floor_times (r_neuralActivity k) 8 - 4))
    (match Js.int_or_null (dailySteps prev) with
     | Some steps => Some (steps + floor_times (r_dailySteps k) 50)
     | None => Some 8247
     end)
    (sleepDuration prev).

(** The two samples a tick appends. *)
Definition alphaSample (k : Tick) : Q :=
  wave (inject_Z (now_alpha k) * (1 # 100)) 50 (r_alpha k) 20.

Definition betaSample (k : Tick) : Q :=
  wave (inject_Z (now_beta k) * (2 # 100)) 30 (r_beta k) 15.

Definition nextEeg (k : Tick) (prev : EEGData) : EEGData :=
  mkEEGData
    (Js.slice 1 None (alphaWaves prev) ++ [alphaSample k])
    (Js.slice 1 None (betaWaves prev) ++ [betaSample k])
    (now_stamp k).

Definition nextRegions (k : Tick) (prev : NeuralActivity) : NeuralActivity :=
  mkNeuralActivity
    (clamp 20 100 (frontal prev + floor_times (r_frontal k) 10 - 5))
    (clamp 20 100 (temporal prev + floor_times (r_temporal k) 8 - 4))
    (clamp 20 100 (parietal prev + floor_times (r_parietal k) 6 - 3))
    (clamp 20 100 (occipital prev + floor_times (r_occipital k) 12 - 6))
    (clamp 20 100 (brainstem prev + floor_times (r_brainstem k) 4 - 2)).

(** One run of the interval callback. *)
Definition updateMetrics (k : Tick) (s : State) : State :=
  mkState (nextMetrics k (currentMetrics s))
          (nextEeg k (eegData s))
          (nextRegions k (regions s)).

(** The state after the ticks of [ks], oldest first. *)
Definition run (ks : list Tick) (s : State) : State :=
  fold_left (fun s k => updateMetrics k s) ks s.

End WithSine.

(** [Math.random()] returns a number in [[0, 1)]. *)
Definition unit_interval (r : Q) : Prop := (0 <= r /\ r < 1)%Q.

(** [Math.sin] returns a number in [[-1, 1]]. *)
Definition sine_range (Math_sin : Q -> Q) : Prop :=
  forall x : Q, (-1 <= Math_sin x /\ Math_sin x <= 1)%Q.

Definition in_range (lo hi x : Z) : Prop := lo <= x <= hi.

Definition sample_in_range (x : Q) : Prop := (-100 <= x /\ x <= 100)%Q.

(** The declared ranges of the four scalar metrics. *)
Definition metrics_in_range (m : HealthMetrics) : Prop :=
  in_range 60 100 (heartRate m) /\ in_range 0 100 (stressLevel m) /\
  in_range 0 100 (sleepQuality m) /\ in_range 0 100 (neuralActivity m).

Definition eeg_in_range (e : EEGData) : Prop :=
  Forall sample_in_range (alphaWaves e) /\ Forall sample_in_range (betaWaves e).

Definition tick_draws_ok (k : Tick) : Prop :=
  unit_interval (r_alpha k) /\ unit_interval (r_beta k).

End Signal.

(* ================================================================== *)
(** ** The remaining routes, handlers and generators *)
(* ================================================================== *)

(** What a request is answered with: a status with the JSON data, or one
    of the problem responses. *)
Module Reply.
Inductive t (A : Type) : Type :=
| Data (status : Z) (data : A)
| Problem (response : Http.Response).
Arguments Data {A} status data.
Arguments Problem {A} response.

Definition status {A} (r : t A) : Z :=
  match r with
  | Data status _ => status
  | Problem response => Http.status response
  end.
End Reply.

(** The Express routes ([registerRoutes]) not modelled above. *)
Module RoutesRest.


(** [GET /api/dream-analysis/:userId]. *)
Definition get_dream_analysis (userId : string) (st : MemStorage.t)
  : Reply.t (list DreamAnalysis.t) :=
  Reply.Data 200 (MemStorage.getDreamAnalyses st userId 20).

(** [GET /api/ai-chat/:userId]. *)
Definition get_ai_chat (userId : string) (st : MemStorage.t)
  : Reply.t (list AiChat.t) :=
  Reply.Data 200 (MemStorage.getAiChats st userId 50).

End RoutesRest.

(** The serverless handlers ([api/...]) not modelled above. *)
Module ApiRest.

(** [api/health-metrics/index.ts]; [body] is [None] when the schema
    rejects the request body. *)
Definition health_metrics_index (env : Env.t) (method : string) (uuid : string)
    (now : Date) (body : option InsertHealthMetrics.t) (i : Db.Instance)
  : Reply.t HealthMetrics.t * Db.Instance :=
  if String.eqb method "POST" then
    match body with
    | None => (Reply.Problem (Http.badRequest "Invalid health metrics data"), i)
    | Some validatedData =>
        match Db.getDb env (Db.cachedDb i) with
        | (Js.Throw _, cached) =>
            (Reply.Problem (Http.error "Failed to create health metrics" 500),
             Db.mkInstance cached (Db.tables i))
        | (Js.Ok _, cached) =>
            match Db.insert_healthMetrics uuid now validatedData (Db.tables i) with
            | Js.Throw _ =>
                (Reply.Problem (Http.error "Failed to create health metrics" 500),
                 Db.mkInstance cached (Db.tables i))
            | Js.Ok (newMetrics, t') =>
                (Reply.Data 201 newMetrics, Db.mkInstance cached t')
            end
        end
    end
  else (Reply.Problem (Http.methodNotAllowed ["POST"]), i).

(** The query of the three listing handlers:
    [select().from(table).where(eq(table.userId, userId))
     .orderBy(desc(table.timestamp)).limit(n)]. *)
Definition select_recent {R} (owner : R -> option string) (timestamp : R -> Date)
    (userId : string) (n : nat) (rows : list R) : list R :=
  Db.limit n (Db.orderBy_desc timestamp (Db.where_userId owner userId rows)).

(** The shape shared by the listing handlers: the [userId] check, the
    method check, [getDb()] and the query inside the [try]. *)
Definition listing {R} (failure : string) (rows : Db.Tables -> list R)
    (owner : R -> option string) (timestamp : R -> Date) (n : nat)
    (env : Env.t) (method : string) (userId : option string) (i : Db.Instance)
  : Reply.t (list R) * Db.Instance :=
  match userId with
  | None => (Reply.Problem (Http.error "Invalid user ID" 400), i)
  | Some userId =>
      if String.eqb method "GET" then
        match Db.getDb env (Db.cachedDb i) with
        | (Js.Throw _, cached) =>
            (Reply.Problem (Http.error failure 500), Db.mkInstance cached (Db.tables i))
        | (Js.Ok _, cached) =>
            (Reply.Data 200 (select_recent owner timestamp userId n (rows (Db.tables i))),
             Db.mkInstance cached (Db.tables i))
        end
      else (Reply.Problem (Http.methodNotAllowed ["GET"]), i)
  end.

(** [api/dream-analysis/[userId].ts]. *)
Definition dream_analysis_userId
  : Env.t -> string -> option string -> Db.Instance
    -> Reply.t (list DreamAnalysis.t) * Db.Instance :=
  listing "Failed to fetch dream analyses" Db.dreamAnalysis
          DreamAnalysis.userId DreamAnalysis.timestamp 20.

(** [api/ai-chat/[userId].ts]. *)
Definition ai_chat_userId
  : Env.t -> string -> option string -> Db.Instance
    -> Reply.t (list AiChat.t) * Db.Instance :=
  listing "Failed to fetch chat history" Db.aiChats
          AiChat.userId AiChat.timestamp 50.

End ApiRest.

(** [client/src/lib/data-simulation.ts]: the waveform generator. *)
Module Simulation.
Section WithSine.
Variable Math_sin : Q -> Q.

(** [generateEEGData(length)]; [alpha i] and [beta i] are the two random
    numbers of the [i]-th sample of each band, [now] the clock. *)
Definition generateEEGData (length : nat) (alpha beta : nat -> Q * Q) (now : Date)
  : Signal.EEGData :=
  Signal.mkEEGData
    (Signal.Array_from length alpha
       (fun d => Signal.wave Math_sin (fst d * Signal.Math_PI * 2) 50 (snd d) 20))
    (Signal.Array_from length beta
       (fun d => Signal.wave Math_sin (fst d * Signal.Math_PI * 4) 30 (snd d) 15))
    now.

End WithSine.
End Simulation.

(* ================================================================== *)
(** * Properties *)
(* ================================================================== *)

(** ** Facts about the JavaScript primitives *)

Module JsFacts.

Section Sorting.
Context {A : Type}.
Variable compare : A -> A -> Z.

Lemma sort_insert_perm (x : A) (l : list A) :
  Permutation (x :: l) (Js.sort_insert compare x l).
Proof.
  induction l as [|y l IH]; simpl.
  - apply Permutation_refl.
  - destruct (compare x y <=? 0).
    + apply Permutation_refl.
    + eapply perm_trans; [apply perm_swap|].
      now apply perm_skip.
Qed.

Lemma sort_perm (l : list A) : Permutation l (Js.sort compare l).
Proof.
  induction l as [|x l IH]; simpl.
  - constructor.
  - eapply perm_trans; [|apply sort_insert_perm].
    now apply perm_skip.
Qed.

Lemma sort_length (l : list A) : length (Js.sort compare l) = length l.
Proof. symmetry. apply Permutation_length, sort_perm. Qed.

Lemma sort_In (x : A) (l : list A) : In x (Js.sort compare l) <-> In x l.
Proof.
  split; intro H.
  - eapply Permutation_in; [apply Permutation_sym, sort_perm|exact H].
  - eapply Permutation_in; [apply sort_perm|exact H].
Qed.

Lemma sort_Forall (P : A -> Prop) (l : list A) :
  Forall P l -> Forall P (Js.sort compare l).
Proof.
  rewrite !Forall_forall. intros H x Hx. apply H. now apply sort_In.
Qed.

(** The order a comparator induces, for a comparator that is total and
    transitive. *)
Definition before (a b : A) : Prop := compare a b <= 0.

Hypothesis compare_total : forall a b, 0 < compare a b -> compare b a <= 0.
Hypothesis compare_trans : forall a b c, before a b -> before b c -> before a c.

Lemma sort_insert_sorted (x : A) (l : list A) :
  StronglySorted before l -> StronglySorted before (Js.sort_insert compare x l).
Proof.
  induction l as [|y l IH]; simpl; intro Hs.
  - repeat constructor.
  - inversion Hs as [|? ? Hl Hy]; subst.
    destruct (Z.leb_spec (compare x y) 0) as [Hxy|Hxy].
    + constructor; [exact Hs|].
      constructor; [exact Hxy|].
      rewrite Forall_forall in *. intros z Hz.
      eapply compare_trans; [exact Hxy|now apply Hy].
    + constructor; [now apply IH|].
      rewrite Forall_forall in *. intros z Hz.
      apply (Permutation_in _ (Permutation_sym (sort_insert_perm x l))) in Hz.
      destruct Hz as [<-|Hz]; [now apply compare_total|now apply Hy].
Qed.

Lemma sort_sorted (l : list A) : StronglySorted before (Js.sort compare l).
Proof.
  induction l as [|x l IH]; simpl.
  - constructor.
  - now apply sort_insert_sorted.
Qed.

End Sorting.

Section ByKey.
Context {A : Type}.
Variable key : A -> Z.

(** [ascending] and [descending] lists of records, by their key. *)
Definition ascending : list A -> Prop :=
  StronglySorted (fun a b => key a <= key b).

Definition descending : list A -> Prop :=
  StronglySorted (fun a b => key b <= key a).

Lemma sort_ascending (l : list A) :
  ascending (Js.sort (fun a b => key a - key b) l).
Proof.
  unfold ascending.
  eapply StronglySorted_ind with
    (P := fun l => StronglySorted (fun a b => key a <= key b) l);
    [constructor | | apply (sort_sorted (fun a b => key a - key b))].
  - intros a l' _ IH Hall. constructor; [exact IH|].
    eapply Forall_impl; [|exact Hall]. unfold before. simpl. intros; lia.
  - intros; lia.
  - unfold before. intros; lia.
Qed.

Lemma sort_descending (l : list A) :
  descending (Js.sort (fun a b => key b - key a) l).
Proof.
  unfold descending.
  eapply StronglySorted_ind with
    (P := fun l => StronglySorted (fun a b => key b <= key a) l);
    [constructor | | apply (sort_sorted (fun a b => key b - key a))].
  - intros a l' _ IH Hall. constructor; [exact IH|].
    eapply Forall_impl; [|exact Hall]. unfold before. simpl. intros; lia.
  - intros; lia.
  - unfold before. intros; lia.
Qed.

End ByKey.

Section Slices.
Context {A : Type}.

Lemma StronglySorted_skipn (R : A -> A -> Prop) (n : nat) (l : list A) :
  StronglySorted R l -> StronglySorted R (skipn n l).
Proof.
  revert l. induction n as [|n IH]; intros l Hs; simpl; [exact Hs|].
  destruct l as [|x l]; [constructor|].
  inversion Hs; subst. now apply IH.
Qed.

Lemma StronglySorted_firstn (R : A -> A -> Prop) (n : nat) (l : list A) :
  StronglySorted R l -> StronglySorted R (firstn n l).
Proof.
  revert l. induction n as [|n IH]; intros l Hs; simpl; [constructor|].
  destruct l as [|x l]; [constructor|].
  inversion Hs as [|? ? Hl Hx]; subst. constructor; [now apply IH|].
  rewrite Forall_forall in *. intros y Hy. apply Hx.
  rewrite <- (firstn_skipn n l). apply in_or_app. now left.
Qed.

Lemma In_skipn (x : A) (n : nat) (l : list A) : In x (skipn n l) -> In x l.
Proof.
  intro H. rewrite <- (firstn_skipn n l). apply in_or_app. now right.
Qed.

Lemma In_firstn (x : A) (n : nat) (l : list A) : In x (firstn n l) -> In x l.
Proof.
  intro H. rewrite <- (firstn_skipn n l). apply in_or_app. now left.
Qed.

Lemma In_slice (x : A) (start : Z) (end_ : option Z) (l : list A) :
  In x (Js.slice start end_ l) -> In x l.
Proof.
  unfold Js.slice. intro H. eapply In_skipn, In_firstn, H.
Qed.

Lemma Forall_slice (P : A -> Prop) (start : Z) (end_ : option Z) (l : list A) :
  Forall P l -> Forall P (Js.slice start end_ l).
Proof.
  rewrite !Forall_forall. intros H x Hx. eapply H, In_slice, Hx.
Qed.

(** [l.slice(0, n)] keeps the first [n] elements. *)
Lemma slice_head (n : Z) (l : list A) :
  0 <= n -> Js.slice 0 (Some n) l = firstn (Z.to_nat n) l.
Proof.
  intro Hn. unfold Js.slice, Js.relative_index.
  change (0 <? 0) with false. cbv iota.
  destruct (Z.ltb_spec n 0) as [?|_]; [lia|].
  replace (Z.min 0 (Z.of_nat (length l))) with 0 by lia.
  rewrite Z.sub_0_r. change (skipn (Z.to_nat 0) l) with l.
  destruct (Z.min_spec n (Z.of_nat (length l))) as [[Hlt ->]|[Hge ->]].
  - reflexivity.
  - rewrite Nat2Z.id, firstn_all. symmetry. apply firstn_all2. lia.
Qed.

(** [l.slice(-n)] keeps the last [n] elements, for [n] at least [1]. *)
Lemma slice_tail (n : Z) (l : list A) :
  1 <= n -> Js.slice (- n) None l = skipn (length l - Z.to_nat n) l.
Proof.
  intro Hn. unfold Js.slice, Js.relative_index.
  destruct (Z.ltb_spec (- n) 0) as [_|?]; [|lia].
  replace (Z.to_nat (Z.max (Z.of_nat (length l) + - n) 0))
    with (length l - Z.to_nat n)%nat by lia.
  apply firstn_all2. rewrite length_skipn. lia.
Qed.

(** [l.slice(-0)] is [l.slice(0)]: the whole array. *)
Lemma slice_minus_zero (l : list A) : Js.slice (- 0) None l = l.
Proof.
  unfold Js.slice, Js.relative_index.
  change (- 0 <? 0) with false. cbv iota. change (- 0) with 0.
  replace (Z.min 0 (Z.of_nat (length l))) with 0 by lia.
  rewrite Z.sub_0_r, Nat2Z.id. apply firstn_all.
Qed.

(** [l.slice(1)] drops the first element. *)
Lemma slice_one (l : list A) : Js.slice 1 None l = tl l.
Proof.
  unfold Js.slice, Js.relative_index.
  change (1 <? 0) with false. cbv iota.
  destruct l as [|x l]; [reflexivity|].
  assert (E : Z.to_nat (Z.min 1 (Z.of_nat (length (x :: l)))) = 1%nat)
    by (cbn [length]; lia).
  rewrite E. cbn [skipn tl]. apply firstn_all2. cbn [length]. lia.
Qed.

End Slices.

Lemma map_get_set {V} (k : string) (v : V) (m : Js.map V) :
  Js.map_get k (Js.map_set k v m) = Some v.
Proof.
  induction m as [|[k' v'] m IH]; simpl.
  - now rewrite String.eqb_refl.
  - destruct (String.eqb k' k) eqn:E; simpl.
    + now rewrite String.eqb_refl.
    + now rewrite E.
Qed.

Lemma map_set_fresh {V} (k : string) (v : V) (m : Js.map V) :
  ~ In k (Js.map_keys m) -> Js.map_set k v m = (m ++ [(k, v)])%list.
Proof.
  induction m as [|[k' v'] m IH]; simpl; intro Hk; [reflexivity|].
  destruct (String.eqb_spec k' k) as [->|_]; [tauto|].
  f_equal. apply IH. tauto.
Qed.

Lemma strict_eq_true (a : option string) (b : string) :
  Js.strict_eq a b = true <-> a = Some b.
Proof.
  destruct a as [s|]; simpl.
  - rewrite String.eqb_eq. split; congruence.
  - split; discriminate.
Qed.

Lemma string_or_null_nonempty (s : string) :
  s <> "" -> Js.string_or_null (Some s) = Some s.
Proof.
  intro Hs. unfold Js.string_or_null.
  destruct (String.eqb_spec s ""); [contradiction|reflexivity].
Qed.

End JsFacts.

(* ================================================================== *)
(** ** The record store *)
(* ================================================================== *)

Module StoreFacts.

(** The chat messages of a user, in the order of the [Map]. *)
Definition chats_of (st : MemStorage.t) (userId : string) : list AiChat.t :=
  filter (fun chat => Js.strict_eq (AiChat.userId chat) userId)
         (Js.map_values (MemStorage.aiChats st)).

(** The same messages, ascending by timestamp. *)
Definition chats_ascending (st : MemStorage.t) (userId : string) : list AiChat.t :=
  Js.sort (fun a b => AiChat.timestamp a - AiChat.timestamp b) (chats_of st userId).

(** Tail-limit: the last [n] elements of a list, in their order. *)
Definition last_n {A} (n : nat) (l : list A) : list A :=
  skipn (length l - n) l.

(** Tail semantics of the chat listing at one limit: the listing is the
    last [limit] of the user's messages in ascending order. *)
Definition tail_truncated (st : MemStorage.t) (userId : string) (limit : Z) : Prop :=
  MemStorage.getAiChats st userId limit
  = last_n (Z.to_nat limit) (chats_ascending st userId).

(** A store with the chat messages [0 .. n-1] of one user, inserted in
    this order at the times [1000, 2000, ...]. *)
Fixpoint chat_history (userId : string) (n : nat) : MemStorage.t :=
  match n with
  | O => MemStorage.new
  | S k =>
      snd (MemStorage.createAiChat
             ("chat-" ++ Js.string_of_int (Z.of_nat k))
             (1000 * Z.of_nat n)
             (InsertAiChat.mk (Some userId) "hello" true)
             (chat_history userId k))
  end.

Lemma last_n_length {A} (n : nat) (l : list A) :
  length (last_n n l) = Nat.min n (length l).
Proof. unfold last_n. rewrite length_skipn. lia. Qed.

Lemma getAiChats_unfold (st : MemStorage.t) (userId : string) (limit : Z) :
  MemStorage.getAiChats st userId limit
  = Js.slice (- limit) None (chats_ascending st userId).
Proof. reflexivity. Qed.

(** For every store, every user and every limit of at least one, the
    chat listing is the user's messages sorted ascending
    by timestamp and cut to the last [limit] of them: it is a suffix of
    the ascending list, it is itself ascending, it holds
    [min limit n] messages, and the ascending list is a rearrangement of
    exactly the user's messages. *)
Theorem getAiChats_tail (st : MemStorage.t) (userId : string) (limit : Z) :
  1 <= limit ->
  tail_truncated st userId limit
  /\ Permutation (chats_of st userId) (chats_ascending st userId)
  /\ JsFacts.ascending AiChat.timestamp (chats_ascending st userId)
  /\ JsFacts.ascending AiChat.timestamp (MemStorage.getAiChats st userId limit)
  /\ length (MemStorage.getAiChats st userId limit)
     = Nat.min (Z.to_nat limit) (length (chats_of st userId)).
Proof.
  intro Hlimit.
  assert (Htail : tail_truncated st userId limit).
  { unfold tail_truncated, last_n. rewrite getAiChats_unfold.
    now apply JsFacts.slice_tail. }
  assert (Hasc : JsFacts.ascending AiChat.timestamp (chats_ascending st userId))
    by apply JsFacts.sort_ascending.
  repeat split.
  - exact Htail.
  - apply JsFacts.sort_perm.
  - exact Hasc.
  - rewrite Htail. unfold last_n. now apply JsFacts.StronglySorted_skipn.
  - rewrite Htail, last_n_length. unfold chats_ascending.
    now rewrite JsFacts.sort_length.
Qed.

(** The default limit on sixty inserted messages: the last fifty, in
    ascending order. *)
Lemma getAiChats_tail_witness :
  1 <= 50
  /\ (tail_truncated (chat_history "u1" 60) "u1" 50
      /\ Permutation (chats_of (chat_history "u1" 60) "u1")
                     (chats_ascending (chat_history "u1" 60) "u1")
      /\ JsFacts.ascending AiChat.timestamp (chats_ascending (chat_history "u1" 60) "u1")
      /\ JsFacts.ascending AiChat.timestamp
           (MemStorage.getAiChats (chat_history "u1" 60) "u1" 50)
      /\ length (MemStorage.getAiChats (chat_history "u1" 60) "u1" 50)
         = Nat.min (Z.to_nat 50) (length (chats_of (chat_history "u1" 60) "u1"))).
Proof.
  split; [lia | apply (getAiChats_tail (chat_history "u1" 60) "u1" 50); lia].
Defined.

Example chat_tail_60 :
  List.map AiChat.timestamp (MemStorage.getAiChats (chat_history "u1" 60) "u1" 50)
  = List.map (fun k => 1000 * Z.of_nat k) (seq 11 50).
Proof. vm_compute. reflexivity. Qed.

(** C1 (the code at the failing input).  At the limit [0] the chat
    listing is [slice(-0)], which is [slice(0)]: for every store and
    every user it returns all of the user's messages, oldest first, where
    the last zero messages are none; so it is not tail-truncated as soon
    as the user has a message.  The two sibling listings, cut by
    [slice(0, limit)], return no record at the limit [0]. *)
Theorem getAiChats_limit_zero_whole (st : MemStorage.t) (userId : string) :
  MemStorage.getAiChats st userId 0 = chats_ascending st userId
  /\ length (MemStorage.getAiChats st userId 0) = length (chats_of st userId)
  /\ (chats_of st userId <> [] -> ~ tail_truncated st userId 0)
  /\ MemStorage.getHealthMetrics st userId 0 = []
  /\ MemStorage.getDreamAnalyses st userId 0 = [].
Proof.
  assert (Hall : MemStorage.getAiChats st userId 0 = chats_ascending st userId).
  { rewrite getAiChats_unfold. apply JsFacts.slice_minus_zero. }
  assert (Hlen : length (chats_ascending st userId) = length (chats_of st userId)).
  { unfold chats_ascending. apply JsFacts.sort_length. }
  split; [exact Hall|]. split; [now rewrite Hall|]. split.
  - intros Hsome Htail. unfold tail_truncated in Htail.
    rewrite Hall in Htail. unfold last_n in Htail.
    apply (f_equal (@length AiChat.t)) in Htail.
    rewrite length_skipn, Hlen in Htail.
    destruct (chats_of st userId); [now apply Hsome|cbn in Htail; lia].
  - split.
    + unfold MemStorage.getHealthMetrics. now rewrite JsFacts.slice_head by lia.
    + unfold MemStorage.getDreamAnalyses. now rewrite JsFacts.slice_head by lia.
Qed.

(** With two stored messages, the limit [0] returns both. *)
Lemma getAiChats_limit_zero :
  ~ tail_truncated (chat_history "u1" 2) "u1" 0.
Proof.
  unfold tail_truncated. vm_compute. discriminate.
Qed.

Example getAiChats_limit_zero_all :
  List.map AiChat.id (MemStorage.getAiChats (chat_history "u1" 2) "u1" 0)
  = ["chat-0"; "chat-1"].
Proof. vm_compute. reflexivity. Qed.

(** *** Falsy optional fields of a metric sample *)

(** C10.  [createHealthMetrics] stores the record it returns, and in that
    record every falsy value of an optional field has become [null]: a
    [dailySteps] of [0], a [sleepDuration] of [0] and a [userId] of [""],
    just like an absent one; any other value is kept. *)
Theorem createHealthMetrics_falsy_null
    (uuid : string) (now : Date) (ins : InsertHealthMetrics.t) (st : MemStorage.t) :
  let stored := fst (MemStorage.createHealthMetrics uuid now ins st) in
  let st' := snd (MemStorage.createHealthMetrics uuid now ins st) in
  Js.map_get uuid (MemStorage.healthMetrics st') = Some stored
  /\ (InsertHealthMetrics.dailySteps ins = Some 0 ->
      HealthMetrics.dailySteps stored = None)
  /\ (forall q : Q, InsertHealthMetrics.sleepDuration ins = Some q -> (q == 0)%Q ->
      HealthMetrics.sleepDuration stored = None)
  /\ (InsertHealthMetrics.userId ins = Some "" ->
      HealthMetrics.userId stored = None)
  /\ (InsertHealthMetrics.dailySteps ins = None ->
      HealthMetrics.dailySteps stored = None)
  /\ (forall n : Z, InsertHealthMetrics.dailySteps ins = Some n -> n <> 0 ->
      HealthMetrics.dailySteps stored = Some n).
Proof.
  cbn zeta. unfold MemStorage.createHealthMetrics. cbn [fst snd].
  cbn [MemStorage.healthMetrics HealthMetrics.dailySteps
       HealthMetrics.sleepDuration HealthMetrics.userId].
  split; [apply JsFacts.map_get_set|].
  split; [intros ->; reflexivity|].
  split.
  { intros q -> Hq. unfold Js.num_or_null.
    apply Qeq_bool_iff in Hq. now rewrite Hq. }
  split; [intros ->; reflexivity|].
  split; [intros ->; reflexivity|].
  intros n -> Hn. unfold Js.int_or_null.
  destruct (Z.eqb_spec n 0); [contradiction|reflexivity].
Qed.

Lemma createHealthMetrics_falsy_null_witness :
  let ins := InsertHealthMetrics.mk (Some "") 72 34 87 92 (Some 0) (Some (0 # 1)) in
  let stored := fst (MemStorage.createHealthMetrics "m1" 1000 ins MemStorage.new) in
  HealthMetrics.dailySteps stored = None
  /\ HealthMetrics.sleepDuration stored = None
  /\ HealthMetrics.userId stored = None.
Proof.
  cbv zeta.
  destruct (createHealthMetrics_falsy_null "m1" 1000
              (InsertHealthMetrics.mk (Some "") 72 34 87 92 (Some 0) (Some (0 # 1)))
              MemStorage.new) as (_ & Hsteps & Hsleep & Huser & _).
  split; [apply Hsteps; reflexivity|].
  split; [apply (Hsleep (0 # 1)); reflexivity|].
  apply Huser; reflexivity.
Defined.

(** *** The settings merge of the in-memory store *)

(** Precedence of three tiers: the partial value when the key is present,
    else the stored value when a record existed, else the default. *)
Definition three_tier {A} (partial existing : option A) (default : A) : A :=
  match partial, existing with
  | Some v, _ => v
  | None, Some v => v
  | None, None => default
  end.

Lemma spread_three_tier {A} (default : A) (existing partial : option A) :
  spread (spread default existing) partial = three_tier partial existing default.
Proof. now destruct partial, existing. Qed.

(** [MemStorage.updateUserSettings] is the three-tier merge, field by
    field, with the defaults of the claim; the merged record is the one
    stored; without a prior record a new entry is appended (for a fresh
    identifier). *)
Lemma updateUserSettings_merge
    (uuid userId : string) (partial : PartialSettings.t) (st : MemStorage.t) :
  let existing := MemStorage.getUserSettings st userId in
  let merged := fst (MemStorage.updateUserSettings uuid userId partial st) in
  let st' := snd (MemStorage.updateUserSettings uuid userId partial st) in
  UserSettings.theme merged
    = three_tier (PartialSettings.theme partial)
                 (option_map UserSettings.theme existing) (Some "dark")
  /\ UserSettings.electrodeCount merged
    = three_tier (PartialSettings.electrodeCount partial)
                 (option_map UserSettings.electrodeCount existing) (Some 64)
  /\ UserSettings.samplingRate merged
    = three_tier (PartialSettings.samplingRate partial)
                 (option_map UserSettings.samplingRate existing) (Some 500)
  /\ UserSettings.alertThresholds merged
    = three_tier (PartialSettings.alertThresholds partial)
                 (option_map UserSettings.alertThresholds existing) (Some [])
  /\ UserSettings.animationsEnabled merged
    = three_tier (PartialSettings.animationsEnabled partial)
                 (option_map UserSettings.animationsEnabled existing) (Some true)
  /\ UserSettings.userId merged
    = three_tier (PartialSettings.userId partial)
                 (option_map UserSettings.userId existing) (Some userId)
  /\ Js.map_get (MemStorage.settingsKey uuid existing) (MemStorage.userSettings st')
    = Some merged
  /\ (existing = None -> ~ In uuid (Js.map_keys (MemStorage.userSettings st)) ->
      MemStorage.userSettings st'
      = (MemStorage.userSettings st ++ [(uuid, merged)])%list).
Proof.
  cbn zeta. unfold MemStorage.updateUserSettings. cbn [fst snd].
  unfold MemStorage.mergeSettings.
  cbn [UserSettings.theme UserSettings.electrodeCount UserSettings.samplingRate
       UserSettings.alertThresholds UserSettings.animationsEnabled
       UserSettings.userId MemStorage.userSettings].
  rewrite !spread_three_tier.
  repeat (split; [reflexivity|]).
  split; [apply JsFacts.map_get_set|].
  intros Hnone Hfresh. rewrite Hnone. cbn [MemStorage.settingsKey option_map].
  unfold Js.string_or. cbn [Js.string_or_null].
  now apply JsFacts.map_set_fresh.
Qed.

(** A partial object may carry [userId]; it is spread last and wins over
    the [userId] argument. *)
Example settings_partial_userId :
  let st := snd (MemStorage.updateUserSettings "s1" "A"
                   (PartialSettings.mk (Some (Some "B")) None None None None None)
                   MemStorage.new) in
  option_map UserSettings.id (MemStorage.getUserSettings st "B") = Some "s1"
  /\ MemStorage.getUserSettings st "A" = None.
Proof. vm_compute. split; reflexivity. Qed.

(** The example of the specification: stored [theme = "light"], partial
    [{ electrodeCount: 128 }]. *)
Example settings_precedence :
  let st := snd (MemStorage.updateUserSettings "s1" "u1"
                   (PartialSettings.mk None (Some (Some "light")) None None None None)
                   MemStorage.new) in
  let merged := fst (MemStorage.updateUserSettings "s2" "u1"
                   (PartialSettings.mk None None (Some (Some 128)) None None None) st) in
  UserSettings.theme merged = Some "light"
  /\ UserSettings.electrodeCount merged = Some 128
  /\ UserSettings.samplingRate merged = Some 500
  /\ UserSettings.id merged = "s1".
Proof. vm_compute. repeat split. Qed.

End StoreFacts.

(* ================================================================== *)
(** ** Isolation between users *)
(* ================================================================== *)

Module IsolationFacts.

(** Every record of [l] carries the user [userId]. *)
Definition owned_by {R} (owner : R -> option string) (userId : string) (l : list R)
  : Prop :=
  Forall (fun r => owner r = Some userId) l.

Lemma filter_owned {R} (owner : R -> option string) (userId : string) (l : list R) :
  owned_by owner userId (filter (fun r => Js.strict_eq (owner r) userId) l).
Proof.
  apply Forall_forall. intros r Hr. apply filter_In in Hr.
  now apply JsFacts.strict_eq_true.
Qed.

Lemma owned_excludes {R} (owner : R -> option string) (A B : string) (l : list R) (r : R) :
  owned_by owner B l -> A <> B -> owner r = Some A -> ~ In r l.
Proof.
  intros Hl HAB Hr Hin.
  unfold owned_by in Hl. rewrite Forall_forall in Hl.
  specialize (Hl r Hin). congruence.
Qed.

Lemma getHealthMetrics_owned (st : MemStorage.t) (userId : string) (limit : Z) :
  owned_by HealthMetrics.userId userId (MemStorage.getHealthMetrics st userId limit).
Proof.
  unfold MemStorage.getHealthMetrics.
  apply JsFacts.Forall_slice, JsFacts.sort_Forall, filter_owned.
Qed.

Lemma getDreamAnalyses_owned (st : MemStorage.t) (userId : string) (limit : Z) :
  owned_by DreamAnalysis.userId userId (MemStorage.getDreamAnalyses st userId limit).
Proof.
  unfold MemStorage.getDreamAnalyses.
  apply JsFacts.Forall_slice, JsFacts.sort_Forall, filter_owned.
Qed.

Lemma getAiChats_owned (st : MemStorage.t) (userId : string) (limit : Z) :
  owned_by AiChat.userId userId (MemStorage.getAiChats st userId limit).
Proof.
  unfold MemStorage.getAiChats.
  apply JsFacts.Forall_slice, JsFacts.sort_Forall, filter_owned.
Qed.

Lemma getUserSettings_owned (st : MemStorage.t) (userId : string) (s : UserSettings.t) :
  MemStorage.getUserSettings st userId = Some s -> UserSettings.userId s = Some userId.
Proof.
  unfold MemStorage.getUserSettings, Js.find. intro H.
  apply find_some in H. now apply JsFacts.strict_eq_true.
Qed.

Lemma db_select_owned {R} (owner : R -> option string) (timestamp : R -> Date)
    (userId : string) (rows : list R) :
  owned_by owner userId (Db.orderBy_desc timestamp (Db.where_userId owner userId rows)).
Proof.
  unfold Db.orderBy_desc, Db.where_userId.
  apply JsFacts.sort_Forall, filter_owned.
Qed.

Lemma string_or_null_owner (A B : string) (x : option string) :
  x = Some A -> A <> B -> Js.string_or_null x <> Some B.
Proof.
  intros -> HAB. unfold Js.string_or_null.
  destruct (String.eqb A ""); congruence.
Qed.

(** Every record returned by a read scoped to a user carries that
    user's [userId]: the three listings and the settings lookup of the
    in-memory store, the metric listing and the export of the durable
    store, and the lines of both exports, which render such records.
    Hence a record carrying another user's [userId] is in none of them,
    and a record created for user [A] (by one of the three [create]
    operations, or by a settings update for [A] whose partial object has
    no [userId] key) is never returned to a different user [B],
    whatever the store holds by then. *)
Theorem reads_scoped_to_user
    (st : MemStorage.t) (t : Db.Tables) (B : string) (limit : Z) :
  (owned_by HealthMetrics.userId B (MemStorage.getHealthMetrics st B limit)
   /\ owned_by DreamAnalysis.userId B (MemStorage.getDreamAnalyses st B limit)
   /\ owned_by AiChat.userId B (MemStorage.getAiChats st B limit)
   /\ (forall s, MemStorage.getUserSettings st B = Some s ->
       UserSettings.userId s = Some B)
   /\ owned_by HealthMetrics.userId B (Routes.export_metrics B st)
   /\ owned_by HealthMetrics.userId B (Api.export_metrics B t)
   /\ owned_by HealthMetrics.userId B
        (Db.limit 50 (Db.orderBy_desc HealthMetrics.timestamp
                        (Db.where_userId HealthMetrics.userId B (Db.healthMetrics t)))))
  /\ (forall (A : string), A <> B ->
      (forall m, HealthMetrics.userId m = Some A ->
         ~ In m (MemStorage.getHealthMetrics st B limit)
         /\ ~ In m (Routes.export_metrics B st)
         /\ ~ In m (Api.export_metrics B t))
      /\ (forall d, DreamAnalysis.userId d = Some A ->
          ~ In d (MemStorage.getDreamAnalyses st B limit))
      /\ (forall c, AiChat.userId c = Some A ->
          ~ In c (MemStorage.getAiChats st B limit))
      /\ (forall s, UserSettings.userId s = Some A ->
          MemStorage.getUserSettings st B <> Some s))
  /\ (forall (A : string) (uuid : string) (now : Date) (st0 : MemStorage.t), A <> B ->
      (forall ins, InsertHealthMetrics.userId ins = Some A ->
         ~ In (fst (MemStorage.createHealthMetrics uuid now ins st0))
              (MemStorage.getHealthMetrics st B limit))
      /\ (forall ins, InsertDreamAnalysis.userId ins = Some A ->
         ~ In (fst (MemStorage.createDreamAnalysis uuid now ins st0))
              (MemStorage.getDreamAnalyses st B limit))
      /\ (forall ins, InsertAiChat.userId ins = Some A ->
         ~ In (fst (MemStorage.createAiChat uuid now ins st0))
              (MemStorage.getAiChats st B limit))
      /\ (forall partial, PartialSettings.userId partial = None ->
         MemStorage.getUserSettings st B
         <> Some (fst (MemStorage.updateUserSettings uuid A partial st0)))).
Proof.
  assert (Hm := getHealthMetrics_owned st B limit).
  assert (Hd := getDreamAnalyses_owned st B limit).
  assert (Hc := getAiChats_owned st B limit).
  assert (Hx : owned_by HealthMetrics.userId B (Routes.export_metrics B st))
    by apply getHealthMetrics_owned.
  assert (Hy : owned_by HealthMetrics.userId B (Api.export_metrics B t))
    by apply db_select_owned.
  split; [|split].
  - repeat split; try assumption.
    + intros s. apply getUserSettings_owned.
    + unfold Db.limit. apply Forall_forall. intros r Hr.
      apply JsFacts.In_firstn in Hr. revert r Hr. apply Forall_forall.
      apply db_select_owned.
  - intros A HAB. repeat split.
    + now apply (owned_excludes HealthMetrics.userId A B).
    + now apply (owned_excludes HealthMetrics.userId A B).
    + now apply (owned_excludes HealthMetrics.userId A B).
    + intros d Hdo. now apply (owned_excludes DreamAnalysis.userId A B).
    + intros c Hco. now apply (owned_excludes AiChat.userId A B).
    + intros s Hs Hget. apply getUserSettings_owned in Hget. congruence.
  - intros A uuid now st0 HAB. repeat split.
    + intros ins Hins Hin.
      unfold owned_by in Hm. rewrite Forall_forall in Hm. apply Hm in Hin.
      cbn in Hin. now apply (string_or_null_owner A B) in Hin.
    + intros ins Hins Hin.
      unfold owned_by in Hd. rewrite Forall_forall in Hd. apply Hd in Hin.
      cbn in Hin. now apply (string_or_null_owner A B) in Hin.
    + intros ins Hins Hin.
      unfold owned_by in Hc. rewrite Forall_forall in Hc. apply Hc in Hin.
      cbn in Hin. now apply (string_or_null_owner A B) in Hin.
    + intros partial Hp Hget. apply getUserSettings_owned in Hget.
      destruct (StoreFacts.updateUserSettings_merge uuid A partial st0)
        as (_ & _ & _ & _ & _ & Hu & _).
      cbn zeta in Hu. rewrite Hu, Hp in Hget.
      destruct (MemStorage.getUserSettings st0 A) as [e|] eqn:He; cbn in Hget.
      * apply getUserSettings_owned in He. congruence.
      * congruence.
Qed.

(** A store with one sample of [alice] and one of [bob]. *)
Definition sample_of (userId : string) : InsertHealthMetrics.t :=
  InsertHealthMetrics.mk (Some userId) 72 34 87 92 None None.

Definition two_users : MemStorage.t :=
  snd (MemStorage.createHealthMetrics "m2" 2000 (sample_of "bob")
         (snd (MemStorage.createHealthMetrics "m1" 1000 (sample_of "alice")
                 MemStorage.new))).

Lemma reads_scoped_to_user_witness :
  "alice" <> "bob"
  /\ owned_by HealthMetrics.userId "bob" (MemStorage.getHealthMetrics two_users "bob" 50)
  /\ ~ In (fst (MemStorage.createHealthMetrics "m1" 1000 (sample_of "alice")
                  MemStorage.new))
          (MemStorage.getHealthMetrics two_users "bob" 50).
Proof.
  destruct (reads_scoped_to_user two_users Db.empty "bob" 50)
    as ((Hm & _) & _ & Hcreate).
  assert (Hab : "alice" <> "bob") by discriminate.
  split; [exact Hab|]. split; [exact Hm|].
  destruct (Hcreate "alice" "m1" 1000 MemStorage.new Hab) as (H & _).
  apply H. reflexivity.
Defined.

(** [find] on a map after [set]: when no value stored before satisfies
    the test and the new value does, the new value is the one found. *)
Lemma find_map_set_new {V} (p : V -> bool) (k : string) (v : V) (m : Js.map V) :
  Js.find p (Js.map_values m) = None -> p v = true ->
  Js.find p (Js.map_values (Js.map_set k v m)) = Some v.
Proof.
  unfold Js.find, Js.map_values. intros Hnone Hv.
  induction m as [|[k' v'] m IH]; cbn [Js.map_set List.map snd List.find].
  - now rewrite Hv.
  - cbn [List.map snd List.find] in Hnone.
    destruct (p v') eqn:Hv'; [discriminate|].
    destruct (String.eqb k' k); cbn [List.map snd List.find].
    + now rewrite Hv.
    + rewrite Hv'. now apply IH.
Qed.

(** C7 (the code at the failing input).  A settings update made for user
    [A] with a partial object that carries [userId = B] stores a record of
    user [B]: [partialSettings] is spread after [userId].  When [B] had
    no settings, the record this request for [A] created is what the
    settings lookup of [B] returns, on the store and through the two
    Express routes. *)
Theorem settings_update_crosses_users
    (uuid A B : string) (partial : PartialSettings.t) (st : MemStorage.t) :
  PartialSettings.userId partial = Some (Some B) ->
  MemStorage.getUserSettings st B = None ->
  let created := fst (MemStorage.updateUserSettings uuid A partial st) in
  let st' := snd (MemStorage.updateUserSettings uuid A partial st) in
  UserSettings.userId created = Some B
  /\ MemStorage.getUserSettings st' B = Some created
  /\ Routes.post_settings uuid A (Some partial) st
     = (Routes.json (Http.Json_settings (Some created)), st')
  /\ Routes.get_settings B st' = Routes.json (Http.Json_settings (Some created)).
Proof.
  intros Hpartial Hnone. cbn zeta.
  assert (Hid : UserSettings.userId (fst (MemStorage.updateUserSettings uuid A partial st))
                = Some B).
  { unfold MemStorage.updateUserSettings, MemStorage.mergeSettings.
    cbn [fst UserSettings.userId]. now rewrite Hpartial. }
  assert (Hget : MemStorage.getUserSettings
                   (snd (MemStorage.updateUserSettings uuid A partial st)) B
                 = Some (fst (MemStorage.updateUserSettings uuid A partial st))).
  { unfold MemStorage.getUserSettings in *.
    unfold MemStorage.updateUserSettings at 1. cbn [snd MemStorage.userSettings].
    apply find_map_set_new; [exact Hnone|].
    change (MemStorage.mergeSettings _ A _ partial)
      with (fst (MemStorage.updateUserSettings uuid A partial st)).
    rewrite Hid. cbn [Js.strict_eq]. apply String.eqb_refl. }
  split; [exact Hid|]. split; [exact Hget|]. split.
  - unfold Routes.post_settings.
    now destruct (MemStorage.updateUserSettings uuid A partial st).
  - unfold Routes.get_settings. now rewrite Hget.
Qed.

Lemma settings_update_crosses_users_witness :
  let partial := PartialSettings.mk (Some (Some "bob")) None None None None None in
  let st' := snd (MemStorage.updateUserSettings "s1" "alice" partial MemStorage.new) in
  "alice" <> "bob"
  /\ option_map UserSettings.id (MemStorage.getUserSettings st' "bob") = Some "s1"
  /\ MemStorage.getUserSettings st' "alice" = None.
Proof.
  cbv zeta.
  destruct (settings_update_crosses_users "s1" "alice" "bob"
              (PartialSettings.mk (Some (Some "bob")) None None None None None)
              MemStorage.new eq_refl eq_refl) as (_ & Hget & _).
  split; [discriminate|]. split.
  - rewrite Hget. reflexivity.
  - reflexivity.
Defined.

(** The serverless insert spreads [validatedData] before [userId]: the
    new row belongs to the user of the request path, whatever [userId]
    the body carries. *)
Lemma insert_userSettings_owner
    (uuid userId : string) (validatedData : PartialSettings.t) (t t' : Db.Tables)
    (row : UserSettings.t) :
  Db.insert_userSettings uuid userId validatedData t = Js.Ok (row, t') ->
  UserSettings.userId row = Some userId.
Proof.
  unfold Db.insert_userSettings.
  destruct (negb (Db.references_users (Some userId) t)); [discriminate|].
  destruct (Db.userId_taken (Some userId) (Db.userSettings t)); [discriminate|].
  intro H. now injection H as <- _.
Qed.

Example two_users_listing :
  List.map HealthMetrics.id (MemStorage.getHealthMetrics two_users "bob" 50) = ["m2"]
  /\ List.map HealthMetrics.id (MemStorage.getHealthMetrics two_users "alice" 50) = ["m1"]
  /\ MemStorage.getHealthMetrics two_users "carol" 50 = [].
Proof. vm_compute. repeat split. Qed.

End IsolationFacts.

(* ================================================================== *)
(** ** The export *)
(* ================================================================== *)

Module ExportFacts.

(** The metric samples of a user in each store. *)
Definition samples_of (st : MemStorage.t) (userId : string) : list HealthMetrics.t :=
  filter (fun metric => Js.strict_eq (HealthMetrics.userId metric) userId)
         (Js.map_values (MemStorage.healthMetrics st)).

Definition rows_of (t : Db.Tables) (userId : string) : list HealthMetrics.t :=
  Db.where_userId HealthMetrics.userId userId (Db.healthMetrics t).

(** [n] samples of one user, taken at the times [0, 1, ..., n-1]. *)
Definition samples (userId : string) (n : nat) : list HealthMetrics.t :=
  List.map (fun k => HealthMetrics.mk ("m-" ++ Js.string_of_int (Z.of_nat k))
                       (Some userId) 72 34 87 92 None None (Z.of_nat k))
           (seq 0 n).

(** The same samples in the in-memory store and in the durable store. *)
Definition mem_with (l : list HealthMetrics.t) : MemStorage.t :=
  MemStorage.mk [] (List.map (fun m => (HealthMetrics.id m, m)) l) [] [] [].

Definition db_with (l : list HealthMetrics.t) : Db.Tables :=
  Db.mkTables [] l [] [] [].

(** The tables [t] with a row of [users] for [userId] added. *)
Definition with_user (userId : string) (t : Db.Tables) : Db.Tables :=
  Db.mkTables (Db.users t ++ [User.mk userId ("name-" ++ userId) "secret"])
              (Db.healthMetrics t) (Db.dreamAnalysis t) (Db.aiChats t)
              (Db.userSettings t).

(** An environment with the connection string set. *)
Definition configured : Env.t :=
  Env.mk (Some "secret") (Some "postgres://db") None.

(** A host rendering of dates and of fractional numbers, for examples. *)
Definition show_date (d : Date) : string := Js.string_of_int d.
Definition show_number (q : Q) : string :=
  Js.string_of_int (Qnum q) ++ "/" ++ Js.string_of_int (Z.pos (Qden q)).

Section WithToString.
Variable Date_toString : Date -> string.
Variable Number_toString : Q -> string.

Lemma getHealthMetrics_default (st : MemStorage.t) (userId : string) :
  MemStorage.getHealthMetrics st userId 50
  = firstn 50 (Js.sort (fun a b => HealthMetrics.timestamp b - HealthMetrics.timestamp a)
                 (samples_of st userId)).
Proof.
  unfold MemStorage.getHealthMetrics. now rewrite JsFacts.slice_head by lia.
Qed.

(** The Express export takes at most fifty samples, the most recent
    first, and prints one line for each. *)
Lemma express_export_bounded (st : MemStorage.t) (userId : string) :
  Routes.export_metrics userId st
  = firstn 50 (Js.sort (fun a b => HealthMetrics.timestamp b - HealthMetrics.timestamp a)
                 (samples_of st userId))
  /\ JsFacts.descending HealthMetrics.timestamp (Routes.export_metrics userId st)
  /\ (length (Csv.csvRows Date_toString Number_toString
                (Routes.export_metrics userId st)) <= 50)%nat.
Proof.
  unfold Routes.export_metrics. rewrite getHealthMetrics_default.
  split; [reflexivity|]. split.
  - apply JsFacts.StronglySorted_firstn, JsFacts.sort_descending.
  - unfold Csv.csvRows. rewrite length_map, length_firstn. lia.
Qed.

(** The serverless export prints a line for every sample of the user. *)
Lemma serverless_export_all (t : Db.Tables) (userId : string) :
  Permutation (rows_of t userId) (Api.export_metrics userId t)
  /\ JsFacts.descending HealthMetrics.timestamp (Api.export_metrics userId t)
  /\ length (Csv.csvRows Date_toString Number_toString (Api.export_metrics userId t))
     = length (rows_of t userId).
Proof.
  unfold Api.export_metrics, Db.orderBy_desc, rows_of. split; [|split].
  - apply JsFacts.sort_perm.
  - apply JsFacts.sort_descending.
  - unfold Csv.csvRows. now rewrite length_map, JsFacts.sort_length.
Qed.

(** C5 (the code at the failing input).  For a user without any metric
    sample the Express route answers 200 with the empty string as its
    body, neither a "no data" message nor a header line; the serverless
    handler answers 200 with the body "No data available". *)
Theorem export_without_samples
    (env : Env.t) (url : string) (userId : string)
    (st : MemStorage.t) (i : Db.Instance) :
  samples_of st userId = [] ->
  rows_of (Db.tables i) userId = [] ->
  Js.string_or_null (Env.DATABASE_URL env) = Some url ->
  Routes.get_export Date_toString Number_toString userId st
  = Http.mk 200 Csv.exportHeaders (Http.Text "")
  /\ fst (Api.export_userId Date_toString Number_toString env "GET" (Some userId) i)
     = Http.mk 200 Csv.exportHeaders (Http.Text "No data available").
Proof.
  intros Hmem Hdb Hurl. split.
  - unfold Routes.get_export, Routes.export_metrics.
    rewrite getHealthMetrics_default, Hmem. reflexivity.
  - unfold Api.export_userId. cbn [String.eqb Ascii.eqb Bool.eqb].
    unfold Db.getDb. rewrite Hurl.
    unfold Api.export_metrics. fold (rows_of (Db.tables i) userId). rewrite Hdb.
    destruct (Db.cachedDb i); reflexivity.
Qed.

End WithToString.

Lemma export_without_samples_witness :
  Routes.get_export show_date show_number "u1" MemStorage.new
  = Http.mk 200 Csv.exportHeaders (Http.Text "")
  /\ fst (Api.export_userId show_date show_number configured "GET" (Some "u1")
            (Db.mkInstance None Db.empty))
     = Http.mk 200 Csv.exportHeaders (Http.Text "No data available").
Proof.
  exact (export_without_samples show_date show_number configured "postgres://db" "u1"
           MemStorage.new (Db.mkInstance None Db.empty)
           eq_refl eq_refl eq_refl).
Defined.

(** The line count of an export body. *)
Definition body_lines (r : Http.Response) : list string :=
  match Http.body r with
  | Http.Text content => Text.split "010" content
  | _ => []
  end.

(** C9 (the code at the failing input).  With fifty-one samples stored
    for a user, the serverless export holds fifty-one data lines under
    its header, the oldest sample included, while the Express export of
    the same samples holds fifty. *)
Theorem export_fifty_one :
  length (Api.export_metrics "u1" (db_with (samples "u1" 51))) = 51%nat
  /\ length (body_lines
       (fst (Api.export_userId show_date show_number configured "GET" (Some "u1")
               (Db.mkInstance None (db_with (samples "u1" 51)))))) = 52%nat
  /\ List.map HealthMetrics.timestamp
       (Api.export_metrics "u1" (db_with (samples "u1" 51)))
     = List.map Z.of_nat (rev (seq 0 51))
  /\ length (Routes.export_metrics "u1" (mem_with (samples "u1" 51))) = 50%nat
  /\ length (body_lines
       (Routes.get_export show_date show_number "u1" (mem_with (samples "u1" 51))))
     = 51%nat.
Proof. vm_compute. repeat split. Qed.

Example export_one_sample :
  Http.body (Routes.get_export show_date show_number "u1" (mem_with (samples "u1" 1)))
  = Http.Text
      ("timestamp,heartRate,stressLevel,sleepQuality,neuralActivity,dailySteps,sleepDuration"
       ++ String "010" "0,72,34,87,92,,").
Proof. vm_compute. reflexivity. Qed.

End ExportFacts.

(* ================================================================== *)
(** ** Failure of the interpretation collaborator *)
(* ================================================================== *)

Module UpstreamFacts.

(** A collaborator that rejects every call, and a parser that accepts
    nothing. *)
Definition down : Upstream.Request -> Upstream.Completion :=
  fun _ => Upstream.Rejected.

Definition unparseable : string -> option Upstream.Analysis := fun _ => None.

Definition draws0 : Routes.ChatDraws := Routes.mkChatDraws "c1" 1000 "c2" 2000.

Definition hello : Routes.ChatBody := Routes.mkChatBody "hello" (Some (Some "u1")).

Definition dream0 : Routes.DreamBody := Routes.mkDreamBody "I was flying" (Some "u1").

Section WithCollaborators.
Variable openai : Upstream.Request -> Upstream.Completion.
Variable JSON_parse : string -> option Upstream.Analysis.

(** The collaborator fails on a dream: the call is rejected, or what it
    returns does not parse. *)
Definition dream_fails (dreamText : string) : Prop :=
  openai (Upstream.dreamRequest dreamText) = Upstream.Rejected
  \/ exists content,
       openai (Upstream.dreamRequest dreamText) = Upstream.Content content
       /\ JSON_parse (Js.string_or content "{}") = None.

(** The statement that a failed chat request leaves the store as it was. *)
Definition chat_failure_keeps_store (d : Routes.ChatDraws) (body : Routes.ChatBody)
    (st : MemStorage.t) : Prop :=
  openai (Routes.chat_request body (Routes.with_user_message d body st))
  = Upstream.Rejected ->
  Http.status (fst (Routes.post_ai_chat openai d body st)) = 500
  /\ snd (Routes.post_ai_chat openai d body st) = st.

(** The user's message as [post_ai_chat] stores it. *)
Definition user_message (d : Routes.ChatDraws) (body : Routes.ChatBody) : AiChat.t :=
  AiChat.mk (Routes.uuid1 d) (Js.string_or_null (Routes.insert_userId body))
            (Routes.message body) true (Routes.now1 d).

(** C8 (as amended).  When the collaborator fails, the create-dream
    route, in the Express server and in the serverless handler, answers
    500 and has stored nothing: the store is the one before the request.
    The Express send-chat route answers 500 too, but it has stored the
    user's message before calling the collaborator: after the failure
    the store is the one before the request with that message set under
    its fresh identifier, the other collections untouched, and no reply
    stored.  The serverless send-chat handler never reaches the
    collaborator: its first insert names a table the schema does not
    export, so every request that passes the check of the body is
    answered 500 with nothing stored, whatever the collaborator would
    do. *)
Theorem upstream_failure :
  (forall uuid now body st,
     dream_fails (Routes.dreamText body) ->
     Routes.post_dream_analysis openai JSON_parse uuid now body st
     = (Routes.fail 500 "Failed to analyze dream", st))
  /\ (forall d body st,
     openai (Routes.chat_request body (Routes.with_user_message d body st))
     = Upstream.Rejected ->
     Routes.post_ai_chat openai d body st
     = (Routes.fail 500 "Failed to process chat message",
        MemStorage.mk (MemStorage.users st) (MemStorage.healthMetrics st)
          (MemStorage.dreamAnalyses st)
          (Js.map_set (Routes.uuid1 d) (user_message d body) (MemStorage.aiChats st))
          (MemStorage.userSettings st)))
  /\ (forall env uuid now dreamText userId i,
     dreamText <> "" -> userId <> "" ->
     dream_fails dreamText ->
     Api.dream_analysis openai JSON_parse env "POST" uuid now
       (Api.mkDreamBody (Some dreamText) (Some userId)) i
     = (Http.error "Failed to analyze dream" 500, i))
  /\ (forall env d message userId i,
     message <> "" -> userId <> "" ->
     Api.ai_chat openai env "POST" d (Api.mkChatBody (Some message) (Some userId)) i
     = (Http.error "Failed to process chat message" 500,
        Db.mkInstance (snd (Db.getDb env (Db.cachedDb i))) (Db.tables i))).
Proof.
  repeat split.
  - intros uuid now body st [Hrej|(content & Hc & Hp)];
      unfold Routes.post_dream_analysis.
    + now rewrite Hrej.
    + now rewrite Hc, Hp.
  - intros d body st Hrej. unfold Routes.post_ai_chat. now rewrite Hrej.
  - intros env uuid now dreamText userId i Ht Hu [Hrej|(content & Hc & Hp)];
      unfold Api.dream_analysis; cbn [String.eqb Ascii.eqb Bool.eqb];
      cbn [Api.dreamText Api.dream_userId];
      rewrite (JsFacts.string_or_null_nonempty _ Ht),
              (JsFacts.string_or_null_nonempty _ Hu).
    + now rewrite Hrej.
    + now rewrite Hc, Hp.
  - intros env d message userId i Hm Hu.
    unfold Api.ai_chat. cbn [String.eqb Ascii.eqb Bool.eqb].
    cbn [Api.message Api.chat_userId].
    rewrite (JsFacts.string_or_null_nonempty _ Hm),
            (JsFacts.string_or_null_nonempty _ Hu).
    destruct (Db.getDb env (Db.cachedDb i)) as [[db|m] cached]; reflexivity.
Qed.

End WithCollaborators.

Lemma upstream_failure_witness :
  Routes.post_dream_analysis down unparseable "d1" 1000 dream0 MemStorage.new
  = (Routes.fail 500 "Failed to analyze dream", MemStorage.new)
  /\ Routes.post_ai_chat down draws0 hello MemStorage.new
     = (Routes.fail 500 "Failed to process chat message",
        MemStorage.mk [] [] []
          [("c1", AiChat.mk "c1" (Some "u1") "hello" true 1000)] [])
  /\ Api.ai_chat down ExportFacts.configured "POST" draws0
       (Api.mkChatBody (Some "hello") (Some "u1")) (Db.mkInstance None Db.empty)
     = (Http.error "Failed to process chat message" 500,
        Db.mkInstance (Some "postgres://db") Db.empty).
Proof.
  destruct (upstream_failure down unparseable) as (Hdream & Hchat & _ & Hserverless).
  split; [|split].
  - apply Hdream. left. reflexivity.
  - apply (Hchat draws0 hello MemStorage.new). reflexivity.
  - apply (Hserverless ExportFacts.configured draws0 "hello" "u1"
             (Db.mkInstance None Db.empty)); discriminate.
Defined.

(** C8 (counterexample).  A chat request on the empty store with the
    collaborator down answers 500 and leaves one chat message in the
    store. *)
Lemma chat_failure_stores_message :
  ~ chat_failure_keeps_store down draws0 hello MemStorage.new.
Proof.
  unfold chat_failure_keeps_store. intro H.
  destruct (H eq_refl) as [_ Hst]. vm_compute in Hst. discriminate.
Qed.

End UpstreamFacts.

(* ================================================================== *)
(** ** The settings defaults of the two stores *)
(* ================================================================== *)

Module SettingsFacts.

Lemma filter_nil_existsb {A} (p : A -> bool) (l : list A) :
  filter p l = [] -> existsb p l = false.
Proof.
  induction l as [|x l IH]; cbn [filter existsb]; [reflexivity|].
  destruct (p x); [discriminate|exact IH].
Qed.

(** C2 (the code at the failing input).  For a user who has a row in
    [users] and no settings, and a partial object without
    [alertThresholds], the serverless handler answers 200 with a new row
    whose other fields are the partial value or else the declared
    default, and whose [alertThresholds] is [null]: the column declares
    no default.  The in-memory store, given the same request, returns
    [alertThresholds = {}]. *)
Theorem settings_insert_defaults
    (env : Env.t) (url uuid userId : string) (partial : PartialSettings.t)
    (i : Db.Instance) (st : MemStorage.t) :
  Js.string_or_null (Env.DATABASE_URL env) = Some url ->
  Db.references_users (Some userId) (Db.tables i) = true ->
  Db.where_userId UserSettings.userId userId (Db.userSettings (Db.tables i)) = [] ->
  MemStorage.getUserSettings st userId = None ->
  PartialSettings.alertThresholds partial = None ->
  (exists row i',
     Api.settings_userId_post env uuid userId (Some partial) i
     = Js.Ok (Http.success (Http.Json_settings (Some row)) 200, i')
     /\ Db.userSettings (Db.tables i') = (Db.userSettings (Db.tables i) ++ [row])%list
     /\ UserSettings.userId row = Some userId
     /\ UserSettings.theme row
        = StoreFacts.three_tier (PartialSettings.theme partial) None (Some "dark")
     /\ UserSettings.electrodeCount row
        = StoreFacts.three_tier (PartialSettings.electrodeCount partial) None (Some 64)
     /\ UserSettings.samplingRate row
        = StoreFacts.three_tier (PartialSettings.samplingRate partial) None (Some 500)
     /\ UserSettings.animationsEnabled row
        = StoreFacts.three_tier (PartialSettings.animationsEnabled partial) None (Some true)
     /\ UserSettings.alertThresholds row = None)
  /\ UserSettings.alertThresholds
       (fst (MemStorage.updateUserSettings uuid userId partial st)) = Some [].
Proof.
  intros Hurl Huser Hrows Hmem Hpartial. split.
  - assert (Htaken : Db.userId_taken (Some userId) (Db.userSettings (Db.tables i)) = false)
      by (apply filter_nil_existsb; exact Hrows).
    unfold Api.settings_userId_post, Db.getDb. rewrite Hurl, Hrows.
    cbn [Db.limit firstn]. unfold Db.insert_userSettings.
    rewrite Huser, Htaken. cbn [negb].
    destruct (Db.cachedDb i);
      (eexists; eexists; split; [reflexivity|]);
      cbn; rewrite Hpartial;
      repeat split;
      match goal with
      | |- spread _ ?p = _ => now destruct p
      end.
  - destruct (StoreFacts.updateUserSettings_merge uuid userId partial st)
      as (_ & _ & _ & Ha & _).
    cbn zeta in Ha. now rewrite Ha, Hpartial, Hmem.
Qed.

Lemma settings_insert_defaults_witness :
  (exists i',
     Api.settings_userId_post ExportFacts.configured "s1" "u1"
       (Some PartialSettings.empty)
       (Db.mkInstance None (ExportFacts.with_user "u1" Db.empty))
     = Js.Ok (Http.success
                (Http.Json_settings
                   (Some (UserSettings.mk "s1" (Some "u1") (Some "dark") (Some 64)
                            (Some 500) None (Some true)))) 200, i'))
  /\ UserSettings.alertThresholds
       (fst (MemStorage.updateUserSettings "s1" "u1" PartialSettings.empty
               MemStorage.new)) = Some [].
Proof.
  destruct (settings_insert_defaults ExportFacts.configured "postgres://db" "s1" "u1"
              PartialSettings.empty
              (Db.mkInstance None (ExportFacts.with_user "u1" Db.empty)) MemStorage.new
              eq_refl eq_refl eq_refl eq_refl eq_refl)
    as [(row & i' & Hpost & _ & Hu & Ht & He & Hs & Ha & Hth) Hmem].
  split; [|exact Hmem].
  exists i'. rewrite Hpost. vm_compute in Hpost. injection Hpost as <- _. reflexivity.
Defined.

(** Without a row of [users] for the user, the database refuses the new
    row and the handler answers 500, leaving the tables as they were. *)
Lemma settings_insert_refused
    (env : Env.t) (url uuid userId : string) (partial : PartialSettings.t)
    (i : Db.Instance) :
  Js.string_or_null (Env.DATABASE_URL env) = Some url ->
  Db.references_users (Some userId) (Db.tables i) = false ->
  Db.where_userId UserSettings.userId userId (Db.userSettings (Db.tables i)) = [] ->
  exists i',
    Api.settings_userId_post env uuid userId (Some partial) i
    = Js.Ok (Http.error "Failed to update settings" 500, i')
    /\ Db.tables i' = Db.tables i.
Proof.
  intros Hurl Huser Hrows.
  unfold Api.settings_userId_post, Db.getDb. rewrite Hurl, Hrows.
  cbn [Db.limit firstn]. unfold Db.insert_userSettings. rewrite Huser. cbn [negb].
  destruct (Db.cachedDb i); eexists; split; reflexivity.
Qed.

End SettingsFacts.

(* ================================================================== *)
(** ** The auth layer and the configuration *)
(* ================================================================== *)

Module AuthFacts.

(** Seven days and one second, in milliseconds. *)
Definition seven_days_ms : Z := 1000 * Jwt.seven_days.
Definition one_second_ms : Z := 1000.

(** An environment where neither the signing secret nor the connection
    string is set. *)
Definition unset : Env.t := Env.mk None None None.

(** A stand-in signature function, a payload and a request for examples. *)
Definition toy_hs256 (secret : string) (c : Jwt.Claims) : string :=
  secret ++ "." ++ Jwt.userId (Jwt.payload c) ++ "." ++ Jwt.username (Jwt.payload c)
  ++ "." ++ Js.string_of_int (Jwt.iat c) ++ "." ++ Js.string_of_int (Jwt.exp c).

Definition alice : Jwt.Payload := Jwt.mkPayload "u1" "alice".

Definition bearer_abc : Auth.Headers := Auth.mkHeaders (Some "Bearer abc") None.

Lemma string_or_null_some (x : option string) (s : string) :
  Js.string_or_null x = Some s -> String.eqb s "" = false.
Proof.
  destruct x as [s'|]; simpl; [|discriminate].
  destruct (String.eqb s' "") eqn:E; [discriminate|].
  now intros [= <-].
Qed.

Lemma clock_before_expiry (issued now : Date) :
  now <= issued + (seven_days_ms - one_second_ms) ->
  Jwt.clockTimestamp now < Jwt.clockTimestamp issued + Jwt.seven_days.
Proof.
  unfold Jwt.clockTimestamp, seven_days_ms, one_second_ms, Jwt.seven_days. intro H.
  assert (now / 1000 <= (issued + 604799 * 1000) / 1000)
    by (apply Z.div_le_mono; lia).
  rewrite Z.div_add in * by lia. lia.
Qed.

Lemma clock_after_expiry (issued now : Date) :
  issued + seven_days_ms <= now ->
  Jwt.clockTimestamp issued + Jwt.seven_days <= Jwt.clockTimestamp now.
Proof.
  unfold Jwt.clockTimestamp, seven_days_ms, Jwt.seven_days. intro H.
  assert ((issued + 604800 * 1000) / 1000 <= now / 1000)
    by (apply Z.div_le_mono; lia).
  rewrite Z.div_add in * by lia. lia.
Qed.

Section WithJwt.
Variable hs256 : string -> Jwt.Claims -> string.
Variable decode : string -> Jwt.Token.

(** C6.  With a secret configured, the token issued for a payload at
    time [issued] carries that payload and expires seven days after its
    issue time (in whole seconds).  Verified under the same secret it
    yields claims with the same [userId] and [username] as long as the
    clock is before the expiry, in particular at once and up to one
    second short of seven days later, and it yields [null] from the
    expiry on.  An expired token, a token with another signature and a
    malformed token all yield the same [null]. *)
Theorem token_round_trip
    (env : Env.t) (secret : string) (p : Jwt.Payload) (issued now : Date) :
  Js.string_or_null (Env.JWT_SECRET env) = Some secret ->
  exists claims,
    Auth.generateToken hs256 env issued p
    = Js.Ok (Jwt.Signed claims (hs256 secret claims))
    /\ Jwt.payload claims = p
    /\ Jwt.exp claims = Jwt.clockTimestamp issued + Jwt.seven_days
    /\ (Jwt.clockTimestamp now < Jwt.exp claims ->
        Auth.verifyToken hs256 env now (Jwt.Signed claims (hs256 secret claims))
        = Some claims)
    /\ (Jwt.exp claims <= Jwt.clockTimestamp now ->
        Auth.verifyToken hs256 env now (Jwt.Signed claims (hs256 secret claims))
        = None)
    /\ Auth.verifyToken hs256 env issued (Jwt.Signed claims (hs256 secret claims))
       = Some claims
    /\ (now <= issued + (seven_days_ms - one_second_ms) ->
        Auth.verifyToken hs256 env now (Jwt.Signed claims (hs256 secret claims))
        = Some claims)
    /\ (issued + seven_days_ms <= now ->
        Auth.verifyToken hs256 env now (Jwt.Signed claims (hs256 secret claims))
        = None)
    /\ (forall signature, signature <> hs256 secret claims ->
        Auth.verifyToken hs256 env now (Jwt.Signed claims signature) = None)
    /\ (forall raw, Auth.verifyToken hs256 env now (Jwt.Malformed raw) = None).
Proof.
  intro Hsecret.
  assert (Hne := string_or_null_some _ _ Hsecret).
  set (claims := Jwt.mkClaims p (Jwt.clockTimestamp issued)
                   (Jwt.clockTimestamp issued + Jwt.seven_days)).
  assert (Hvalid : forall t, Jwt.clockTimestamp t < Jwt.exp claims ->
            Auth.verifyToken hs256 env t (Jwt.Signed claims (hs256 secret claims))
            = Some claims).
  { intros t Ht. unfold Auth.verifyToken, Auth.getJWTSecret. rewrite Hsecret.
    cbn [Js.bind Jwt.verify]. rewrite Hne, String.eqb_refl. cbn [negb].
    destruct (Z.geb_spec (Jwt.clockTimestamp t) (Jwt.exp claims)); [lia|reflexivity]. }
  assert (Hexpired : forall t, Jwt.exp claims <= Jwt.clockTimestamp t ->
            Auth.verifyToken hs256 env t (Jwt.Signed claims (hs256 secret claims))
            = None).
  { intros t Ht. unfold Auth.verifyToken, Auth.getJWTSecret. rewrite Hsecret.
    cbn [Js.bind Jwt.verify]. rewrite Hne, String.eqb_refl. cbn [negb].
    destruct (Z.geb_spec (Jwt.clockTimestamp t) (Jwt.exp claims)); [reflexivity|lia]. }
  exists claims. repeat split.
  - unfold Auth.generateToken, Auth.getJWTSecret. rewrite Hsecret.
    cbn [Js.bind]. unfold Jwt.sign. now rewrite Hne.
  - apply Hvalid.
  - apply Hexpired.
  - apply Hvalid. cbn [claims Jwt.exp]. unfold Jwt.seven_days. lia.
  - intro H. apply Hvalid. cbn [claims Jwt.exp]. now apply clock_before_expiry.
  - intro H. apply Hexpired. cbn [claims Jwt.exp]. now apply clock_after_expiry.
  - intros signature Hsig. unfold Auth.verifyToken, Auth.getJWTSecret.
    rewrite Hsecret. cbn [Js.bind Jwt.verify]. rewrite Hne.
    destruct (String.eqb_spec signature (hs256 secret claims)); [contradiction|].
    reflexivity.
  - intro raw. unfold Auth.verifyToken, Auth.getJWTSecret. now rewrite Hsecret.
Qed.

(** C4 (the code at the failing input).  With neither variable set,
    evaluating the two modules succeeds, and the absence shows up request
    by request: [verifyToken] swallows the exception of [getJWTSecret]
    and returns [null], so a request with a bearer token is answered 401
    like one with a bad token; [generateToken] throws when it is called;
    and the handlers answer 500 when [getDb] throws inside their [try]. *)
Theorem missing_configuration (now : Date) :
  Auth.load unset = Js.Ok "7d"
  /\ Db.load unset = Js.Ok None
  /\ (forall token, Auth.verifyToken hs256 unset now token = None)
  /\ Auth.requireAuth hs256 decode unset now bearer_abc
     = inr (Http.unauthorized "Invalid or expired token")
  /\ (forall p, exists message, Auth.generateToken hs256 unset now p = Js.Throw message)
  /\ (forall userId tables,
      Api.health_metrics_userId unset "GET" (Some userId) (Db.mkInstance None tables)
      = (Http.error "Failed to fetch health metrics" 500, Db.mkInstance None tables)).
Proof.
  repeat split.
  - intros p. eexists. reflexivity.
Qed.

End WithJwt.

Lemma token_round_trip_witness :
  Js.string_or_null (Env.JWT_SECRET ExportFacts.configured) = Some "secret"
  /\ exists claims,
       Auth.generateToken toy_hs256 ExportFacts.configured 5000 alice
       = Js.Ok (Jwt.Signed claims (toy_hs256 "secret" claims))
       /\ Jwt.payload claims = alice
       /\ Auth.verifyToken toy_hs256 ExportFacts.configured 5000
            (Jwt.Signed claims (toy_hs256 "secret" claims)) = Some claims.
Proof.
  split; [reflexivity|].
  destruct (token_round_trip toy_hs256 ExportFacts.configured "secret" alice 5000 5000
              eq_refl) as (claims & Hgen & Hp & _ & _ & _ & Hnow & _).
  exists claims. repeat split; assumption.
Defined.

Example token_expires :
  exists token,
    Auth.generateToken toy_hs256 ExportFacts.configured 5000 alice = Js.Ok token
    /\ option_map Jwt.payload
         (Auth.verifyToken toy_hs256 ExportFacts.configured (5000 + seven_days_ms - 1) token)
       = Some alice
    /\ Auth.verifyToken toy_hs256 ExportFacts.configured (5000 + seven_days_ms) token
       = None.
Proof. eexists. vm_compute. repeat split. Qed.

End AuthFacts.

(* ================================================================== *)
(** ** The signal generator *)
(* ================================================================== *)

Module SignalFacts.

Lemma clamp_in_range (lo hi x : Z) :
  lo <= hi -> Signal.in_range lo hi (Signal.clamp lo hi x).
Proof. unfold Signal.in_range, Signal.clamp. lia. Qed.

(** One tick brings the four scalars into their ranges, wherever they
    were before and whatever was drawn. *)
Lemma nextMetrics_in_range (k : Signal.Tick) (prev : Signal.HealthMetrics) :
  Signal.metrics_in_range (Signal.nextMetrics k prev).
Proof.
  unfold Signal.metrics_in_range, Signal.nextMetrics; cbn.
  repeat split; apply clamp_in_range; lia.
Qed.

(** Both buffers hold fifty samples, each within the range. *)
Definition buffers_ok (e : Signal.EEGData) : Prop :=
  Signal.eeg_in_range e
  /\ length (Signal.alphaWaves e) = 50%nat
  /\ length (Signal.betaWaves e) = 50%nat.

(** A clamped identity, standing for a sine in examples. *)
Definition toy_sin (x : Q) : Q := Qmax (-1) (Qmin 1 x).

Definition half : Q := 1 # 2.

Definition tick0 : Signal.Tick :=
  Signal.mkTick half half half half half 1000 half 1000 half 1000
                half half half half half.

Lemma toy_sin_range : Signal.sine_range toy_sin.
Proof.
  intro x. unfold toy_sin. split.
  - apply Q.le_max_l.
  - apply Q.max_lub; [discriminate|apply Q.le_min_l].
Qed.

Lemma half_unit : Signal.unit_interval half.
Proof. unfold Signal.unit_interval, half. split; [discriminate|reflexivity]. Qed.

Section WithSine.
Variable Math_sin : Q -> Q.
Hypothesis sine : Signal.sine_range Math_sin.

Lemma alpha_wave_in_range (x r : Q) :
  Signal.unit_interval r -> Signal.sample_in_range (Signal.wave Math_sin x 50 r 20).
Proof.
  intros [Hr0 Hr1]. destruct (sine x) as [Hlo Hhi].
  unfold Signal.sample_in_range, Signal.wave.
  change (inject_Z 50) with (50 # 1). change (inject_Z 20) with (20 # 1).
  split; lra.
Qed.

Lemma beta_wave_in_range (x r : Q) :
  Signal.unit_interval r -> Signal.sample_in_range (Signal.wave Math_sin x 30 r 15).
Proof.
  intros [Hr0 Hr1]. destruct (sine x) as [Hlo Hhi].
  unfold Signal.sample_in_range, Signal.wave.
  change (inject_Z 30) with (30 # 1). change (inject_Z 15) with (15 # 1).
  split; lra.
Qed.

Lemma Array_from_Forall {A D} (P : A -> Prop) (n : nat) (draws : nat -> D) (f : D -> A) :
  (forall i, P (f (draws i))) -> Forall P (Signal.Array_from n draws f).
Proof.
  intro H. unfold Signal.Array_from. apply Forall_forall. intros a Ha.
  apply in_map_iff in Ha. destruct Ha as (i & <- & _). apply H.
Qed.

Lemma initial_buffers_ok (alpha0 beta0 : nat -> Q * Q) (now : Date) :
  (forall i, Signal.unit_interval (snd (alpha0 i))) ->
  (forall i, Signal.unit_interval (snd (beta0 i))) ->
  buffers_ok (Signal.eegData (Signal.initial Math_sin alpha0 beta0 now)).
Proof.
  intros Ha Hb. unfold buffers_ok, Signal.eeg_in_range, Signal.initial; cbn -[seq].
  repeat split.
  - apply Array_from_Forall. intro i. now apply alpha_wave_in_range.
  - apply Array_from_Forall. intro i. now apply beta_wave_in_range.
Qed.

Lemma shift_ok (l : list Q) (x : Q) :
  Forall Signal.sample_in_range l -> length l = 50%nat -> Signal.sample_in_range x ->
  Forall Signal.sample_in_range (Js.slice 1 None l ++ [x])
  /\ length (Js.slice 1 None l ++ [x]) = 50%nat.
Proof.
  intros Hl Hlen Hx. split.
  - apply Forall_app. split; [now apply JsFacts.Forall_slice|now constructor].
  - rewrite JsFacts.slice_one, length_app. destruct l; [discriminate|].
    cbn in *. lia.
Qed.

Lemma nextEeg_ok (k : Signal.Tick) (prev : Signal.EEGData) :
  Signal.tick_draws_ok k -> buffers_ok prev -> buffers_ok (Signal.nextEeg Math_sin k prev).
Proof.
  intros [Hka Hkb] ([Ha Hb] & Hla & Hlb).
  destruct (shift_ok (Signal.alphaWaves prev) (Signal.alphaSample Math_sin k))
    as [Ha' Hla']; [assumption|assumption|now apply alpha_wave_in_range|].
  destruct (shift_ok (Signal.betaWaves prev) (Signal.betaSample Math_sin k))
    as [Hb' Hlb']; [assumption|assumption|now apply beta_wave_in_range|].
  unfold buffers_ok, Signal.eeg_in_range, Signal.nextEeg; cbn. tauto.
Qed.

Lemma run_metrics_in_range (ks : list Signal.Tick) (s : Signal.State) :
  Signal.metrics_in_range (Signal.currentMetrics s) ->
  Signal.metrics_in_range (Signal.currentMetrics (Signal.run Math_sin ks s)).
Proof.
  revert s. induction ks as [|k ks IH]; intros s Hs; [exact Hs|].
  cbn. apply IH. apply nextMetrics_in_range.
Qed.

Lemma run_buffers_ok (ks : list Signal.Tick) (s : Signal.State) :
  Forall Signal.tick_draws_ok ks ->
  buffers_ok (Signal.eegData s) ->
  buffers_ok (Signal.eegData (Signal.run Math_sin ks s)).
Proof.
  revert s. induction ks as [|k ks IH]; intros s Hks Hs; [exact Hs|].
  inversion Hks; subst. cbn. apply IH; [assumption|].
  now apply nextEeg_ok.
Qed.

End WithSine.

(** C3.  After any number of ticks, whatever the random draws, the four
    scalar metrics lie within their declared ranges; a single tick
    already brings them there from any previous values, as the clamp is
    applied on each tick.  With [Math.sin] in [[-1, 1]] and the random
    draws of the waveforms in [[0, 1)], every sample a tick appends lies
    within [[-100, 100]], and so does every one of the fifty samples of
    both buffers after any number of ticks. *)
Theorem bounded_walk
    (Math_sin : Q -> Q) (alpha0 beta0 : nat -> Q * Q) (now : Date)
    (ks : list Signal.Tick) :
  Signal.metrics_in_range
    (Signal.currentMetrics
       (Signal.run Math_sin ks (Signal.initial Math_sin alpha0 beta0 now)))
  /\ (forall k prev, Signal.metrics_in_range (Signal.nextMetrics k prev))
  /\ (Signal.sine_range Math_sin ->
      (forall k, Signal.tick_draws_ok k ->
         Signal.sample_in_range (Signal.alphaSample Math_sin k)
         /\ Signal.sample_in_range (Signal.betaSample Math_sin k))
      /\ ((forall i, Signal.unit_interval (snd (alpha0 i))) ->
          (forall i, Signal.unit_interval (snd (beta0 i))) ->
          Forall Signal.tick_draws_ok ks ->
          buffers_ok
            (Signal.eegData
               (Signal.run Math_sin ks (Signal.initial Math_sin alpha0 beta0 now))))).
Proof.
  split; [|split].
  - apply run_metrics_in_range.
    unfold Signal.metrics_in_range, Signal.in_range; cbn. lia.
  - apply nextMetrics_in_range.
  - intro Hsin. split.
    + intros k [Ha Hb]. split.
      * now apply alpha_wave_in_range.
      * now apply beta_wave_in_range.
    + intros Ha Hb Hks. apply run_buffers_ok; [assumption|assumption|].
      now apply initial_buffers_ok.
Qed.

Lemma bounded_walk_witness :
  Signal.metrics_in_range
    (Signal.currentMetrics
       (Signal.run toy_sin [tick0; tick0; tick0]
          (Signal.initial toy_sin (fun _ => (half, half)) (fun _ => (half, half)) 0)))
  /\ buffers_ok
       (Signal.eegData
          (Signal.run toy_sin [tick0; tick0; tick0]
             (Signal.initial toy_sin (fun _ => (half, half)) (fun _ => (half, half)) 0))).
Proof.
  destruct (bounded_walk toy_sin (fun _ => (half, half)) (fun _ => (half, half)) 0
              [tick0; tick0; tick0]) as (Hm & _ & Hw).
  split; [exact Hm|].
  apply (Hw toy_sin_range).
  - intro i. exact half_unit.
  - intro i. exact half_unit.
  - assert (H0 : Signal.tick_draws_ok tick0) by (split; exact half_unit).
    repeat (apply Forall_cons; [exact H0|]). apply Forall_nil.
Defined.

Example three_ticks :
  let s := Signal.run toy_sin [tick0; tick0; tick0]
             (Signal.initial toy_sin (fun _ => (half, half)) (fun _ => (half, half)) 0) in
  Signal.heartRate (Signal.currentMetrics s) = 72
  /\ Signal.stressLevel (Signal.currentMetrics s) = 34
  /\ Signal.dailySteps (Signal.currentMetrics s) = Some (8247 + 75).
Proof. vm_compute. repeat split. Qed.

End SignalFacts.

(* ================================================================== *)
(** ** Listings: order, bounds and the effect of an insertion *)
(* ================================================================== *)

Module ListingFacts.

Section Sorted.
Context {A : Type}.

(** In a sorted list every element of a prefix is related to every
    element of the rest. *)
Lemma sorted_split (R : A -> A -> Prop) (n : nat) (l : list A) :
  StronglySorted R l ->
  forall a b, In a (firstn n l) -> In b (skipn n l) -> R a b.
Proof.
  revert l. induction n as [|n IH]; intros l Hs a b Ha Hb; [contradiction|].
  destruct l as [|x l]; [contradiction|].
  inversion Hs as [|? ? Hl Hx]; subst. cbn in Ha, Hb.
  destruct Ha as [<-|Ha].
  - rewrite Forall_forall in Hx. apply Hx. eapply JsFacts.In_skipn, Hb.
  - now apply (IH l).
Qed.

Variable key : A -> Z.

Lemma sort_insert_after (a x : A) (s : list A) :
  key a < key x ->
  Js.sort_insert (fun a b => key b - key a) a (x :: s)
  = x :: Js.sort_insert (fun a b => key b - key a) a s.
Proof.
  intro H. cbn. destruct (Z.leb_spec (key x - key a) 0); [lia|reflexivity].
Qed.

(** Sorting newest first, a strictly newest last element comes first. *)
Lemma sort_desc_snoc (l : list A) (x : A) :
  (forall y, In y l -> key y < key x) ->
  Js.sort (fun a b => key b - key a) (l ++ [x])
  = x :: Js.sort (fun a b => key b - key a) l.
Proof.
  induction l as [|a l IH]; intro H; [reflexivity|].
  cbn [app Js.sort]. rewrite IH by (intros y Hy; apply H; now right).
  apply sort_insert_after. apply H. now left.
Qed.

Lemma sort_insert_snoc (a x : A) (s : list A) :
  key a <= key x ->
  Js.sort_insert (fun a b => key a - key b) a (s ++ [x])
  = (Js.sort_insert (fun a b => key a - key b) a s ++ [x])%list.
Proof.
  intro H. induction s as [|y s IH]; cbn.
  - destruct (Z.leb_spec (key a - key x) 0); [reflexivity|lia].
  - destruct (key a - key y <=? 0); [reflexivity|]. cbn. now rewrite <- IH.
Qed.

(** Sorting oldest first, a newest last element stays last. *)
Lemma sort_asc_snoc (l : list A) (x : A) :
  (forall y, In y l -> key y <= key x) ->
  Js.sort (fun a b => key a - key b) (l ++ [x])
  = (Js.sort (fun a b => key a - key b) l ++ [x])%list.
Proof.
  induction l as [|a l IH]; intro H; [reflexivity|].
  cbn [app Js.sort]. rewrite IH by (intros y Hy; apply H; now right).
  apply sort_insert_snoc. apply H. now left.
Qed.

(** A listing that keeps the first [n] of the records sorted newest
    first: what it returns and what it leaves out. *)
Lemma head_listing (limit : Z) (l : list A) :
  0 <= limit ->
  let sorted := Js.sort (fun a b => key b - key a) l in
  let listed := Js.slice 0 (Some limit) sorted in
  listed = firstn (Z.to_nat limit) sorted
  /\ JsFacts.descending key listed
  /\ length listed = Nat.min (Z.to_nat limit) (length l)
  /\ Permutation l (listed ++ skipn (Z.to_nat limit) sorted)
  /\ (forall a b, In a listed -> In b (skipn (Z.to_nat limit) sorted) ->
      key b <= key a).
Proof.
  intro Hlimit. cbn zeta.
  rewrite JsFacts.slice_head by assumption.
  assert (Hs := JsFacts.sort_descending key l).
  repeat split.
  - now apply JsFacts.StronglySorted_firstn.
  - now rewrite length_firstn, JsFacts.sort_length.
  - rewrite firstn_skipn. apply JsFacts.sort_perm.
  - intros a b Ha Hb.
    apply (sorted_split (fun a b => key b <= key a) (Z.to_nat limit) _ Hs a b Ha Hb).
Qed.

End Sorted.

Lemma map_values_set_fresh {V} (k : string) (v : V) (m : Js.map V) :
  ~ In k (Js.map_keys m) ->
  Js.map_values (Js.map_set k v m) = (Js.map_values m ++ [v])%list.
Proof.
  intro H. rewrite JsFacts.map_set_fresh by assumption.
  unfold Js.map_values. now rewrite map_app.
Qed.

Lemma filter_snoc {A} (p : A -> bool) (l : list A) (x : A) :
  filter p (l ++ [x]) = (filter p l ++ (if p x then [x] else []))%list.
Proof. rewrite filter_app. cbn. now destruct (p x). Qed.

(** X1.  For a limit of at least zero, [getHealthMetrics] returns the
    first [limit] of the user's samples sorted newest first: a
    descending list of [min limit n] samples, and every sample of the
    user it leaves out is at most as recent as every sample it returns. *)
Theorem getHealthMetrics_most_recent (st : MemStorage.t) (userId : string) (limit : Z) :
  0 <= limit ->
  let sorted :=
    Js.sort (fun a b => HealthMetrics.timestamp b - HealthMetrics.timestamp a)
            (ExportFacts.samples_of st userId) in
  let listed := MemStorage.getHealthMetrics st userId limit in
  listed = firstn (Z.to_nat limit) sorted
  /\ JsFacts.descending HealthMetrics.timestamp listed
  /\ length listed = Nat.min (Z.to_nat limit) (length (ExportFacts.samples_of st userId))
  /\ Permutation (ExportFacts.samples_of st userId)
                 (listed ++ skipn (Z.to_nat limit) sorted)
  /\ (forall a b, In a listed -> In b (skipn (Z.to_nat limit) sorted) ->
      HealthMetrics.timestamp b <= HealthMetrics.timestamp a).
Proof.
  intro H. apply (head_listing HealthMetrics.timestamp limit _ H).
Qed.

Lemma getHealthMetrics_most_recent_witness :
  List.map HealthMetrics.timestamp
    (MemStorage.getHealthMetrics
       (ExportFacts.mem_with (ExportFacts.samples "u1" 5)) "u1" 2) = [4; 3]
  /\ JsFacts.descending HealthMetrics.timestamp
       (MemStorage.getHealthMetrics
          (ExportFacts.mem_with (ExportFacts.samples "u1" 5)) "u1" 2).
Proof.
  destruct (getHealthMetrics_most_recent
              (ExportFacts.mem_with (ExportFacts.samples "u1" 5)) "u1" 2)
    as (_ & Hd & _); [lia|].
  split; [vm_compute; reflexivity|exact Hd].
Defined.

(** The dream analyses of a user, in the order of the [Map]. *)
Definition dreams_of (st : MemStorage.t) (userId : string) : list DreamAnalysis.t :=
  filter (fun analysis => Js.strict_eq (DreamAnalysis.userId analysis) userId)
         (Js.map_values (MemStorage.dreamAnalyses st)).

(** X2.  For a limit of at least zero, [getDreamAnalyses] returns the
    first [limit] of the user's analyses sorted newest first, and every
    analysis it leaves out is at most as recent as every one it returns. *)
Theorem getDreamAnalyses_most_recent (st : MemStorage.t) (userId : string) (limit : Z) :
  0 <= limit ->
  let sorted :=
    Js.sort (fun a b => DreamAnalysis.timestamp b - DreamAnalysis.timestamp a)
            (dreams_of st userId) in
  let listed := MemStorage.getDreamAnalyses st userId limit in
  listed = firstn (Z.to_nat limit) sorted
  /\ JsFacts.descending DreamAnalysis.timestamp listed
  /\ length listed = Nat.min (Z.to_nat limit) (length (dreams_of st userId))
  /\ Permutation (dreams_of st userId) (listed ++ skipn (Z.to_nat limit) sorted)
  /\ (forall a b, In a listed -> In b (skipn (Z.to_nat limit) sorted) ->
      DreamAnalysis.timestamp b <= DreamAnalysis.timestamp a).
Proof.
  intro H. apply (head_listing DreamAnalysis.timestamp limit _ H).
Qed.

(** A store with the dream analyses [0 .. n-1] of one user, inserted in
    this order at the times [1000, 2000, ...]. *)
Fixpoint dream_history (userId : string) (n : nat) : MemStorage.t :=
  match n with
  | O => MemStorage.new
  | S k =>
      snd (MemStorage.createDreamAnalysis
             ("dream-" ++ Js.string_of_int (Z.of_nat k))
             (1000 * Z.of_nat n)
             (InsertDreamAnalysis.mk (Some userId) "a dream" None None None)
             (dream_history userId k))
  end.

Lemma getDreamAnalyses_most_recent_witness :
  List.map DreamAnalysis.timestamp
    (MemStorage.getDreamAnalyses (dream_history "u1" 4) "u1" 3) = [4000; 3000; 2000]
  /\ JsFacts.descending DreamAnalysis.timestamp
       (MemStorage.getDreamAnalyses (dream_history "u1" 4) "u1" 3).
Proof.
  destruct (getDreamAnalyses_most_recent (dream_history "u1" 4) "u1" 3)
    as (_ & Hd & _); [lia|].
  split; [vm_compute; reflexivity|exact Hd].
Defined.

(** X3.  For a limit of at least one, the chat listing splits the user's
    messages, sorted oldest first, into the messages left out followed by
    the messages listed, and every message left out is at most as recent
    as every message listed. *)
Theorem getAiChats_most_recent (st : MemStorage.t) (userId : string) (limit : Z) :
  1 <= limit ->
  let sorted := StoreFacts.chats_ascending st userId in
  let older := firstn (length sorted - Z.to_nat limit) sorted in
  sorted = (older ++ MemStorage.getAiChats st userId limit)%list
  /\ (forall b a, In b older -> In a (MemStorage.getAiChats st userId limit) ->
      AiChat.timestamp b <= AiChat.timestamp a).
Proof.
  intro H. cbn zeta.
  rewrite StoreFacts.getAiChats_unfold, JsFacts.slice_tail by assumption.
  split.
  - symmetry. apply firstn_skipn.
  - intros b a Hb Ha.
    apply (sorted_split (fun a b => AiChat.timestamp a <= AiChat.timestamp b)
             (length (StoreFacts.chats_ascending st userId) - Z.to_nat limit)
             (StoreFacts.chats_ascending st userId)); try assumption.
    apply JsFacts.sort_ascending.
Qed.

Lemma getAiChats_most_recent_witness :
  StoreFacts.chats_ascending (StoreFacts.chat_history "u1" 5) "u1"
  = (firstn 3 (StoreFacts.chats_ascending (StoreFacts.chat_history "u1" 5) "u1")
     ++ MemStorage.getAiChats (StoreFacts.chat_history "u1" 5) "u1" 2)%list.
Proof.
  destruct (getAiChats_most_recent (StoreFacts.chat_history "u1" 5) "u1" 2)
    as (Hs & _); [lia|].
  exact Hs.
Defined.

End ListingFacts.

(* ================================================================== *)
(** ** The in-memory store: insertion, lookup and what is left alone *)
(* ================================================================== *)

Module InsertFacts.

Lemma skipn_snoc {A} (n : nat) (l : list A) (x : A) :
  (n <= length l)%nat -> skipn n (l ++ [x]) = (skipn n l ++ [x])%list.
Proof.
  intro H. rewrite skipn_app. replace (n - length l)%nat with 0%nat by lia.
  reflexivity.
Qed.

Lemma chats_of_created (uuid : string) (now : Date) (ins : InsertAiChat.t)
    (st : MemStorage.t) (u : string) :
  ~ In uuid (Js.map_keys (MemStorage.aiChats st)) ->
  StoreFacts.chats_of (snd (MemStorage.createAiChat uuid now ins st)) u
  = (StoreFacts.chats_of st u
     ++ (if Js.strict_eq (Js.string_or_null (InsertAiChat.userId ins)) u
         then [fst (MemStorage.createAiChat uuid now ins st)] else []))%list.
Proof.
  intro Hfresh. unfold StoreFacts.chats_of, MemStorage.createAiChat.
  cbn [fst snd MemStorage.aiChats].
  rewrite ListingFacts.map_values_set_fresh by assumption.
  now rewrite ListingFacts.filter_snoc.
Qed.

Lemma samples_of_created (uuid : string) (now : Date) (ins : InsertHealthMetrics.t)
    (st : MemStorage.t) (u : string) :
  ~ In uuid (Js.map_keys (MemStorage.healthMetrics st)) ->
  ExportFacts.samples_of (snd (MemStorage.createHealthMetrics uuid now ins st)) u
  = (ExportFacts.samples_of st u
     ++ (if Js.strict_eq (Js.string_or_null (InsertHealthMetrics.userId ins)) u
         then [fst (MemStorage.createHealthMetrics uuid now ins st)] else []))%list.
Proof.
  intro Hfresh. unfold ExportFacts.samples_of, MemStorage.createHealthMetrics.
  cbn [fst snd MemStorage.healthMetrics].
  rewrite ListingFacts.map_values_set_fresh by assumption.
  now rewrite ListingFacts.filter_snoc.
Qed.

Lemma dreams_of_created (uuid : string) (now : Date) (ins : InsertDreamAnalysis.t)
    (st : MemStorage.t) (u : string) :
  ~ In uuid (Js.map_keys (MemStorage.dreamAnalyses st)) ->
  ListingFacts.dreams_of (snd (MemStorage.createDreamAnalysis uuid now ins st)) u
  = (ListingFacts.dreams_of st u
     ++ (if Js.strict_eq (Js.string_or_null (InsertDreamAnalysis.userId ins)) u
         then [fst (MemStorage.createDreamAnalysis uuid now ins st)] else []))%list.
Proof.
  intro Hfresh. unfold ListingFacts.dreams_of, MemStorage.createDreamAnalysis.
  cbn [fst snd MemStorage.dreamAnalyses].
  rewrite ListingFacts.map_values_set_fresh by assumption.
  now rewrite ListingFacts.filter_snoc.
Qed.

Lemma owner_matches (u : string) :
  u <> "" -> Js.strict_eq (Js.string_or_null (Some u)) u = true.
Proof.
  intro H. rewrite JsFacts.string_or_null_nonempty by assumption.
  cbn. apply String.eqb_refl.
Qed.

Lemma owner_differs (x : option string) (B : string) :
  Js.string_or_null x <> Some B -> Js.strict_eq (Js.string_or_null x) B = false.
Proof.
  intro H. destruct (Js.strict_eq (Js.string_or_null x) B) eqn:E; [|reflexivity].
  apply JsFacts.strict_eq_true in E. contradiction.
Qed.

(** X4.  A chat message created under a fresh identifier for a user, at a
    time no earlier than the user's stored messages, is the last entry of
    the user's listing for every limit of at least one; before it come
    the last [limit - 1] of the messages stored before. *)
Theorem createAiChat_listed_last
    (uuid : string) (now : Date) (ins : InsertAiChat.t) (st : MemStorage.t)
    (u : string) (limit : Z) :
  InsertAiChat.userId ins = Some u -> u <> "" ->
  ~ In uuid (Js.map_keys (MemStorage.aiChats st)) ->
  (forall c, In c (StoreFacts.chats_of st u) -> AiChat.timestamp c <= now) ->
  1 <= limit ->
  MemStorage.getAiChats (snd (MemStorage.createAiChat uuid now ins st)) u limit
  = (StoreFacts.last_n (Z.to_nat limit - 1) (StoreFacts.chats_ascending st u)
     ++ [fst (MemStorage.createAiChat uuid now ins st)])%list.
Proof.
  intros Hu Hne Hfresh Hnow Hlimit.
  rewrite StoreFacts.getAiChats_unfold, JsFacts.slice_tail by assumption.
  unfold StoreFacts.chats_ascending at 1 2.
  rewrite chats_of_created by assumption. rewrite Hu, owner_matches by assumption.
  rewrite ListingFacts.sort_asc_snoc by (intros y Hy; cbn; now apply Hnow).
  fold (StoreFacts.chats_ascending st u).
  rewrite length_app. cbn [length].
  rewrite skipn_snoc by lia.
  unfold StoreFacts.last_n. do 2 f_equal. lia.
Qed.

Lemma createAiChat_listed_last_witness :
  List.map AiChat.id
    (MemStorage.getAiChats
       (snd (MemStorage.createAiChat "new" 9000 (InsertAiChat.mk (Some "u1") "hi" true)
               (StoreFacts.chat_history "u1" 3))) "u1" 2)
  = ["chat-2"; "new"].
Proof.
  rewrite (createAiChat_listed_last "new" 9000 (InsertAiChat.mk (Some "u1") "hi" true)
             (StoreFacts.chat_history "u1" 3) "u1" 2).
  - vm_compute. reflexivity.
  - reflexivity.
  - discriminate.
  - vm_compute. intuition discriminate.
  - intros c Hc. vm_compute in Hc.
    repeat (destruct Hc as [<-|Hc]; [vm_compute; discriminate|]). contradiction.
  - lia.
Defined.

(** X5.  A metric sample created under a fresh identifier for a user, at
    a time later than all of the user's stored samples, heads the user's
    listing for every limit of at least one, followed by what the listing
    with one less returned before. *)
Theorem createHealthMetrics_listed_first
    (uuid : string) (now : Date) (ins : InsertHealthMetrics.t) (st : MemStorage.t)
    (u : string) (limit : Z) :
  InsertHealthMetrics.userId ins = Some u -> u <> "" ->
  ~ In uuid (Js.map_keys (MemStorage.healthMetrics st)) ->
  (forall m, In m (ExportFacts.samples_of st u) -> HealthMetrics.timestamp m < now) ->
  1 <= limit ->
  MemStorage.getHealthMetrics (snd (MemStorage.createHealthMetrics uuid now ins st)) u limit
  = fst (MemStorage.createHealthMetrics uuid now ins st)
    :: MemStorage.getHealthMetrics st u (limit - 1).
Proof.
  intros Hu Hne Hfresh Hnow Hlimit.
  unfold MemStorage.getHealthMetrics at 1 2.
  fold (ExportFacts.samples_of (snd (MemStorage.createHealthMetrics uuid now ins st)) u).
  fold (ExportFacts.samples_of st u).
  rewrite samples_of_created by assumption. rewrite Hu, owner_matches by assumption.
  rewrite ListingFacts.sort_desc_snoc by (intros y Hy; cbn; now apply Hnow).
  rewrite !JsFacts.slice_head by lia.
  replace (Z.to_nat limit) with (S (Z.to_nat (limit - 1))) by lia.
  reflexivity.
Qed.

Lemma createHealthMetrics_listed_first_witness :
  List.map HealthMetrics.id
    (MemStorage.getHealthMetrics
       (snd (MemStorage.createHealthMetrics "new" 9000 (IsolationFacts.sample_of "bob")
               IsolationFacts.two_users)) "bob" 50)
  = ["new"; "m2"].
Proof.
  rewrite (createHealthMetrics_listed_first "new" 9000 (IsolationFacts.sample_of "bob")
             IsolationFacts.two_users "bob" 50).
  - vm_compute. reflexivity.
  - reflexivity.
  - discriminate.
  - vm_compute. intuition discriminate.
  - intros m Hm. vm_compute in Hm.
    repeat (destruct Hm as [<-|Hm]; [vm_compute; reflexivity|]). contradiction.
  - lia.
Defined.

(** Within one millisecond the order is the order of insertion: a sample
    as recent as a stored one is listed after it. *)
Example same_millisecond :
  List.map HealthMetrics.id
    (MemStorage.getHealthMetrics
       (snd (MemStorage.createHealthMetrics "new" 2000 (IsolationFacts.sample_of "bob")
               IsolationFacts.two_users)) "bob" 50)
  = ["m2"; "new"].
Proof. vm_compute. reflexivity. Qed.

(** X6.  Creating a record under a fresh identifier changes no listing of
    another user: the listings of metric samples, of dream analyses and
    of chat messages of every user other than the record's are the same
    before and after, for every limit. *)
Theorem create_leaves_other_users
    (uuid : string) (now : Date) (st : MemStorage.t) (B : string) (limit : Z) :
  (forall ins,
     Js.string_or_null (InsertHealthMetrics.userId ins) <> Some B ->
     ~ In uuid (Js.map_keys (MemStorage.healthMetrics st)) ->
     MemStorage.getHealthMetrics (snd (MemStorage.createHealthMetrics uuid now ins st))
       B limit
     = MemStorage.getHealthMetrics st B limit)
  /\ (forall ins,
     Js.string_or_null (InsertDreamAnalysis.userId ins) <> Some B ->
     ~ In uuid (Js.map_keys (MemStorage.dreamAnalyses st)) ->
     MemStorage.getDreamAnalyses (snd (MemStorage.createDreamAnalysis uuid now ins st))
       B limit
     = MemStorage.getDreamAnalyses st B limit)
  /\ (forall ins,
     Js.string_or_null (InsertAiChat.userId ins) <> Some B ->
     ~ In uuid (Js.map_keys (MemStorage.aiChats st)) ->
     MemStorage.getAiChats (snd (MemStorage.createAiChat uuid now ins st)) B limit
     = MemStorage.getAiChats st B limit).
Proof.
  split; [|split]; intros ins Hother Hfresh.
  - unfold MemStorage.getHealthMetrics.
    fold (ExportFacts.samples_of (snd (MemStorage.createHealthMetrics uuid now ins st)) B).
    fold (ExportFacts.samples_of st B).
    rewrite samples_of_created, owner_differs, app_nil_r by assumption. reflexivity.
  - unfold MemStorage.getDreamAnalyses.
    fold (ListingFacts.dreams_of (snd (MemStorage.createDreamAnalysis uuid now ins st)) B).
    fold (ListingFacts.dreams_of st B).
    rewrite dreams_of_created, owner_differs, app_nil_r by assumption. reflexivity.
  - unfold MemStorage.getAiChats.
    fold (StoreFacts.chats_of (snd (MemStorage.createAiChat uuid now ins st)) B).
    fold (StoreFacts.chats_of st B).
    rewrite chats_of_created, owner_differs, app_nil_r by assumption. reflexivity.
Qed.

Lemma create_leaves_other_users_witness :
  MemStorage.getHealthMetrics
    (snd (MemStorage.createHealthMetrics "new" 9000 (IsolationFacts.sample_of "alice")
            IsolationFacts.two_users)) "bob" 50
  = MemStorage.getHealthMetrics IsolationFacts.two_users "bob" 50.
Proof.
  destruct (create_leaves_other_users "new" 9000 IsolationFacts.two_users "bob" 50)
    as (H & _).
  apply H.
  - vm_compute. discriminate.
  - vm_compute. intuition discriminate.
Defined.

End InsertFacts.

(* ================================================================== *)
(** ** The in-memory store: keys, users and settings *)
(* ================================================================== *)

Module KeyFacts.

(** A map is keyed by [id] when every entry sits under the identifier of
    its own record, no key occurs twice and no key is empty. *)
Definition keyed {V} (id : V -> string) (m : Js.map V) : Prop :=
  Forall (fun kv => id (snd kv) = fst kv) m
  /\ NoDup (Js.map_keys m)
  /\ ~ In "" (Js.map_keys m).

Definition well_keyed (st : MemStorage.t) : Prop :=
  keyed User.id (MemStorage.users st)
  /\ keyed HealthMetrics.id (MemStorage.healthMetrics st)
  /\ keyed DreamAnalysis.id (MemStorage.dreamAnalyses st)
  /\ keyed AiChat.id (MemStorage.aiChats st)
  /\ keyed UserSettings.id (MemStorage.userSettings st).

(** The operations that change the store, each with the identifier and
    the clock reading it draws. *)
Inductive Operation : Type :=
| CreateUser (uuid : string) (insertUser : InsertUser.t)
| CreateHealthMetrics (uuid : string) (now : Date) (ins : InsertHealthMetrics.t)
| CreateDreamAnalysis (uuid : string) (now : Date) (ins : InsertDreamAnalysis.t)
| CreateAiChat (uuid : string) (now : Date) (ins : InsertAiChat.t)
| UpdateUserSettings (uuid : string) (userId : string) (partial : PartialSettings.t).

Definition perform (st : MemStorage.t) (op : Operation) : MemStorage.t :=
  match op with
  | CreateUser uuid ins => snd (MemStorage.createUser uuid ins st)
  | CreateHealthMetrics uuid now ins => snd (MemStorage.createHealthMetrics uuid now ins st)
  | CreateDreamAnalysis uuid now ins => snd (MemStorage.createDreamAnalysis uuid now ins st)
  | CreateAiChat uuid now ins => snd (MemStorage.createAiChat uuid now ins st)
  | UpdateUserSettings uuid userId partial =>
      snd (MemStorage.updateUserSettings uuid userId partial st)
  end.

Definition drawn (op : Operation) : string :=
  match op with
  | CreateUser uuid _ => uuid
  | CreateHealthMetrics uuid _ _ => uuid
  | CreateDreamAnalysis uuid _ _ => uuid
  | CreateAiChat uuid _ _ => uuid
  | UpdateUserSettings uuid _ _ => uuid
  end.

Lemma map_set_keys_In {V} (k k' : string) (v : V) (m : Js.map V) :
  In k' (Js.map_keys (Js.map_set k v m)) <-> k' = k \/ In k' (Js.map_keys m).
Proof.
  induction m as [|[k0 v0] m IH]; cbn.
  - intuition.
  - destruct (String.eqb_spec k0 k) as [->|Hne]; cbn.
    + intuition.
    + rewrite IH. intuition.
Qed.

Lemma map_set_NoDup {V} (k : string) (v : V) (m : Js.map V) :
  NoDup (Js.map_keys m) -> NoDup (Js.map_keys (Js.map_set k v m)).
Proof.
  induction m as [|[k0 v0] m IH]; cbn; intro H.
  - constructor; [intros []|constructor].
  - inversion H as [|? ? Hk0 Hm]; subst.
    destruct (String.eqb_spec k0 k) as [->|Hne]; cbn.
    + now constructor.
    + constructor; [|now apply IH].
      fold (Js.map_keys (Js.map_set k v m)). rewrite map_set_keys_In.
      intros [->|Hin]; [congruence|contradiction].
Qed.

Lemma map_set_keyed {V} (id : V -> string) (k : string) (v : V) (m : Js.map V) :
  id v = k -> k <> "" -> keyed id m -> keyed id (Js.map_set k v m).
Proof.
  intros Hid Hk (Hall & Hnd & Hempty). repeat split.
  - clear Hnd Hempty. induction m as [|[k0 v0] m IH]; cbn.
    + now repeat constructor.
    + inversion_clear Hall as [|? ? Hhead Htail].
      destruct (String.eqb k0 k); constructor; auto.
  - now apply map_set_NoDup.
  - rewrite map_set_keys_In. intros [H|H]; [congruence|contradiction].
Qed.

Lemma find_keyed {V} (id : V -> string) (p : V -> bool) (m : Js.map V) (e : V) :
  keyed id m -> Js.find p (Js.map_values m) = Some e ->
  In (id e) (Js.map_keys m) /\ id e <> "".
Proof.
  intros (Hall & _ & Hempty) Hfind.
  apply find_some in Hfind. destruct Hfind as [Hin _].
  unfold Js.map_values in Hin. apply in_map_iff in Hin.
  destruct Hin as ([k v] & Hv & Hin). cbn in Hv. subst v.
  rewrite Forall_forall in Hall. specialize (Hall _ Hin). cbn in Hall.
  assert (Hk : In k (Js.map_keys m)).
  { unfold Js.map_keys. apply in_map_iff. now exists (k, e). }
  rewrite Hall. split; [exact Hk|]. intros ->. contradiction.
Qed.

Lemma settingsKey_existing (uuid : string) (e : UserSettings.t) :
  UserSettings.id e <> "" -> MemStorage.settingsKey uuid (Some e) = UserSettings.id e.
Proof.
  intro H. unfold MemStorage.settingsKey, Js.string_or. cbn [option_map].
  now rewrite JsFacts.string_or_null_nonempty.
Qed.

Lemma perform_well_keyed (st : MemStorage.t) (op : Operation) :
  drawn op <> "" -> well_keyed st -> well_keyed (perform st op).
Proof.
  intros Hdrawn (Hu & Hm & Hd & Hc & Hs).
  destruct op as [uuid ins|uuid now ins|uuid now ins|uuid now ins|uuid userId partial];
    cbn in Hdrawn; cbn [perform];
    unfold well_keyed, MemStorage.createUser, MemStorage.createHealthMetrics,
      MemStorage.createDreamAnalysis, MemStorage.createAiChat,
      MemStorage.updateUserSettings;
    cbn [snd MemStorage.users MemStorage.healthMetrics MemStorage.dreamAnalyses
         MemStorage.aiChats MemStorage.userSettings];
    (split; [|split; [|split; [|split]]]); try assumption;
    try (now apply map_set_keyed).
  destruct (MemStorage.getUserSettings st userId) as [e|] eqn:He.
  - destruct (find_keyed UserSettings.id _ _ _ Hs He) as [_ Hne].
    rewrite (settingsKey_existing uuid e Hne).
    now apply map_set_keyed.
  - now apply map_set_keyed.
Qed.

(** X7.  Whatever operations are performed on the empty store, with
    identifiers that are not empty, every map of the store stays keyed by
    the identifiers of its own records: an entry's key is its record's
    [id], no key occurs twice, and no key is empty. *)
Theorem store_stays_keyed (ops : list Operation) :
  Forall (fun op => drawn op <> "") ops ->
  well_keyed (fold_left perform ops MemStorage.new).
Proof.
  assert (Hnew : well_keyed MemStorage.new).
  { unfold well_keyed, keyed, MemStorage.new; cbn.
    repeat split; try constructor; intros []. }
  revert Hnew. generalize MemStorage.new as st.
  induction ops as [|op ops IH]; intros st Hst Hops; [exact Hst|].
  inversion Hops; subst. cbn. apply IH; [|assumption].
  now apply perform_well_keyed.
Qed.

Definition two_operations : list Operation :=
  [ CreateAiChat "c1" 1000 (InsertAiChat.mk (Some "u1") "hello" true);
    UpdateUserSettings "s1" "u1" PartialSettings.empty ].

Lemma store_stays_keyed_witness :
  well_keyed (fold_left perform two_operations MemStorage.new).
Proof.
  apply (store_stays_keyed two_operations).
  repeat constructor; discriminate.
Defined.

End KeyFacts.

Module UpsertFacts.

Lemma find_set_existing {V} (id : V -> string) (p : V -> bool) (m : Js.map V) (e v : V) :
  Forall (fun kv => id (snd kv) = fst kv) m ->
  Js.find p (Js.map_values m) = Some e -> p v = true ->
  Js.find p (Js.map_values (Js.map_set (id e) v m)) = Some v.
Proof.
  unfold Js.find, Js.map_values. intros Hall Hfind Hv.
  induction m as [|[k0 v0] m IH]; [discriminate|].
  inversion_clear Hall as [|? ? Hhead Htail]. cbn in Hhead, Hfind |- *.
  destruct (p v0) eqn:Hp0.
  - injection Hfind as <-. rewrite Hhead, String.eqb_refl. cbn. now rewrite Hv.
  - destruct (String.eqb k0 (id e)); cbn.
    + now rewrite Hv.
    + rewrite Hp0. now apply IH.
Qed.

Lemma find_set_absent {V} (p : V -> bool) (k : string) (m : Js.map V) (v : V) :
  Js.find p (Js.map_values m) = None -> p v = true ->
  Js.find p (Js.map_values (Js.map_set k v m)) = Some v.
Proof.
  unfold Js.find, Js.map_values. intros Hfind Hv.
  induction m as [|[k0 v0] m IH]; cbn in Hfind |- *.
  - now rewrite Hv.
  - destruct (p v0) eqn:Hp0; [discriminate|].
    destruct (String.eqb k0 k); cbn.
    + now rewrite Hv.
    + rewrite Hp0. now apply IH.
Qed.

Lemma map_set_length_existing {V} (k : string) (v : V) (m : Js.map V) :
  In k (Js.map_keys m) -> length (Js.map_set k v m) = length m.
Proof.
  induction m as [|[k0 v0] m IH]; cbn; [contradiction|].
  destruct (String.eqb_spec k0 k) as [->|Hne]; [reflexivity|].
  intros [H|H]; [contradiction|]. cbn. now rewrite IH.
Qed.

Lemma map_set_twice {V} (k : string) (v : V) (m : Js.map V) :
  Js.map_set k v (Js.map_set k v m) = Js.map_set k v m.
Proof.
  induction m as [|[k0 v0] m IH]; cbn.
  - now rewrite String.eqb_refl.
  - destruct (String.eqb k0 k) eqn:E; cbn.
    + now rewrite String.eqb_refl.
    + now rewrite E, IH.
Qed.

Lemma spread_again {A} (base : A) (over : option A) :
  spread (spread base over) over = spread base over.
Proof. now destruct over. Qed.

Lemma merged_userId (uuid userId : string) (partial : PartialSettings.t)
    (st : MemStorage.t) :
  PartialSettings.userId partial = None ->
  UserSettings.userId (fst (MemStorage.updateUserSettings uuid userId partial st))
  = Some userId.
Proof.
  intro Hp.
  destruct (StoreFacts.updateUserSettings_merge uuid userId partial st)
    as (_ & _ & _ & _ & _ & Hu & _).
  cbn zeta in Hu. rewrite Hu, Hp.
  destruct (MemStorage.getUserSettings st userId) as [e|] eqn:He; cbn; [|reflexivity].
  now apply IsolationFacts.getUserSettings_owned in He.
Qed.

(** The key under which [updateUserSettings] stores is the [id] of the
    record it stores, which is never empty. *)
Lemma merged_key (uuid userId : string) (partial : PartialSettings.t)
    (st : MemStorage.t) :
  KeyFacts.keyed UserSettings.id (MemStorage.userSettings st) -> uuid <> "" ->
  let merged := fst (MemStorage.updateUserSettings uuid userId partial st) in
  MemStorage.settingsKey uuid (MemStorage.getUserSettings st userId)
  = UserSettings.id merged
  /\ UserSettings.id merged <> "".
Proof.
  intros Hk Huuid. cbn zeta. unfold MemStorage.updateUserSettings. cbn [fst].
  unfold MemStorage.mergeSettings. cbn [UserSettings.id].
  destruct (MemStorage.getUserSettings st userId) as [e|] eqn:He.
  - destruct (KeyFacts.find_keyed UserSettings.id _ _ _ Hk He) as [_ Hne].
    rewrite (KeyFacts.settingsKey_existing uuid e Hne). cbn. now split.
  - cbn. now split.
Qed.

(** The lookup after an update, and what an update of existing settings
    keeps. *)
Lemma lookup_after_update
    (uuid userId : string) (partial : PartialSettings.t) (st : MemStorage.t) :
  KeyFacts.keyed UserSettings.id (MemStorage.userSettings st) ->
  PartialSettings.userId partial = None ->
  let merged := fst (MemStorage.updateUserSettings uuid userId partial st) in
  let st' := snd (MemStorage.updateUserSettings uuid userId partial st) in
  MemStorage.getUserSettings st' userId = Some merged
  /\ (forall e, MemStorage.getUserSettings st userId = Some e ->
      UserSettings.id merged = UserSettings.id e
      /\ length (MemStorage.userSettings st') = length (MemStorage.userSettings st)).
Proof.
  intros Hk Hp. cbn zeta.
  assert (Hu := merged_userId uuid userId partial st Hp).
  assert (Hmatch : Js.strict_eq
            (UserSettings.userId (fst (MemStorage.updateUserSettings uuid userId partial st)))
            userId = true) by now apply JsFacts.strict_eq_true.
  unfold MemStorage.updateUserSettings in *. cbn [fst snd] in *.
  unfold MemStorage.getUserSettings at 1. cbn [MemStorage.userSettings].
  destruct (MemStorage.getUserSettings st userId) as [e|] eqn:He.
  - destruct (KeyFacts.find_keyed UserSettings.id _ _ _ Hk He) as [Hin Hne].
    rewrite (KeyFacts.settingsKey_existing uuid e Hne) in *.
    split.
    + apply (find_set_existing UserSettings.id); [apply Hk|exact He|exact Hmatch].
    + intros e' [= <-]. split; [reflexivity|].
      now apply map_set_length_existing.
  - split; [|discriminate].
    apply find_set_absent; [exact He|exact Hmatch].
Qed.

(** X8.  In a store keyed by record identifiers, after an update of a
    user's settings with a partial object that has no [userId] key, the
    lookup of that user's settings returns exactly the record the update
    returned.  When the user already had settings, the update reuses
    that record's [id] and the number of stored records is unchanged. *)
Theorem updateUserSettings_lookup
    (uuid userId : string) (partial : PartialSettings.t) (st : MemStorage.t) :
  KeyFacts.keyed UserSettings.id (MemStorage.userSettings st) ->
  PartialSettings.userId partial = None ->
  let merged := fst (MemStorage.updateUserSettings uuid userId partial st) in
  let st' := snd (MemStorage.updateUserSettings uuid userId partial st) in
  MemStorage.getUserSettings st' userId = Some merged
  /\ (forall e, MemStorage.getUserSettings st userId = Some e ->
      UserSettings.id merged = UserSettings.id e
      /\ length (MemStorage.userSettings st') = length (MemStorage.userSettings st)).
Proof. apply lookup_after_update. Qed.

Lemma updateUserSettings_lookup_witness :
  let st := snd (MemStorage.updateUserSettings "s1" "u1" PartialSettings.empty
                   MemStorage.new) in
  MemStorage.getUserSettings st "u1"
  = Some (fst (MemStorage.updateUserSettings "s1" "u1" PartialSettings.empty
                 MemStorage.new)).
Proof.
  cbv zeta.
  destruct (updateUserSettings_lookup "s1" "u1" PartialSettings.empty MemStorage.new)
    as (H & _).
  - repeat split; [constructor|constructor|intros []].
  - reflexivity.
  - exact H.
Defined.

Lemma merge_again (id userId : string) (existing : option UserSettings.t)
    (partial : PartialSettings.t) :
  let merged := MemStorage.mergeSettings id userId existing partial in
  MemStorage.mergeSettings (UserSettings.id merged) userId (Some merged) partial
  = merged.
Proof.
  destruct partial as [[?|] [?|] [?|] [?|] [?|] [?|]]; reflexivity.
Qed.

(** X9.  In a store keyed by record identifiers, repeating an update of a
    user's settings with the same partial object (without a [userId]
    key) changes nothing: the second update returns the record the first
    one returned and leaves the store as the first one left it, whatever
    identifier it draws. *)
Theorem updateUserSettings_idempotent
    (uuid uuid' userId : string) (partial : PartialSettings.t) (st : MemStorage.t) :
  KeyFacts.keyed UserSettings.id (MemStorage.userSettings st) ->
  uuid <> "" ->
  PartialSettings.userId partial = None ->
  let merged := fst (MemStorage.updateUserSettings uuid userId partial st) in
  let st' := snd (MemStorage.updateUserSettings uuid userId partial st) in
  MemStorage.updateUserSettings uuid' userId partial st' = (merged, st').
Proof.
  intros Hk Huuid Hp. cbn zeta.
  destruct (lookup_after_update uuid userId partial st Hk Hp) as [Hget _].
  destruct (merged_key uuid userId partial st Hk Huuid) as [Hkey Hne].
  cbn zeta in Hget, Hkey, Hne.
  unfold MemStorage.updateUserSettings at 1. cbv zeta. rewrite Hget.
  rewrite (KeyFacts.settingsKey_existing uuid' _ Hne).
  assert (Hsame := merge_again
            (MemStorage.settingsKey uuid (MemStorage.getUserSettings st userId))
            userId (MemStorage.getUserSettings st userId) partial).
  cbn zeta in Hsame.
  change (MemStorage.mergeSettings
            (MemStorage.settingsKey uuid (MemStorage.getUserSettings st userId))
            userId (MemStorage.getUserSettings st userId) partial)
    with (fst (MemStorage.updateUserSettings uuid userId partial st)) in Hsame.
  rewrite Hsame. f_equal. rewrite <- Hkey.
  unfold MemStorage.updateUserSettings. cbn [fst snd].
  cbn [MemStorage.users MemStorage.healthMetrics MemStorage.dreamAnalyses
       MemStorage.aiChats MemStorage.userSettings].
  f_equal. apply map_set_twice.
Qed.

Lemma updateUserSettings_idempotent_witness :
  let p := PartialSettings.mk None (Some (Some "light")) None None None None in
  let st' := snd (MemStorage.updateUserSettings "s1" "u1" p MemStorage.new) in
  MemStorage.updateUserSettings "s2" "u1" p st'
  = (fst (MemStorage.updateUserSettings "s1" "u1" p MemStorage.new), st').
Proof.
  cbv zeta.
  apply (updateUserSettings_idempotent "s1" "s2" "u1"
           (PartialSettings.mk None (Some (Some "light")) None None None None)
           MemStorage.new).
  - repeat split; [constructor|constructor|intros []].
  - discriminate.
  - reflexivity.
Defined.

End UpsertFacts.

Module UserFacts.

Lemma find_snoc {A} (p : A -> bool) (l : list A) (x : A) :
  Js.find p (l ++ [x])
  = match Js.find p l with
    | Some y => Some y
    | None => if p x then Some x else None
    end.
Proof.
  unfold Js.find. induction l as [|a l IH]; cbn; [reflexivity|].
  destruct (p a); [reflexivity|exact IH].
Qed.

Definition ann : InsertUser.t := InsertUser.mk "ann" "first".
Definition ann_again : InsertUser.t := InsertUser.mk "ann" "second".

(** X10.  [createUser] makes the new user reachable by [getUser] under
    the identifier drawn.  It does not look at the user name: under a
    fresh identifier, [getUserByUsername] answers as before for every
    name that was already taken, so a second user created with a taken
    name is stored but the lookup by name keeps returning the first; for
    a name not taken before, it returns the new user exactly when the
    name is the new user's. *)
Theorem createUser_lookup (uuid : string) (ins : InsertUser.t) (st : MemStorage.t) :
  let user := fst (MemStorage.createUser uuid ins st) in
  let st' := snd (MemStorage.createUser uuid ins st) in
  MemStorage.getUser st' uuid = Some user
  /\ User.id user = uuid
  /\ User.username user = InsertUser.username ins
  /\ (~ In uuid (Js.map_keys (MemStorage.users st)) ->
      forall name,
        MemStorage.getUserByUsername st' name
        = match MemStorage.getUserByUsername st name with
          | Some first => Some first
          | None => if String.eqb (InsertUser.username ins) name then Some user else None
          end).
Proof.
  cbn zeta. unfold MemStorage.createUser, MemStorage.getUser. cbn [fst snd MemStorage.users].
  split; [apply JsFacts.map_get_set|]. split; [reflexivity|]. split; [reflexivity|].
  intros Hfresh name. unfold MemStorage.getUserByUsername. cbn [MemStorage.users].
  rewrite ListingFacts.map_values_set_fresh by assumption.
  now rewrite find_snoc.
Qed.

Lemma createUser_lookup_witness :
  let st1 := snd (MemStorage.createUser "id1" ann MemStorage.new) in
  let st2 := snd (MemStorage.createUser "id2" ann_again st1) in
  option_map User.password (MemStorage.getUserByUsername st2 "ann") = Some "first"
  /\ option_map User.password (MemStorage.getUser st2 "id2") = Some "second".
Proof.
  cbv zeta.
  destruct (createUser_lookup "id2" ann_again
              (snd (MemStorage.createUser "id1" ann MemStorage.new)))
    as (Hget & _ & _ & Hname).
  cbn zeta in Hget, Hname. split.
  - rewrite Hname; [reflexivity|]. vm_compute. intuition discriminate.
  - rewrite Hget. reflexivity.
Defined.

End UserFacts.

(* ================================================================== *)
(** ** Extraction of the token and [requireAuth] *)
(* ================================================================== *)

Module TokenFacts.

(** Every character of a string satisfies [p]. *)
Fixpoint all_chars (p : ascii -> bool) (s : string) : bool :=
  match s with
  | EmptyString => true
  | String c s' => (p c && all_chars p s')%bool
  end.

(** A character that is no separator of the cookie header and none of
    the characters [trim] removes (the no-break space among them). *)
Definition plain_char (c : ascii) : bool :=
  (negb (Ascii.eqb c ";") && negb (Ascii.eqb c "=") && negb (Text.is_space c))%bool.

(** A cookie value as a token is one: not empty, made of plain characters. *)
Definition plain (v : string) : Prop := v <> "" /\ all_chars plain_char v = true.

Lemma substring_all (s : string) : String.substring 0 (String.length s) s = s.
Proof. induction s as [|c s IH]; cbn; [reflexivity|now rewrite IH]. Qed.

Lemma bearer_token (t : string) (cookie : option string) :
  Auth.bearer (Auth.mkHeaders (Some ("Bearer " ++ t)) cookie) = Some t.
Proof.
  unfold Auth.bearer, Text.startsWith, Text.substring_from. cbn.
  assert (Hp : String.prefix "" t = true) by now destruct t.
  rewrite Hp. f_equal. rewrite Nat.sub_0_r. apply substring_all.
Qed.

Lemma split_aux_free (sep : ascii) (s current : string) :
  all_chars (fun c => negb (Ascii.eqb c sep)) s = true ->
  Text.split_aux sep s current = [current ++ s].
Proof.
  revert current. induction s as [|c s IH]; intros current H; cbn in *.
  - f_equal. induction current as [|a current IHc]; cbn; [reflexivity|now f_equal].
  - apply andb_prop in H. destruct H as [Hc Hs].
    destruct (Ascii.eqb c sep); [discriminate|].
    rewrite IH by assumption. f_equal.
    induction current as [|a current IHc]; cbn; [reflexivity|now f_equal].
Qed.

Lemma all_chars_weaken (p q : ascii -> bool) (s : string) :
  (forall c, p c = true -> q c = true) -> all_chars p s = true -> all_chars q s = true.
Proof.
  intro H. induction s as [|c s IH]; cbn; [reflexivity|].
  intro Hs. apply andb_prop in Hs. destruct Hs as [Hc Hs].
  now rewrite (H c Hc), IH.
Qed.

Lemma plain_no_semicolon (v : string) :
  all_chars plain_char v = true ->
  all_chars (fun c => negb (Ascii.eqb c ";")) v = true.
Proof.
  apply all_chars_weaken. intro c. unfold plain_char.
  destruct (Ascii.eqb c ";"); [discriminate|reflexivity].
Qed.

Lemma plain_no_equals (v : string) :
  all_chars plain_char v = true ->
  all_chars (fun c => negb (Ascii.eqb c "=")) v = true.
Proof.
  apply all_chars_weaken. intro c. unfold plain_char.
  destruct (Ascii.eqb c "="); [now rewrite andb_false_r|reflexivity].
Qed.

Lemma plain_no_space (v : string) :
  all_chars plain_char v = true ->
  all_chars (fun c => negb (Text.is_space c)) v = true.
Proof.
  apply all_chars_weaken. intro c. unfold plain_char.
  destruct (Text.is_space c); [now rewrite andb_false_r|reflexivity].
Qed.

Lemma trimEnd_no_space (s : string) :
  all_chars (fun c => negb (Text.is_space c)) s = true -> Text.trimEnd s = s.
Proof.
  induction s as [|c s IH]; cbn; [reflexivity|].
  intro H. apply andb_prop in H. destruct H as [Hc Hs].
  rewrite IH by assumption.
  destruct s; [|reflexivity].
  destruct (Text.is_space c); [discriminate|reflexivity].
Qed.

Lemma cookie_token (v : string) :
  plain v ->
  Js.map_get "auth_token" (Auth.parseCookies ("auth_token=" ++ v)) = Some (Some v).
Proof.
  intros [Hne Hplain].
  unfold Auth.parseCookies, Text.split.
  assert (Hsplit : Text.split_aux ";" ("auth_token=" ++ v) "" = ["auth_token=" ++ v]).
  { rewrite split_aux_free; [reflexivity|]. cbn. now apply plain_no_semicolon. }
  rewrite Hsplit. cbn [fold_left].
  assert (Htrim : Text.trim ("auth_token=" ++ v) = "auth_token=" ++ v).
  { unfold Text.trim. cbn [append Text.trimStart].
    change (Text.is_space "a") with false. cbv iota.
    apply trimEnd_no_space. cbn. now apply plain_no_space. }
  rewrite Htrim.
  assert (Hparts : Text.split_aux "=" ("auth_token=" ++ v) "" = ["auth_token"; v]).
  { cbn. f_equal. rewrite split_aux_free; [reflexivity|]. now apply plain_no_equals. }
  rewrite Hparts. reflexivity.
Qed.

(** X11.  A request whose [Authorization] header is [Bearer ] followed by
    a token yields exactly that token, whatever its cookie header holds:
    the header takes precedence over the cookie. *)
Theorem getAuthToken_bearer (t : string) (cookie : option string) :
  Auth.getAuthToken (Auth.mkHeaders (Some ("Bearer " ++ t)) cookie) = Some t.
Proof.
  unfold Auth.getAuthToken. now rewrite bearer_token.
Qed.

(** X12.  Without a bearer header (none, or one that does not start with
    [Bearer ]), a cookie header [auth_token=v] yields the token [v], for
    every non-empty [v] free of [;], [=] and of the characters [trim]
    removes (white space, the no-break space included, and line
    terminators); without any cookie header there is no token. *)
Theorem getAuthToken_cookie (authorization : option string) (v : string) :
  match authorization with
  | Some h => Text.startsWith "Bearer " h = false
  | None => True
  end ->
  plain v ->
  Auth.getAuthToken (Auth.mkHeaders authorization (Some ("auth_token=" ++ v))) = Some v
  /\ Auth.getAuthToken (Auth.mkHeaders authorization None) = None.
Proof.
  intros Hauth Hplain.
  assert (Hb : forall c, Auth.bearer (Auth.mkHeaders authorization c) = None).
  { intro c. unfold Auth.bearer. cbn. destruct authorization as [h|]; [|reflexivity].
    now rewrite Hauth. }
  unfold Auth.getAuthToken. rewrite !Hb. split; [|reflexivity].
  cbn [Auth.cookie Js.string_or_null].
  change (String.eqb ("auth_token=" ++ v) "") with false. cbv iota.
  rewrite (cookie_token v Hplain).
  apply JsFacts.string_or_null_nonempty. exact (proj1 Hplain).
Qed.

Lemma getAuthToken_cookie_witness :
  Auth.getAuthToken (Auth.mkHeaders (Some "Basic abc") (Some "auth_token=xyz"))
  = Some "xyz"
  /\ Auth.getAuthToken (Auth.mkHeaders (Some "Basic abc") None) = None.
Proof.
  apply (getAuthToken_cookie (Some "Basic abc") "xyz").
  - reflexivity.
  - split; [discriminate|reflexivity].
Defined.

(** A value that ends in a no-break space comes back without it. *)
Example getAuthToken_cookie_trimmed :
  Auth.getAuthToken
    (Auth.mkHeaders None (Some ("auth_token=xyz" ++ String (ascii_of_nat 160) "")))
  = Some "xyz".
Proof. vm_compute. reflexivity. Qed.

Section WithJwt.
Variable hs256 : string -> Jwt.Claims -> string.
Variable decode : string -> Jwt.Token.

(** X13.  [requireAuth] lets a request through only with claims that
    [verifyToken] returned for a non-empty token taken from the request;
    every other request is answered 401.  A header that is exactly
    [Bearer ] is answered 401 "No authentication token provided" whatever
    the cookie header holds: the cookie is not consulted. *)
Theorem requireAuth_outcomes (env : Env.t) (now : Date) (headers : Auth.Headers) :
  match Auth.requireAuth hs256 decode env now headers with
  | inl claims =>
      exists token,
        Auth.getAuthToken headers = Some token /\ token <> ""
        /\ Auth.verifyToken hs256 env now (decode token) = Some claims
  | inr response => Http.status response = 401
  end
  /\ forall cookie,
       Auth.requireAuth hs256 decode env now (Auth.mkHeaders (Some "Bearer ") cookie)
       = inr (Http.unauthorized "No authentication token provided").
Proof.
  split; [|reflexivity].
  unfold Auth.requireAuth.
  destruct (Auth.getAuthToken headers) as [token|] eqn:Htoken; cbn; [|reflexivity].
  destruct (String.eqb_spec token "") as [->|Hne]; [reflexivity|].
  destruct (Auth.verifyToken hs256 env now (decode token)) as [claims|] eqn:Hv;
    [|reflexivity].
  now exists token.
Qed.

(** X14.  With a secret configured, a request that carries an issued
    token in its bearer header passes [requireAuth] with the payload the
    token was issued for as long as the clock is before the expiry, and
    is answered 401 "Invalid or expired token" from the expiry on. *)
Theorem requireAuth_issued
    (env : Env.t) (secret t : string) (p : Jwt.Payload) (issued now : Date)
    (cookie : option string) :
  Js.string_or_null (Env.JWT_SECRET env) = Some secret ->
  t <> "" ->
  Auth.generateToken hs256 env issued p = Js.Ok (decode t) ->
  (Jwt.clockTimestamp now < Jwt.clockTimestamp issued + Jwt.seven_days ->
   exists claims,
     Auth.requireAuth hs256 decode env now (Auth.mkHeaders (Some ("Bearer " ++ t)) cookie)
     = inl claims
     /\ Jwt.payload claims = p)
  /\ (Jwt.clockTimestamp issued + Jwt.seven_days <= Jwt.clockTimestamp now ->
      Auth.requireAuth hs256 decode env now (Auth.mkHeaders (Some ("Bearer " ++ t)) cookie)
      = inr (Http.unauthorized "Invalid or expired token")).
Proof.
  intros Hsecret Ht Hgen.
  assert (Hne := AuthFacts.string_or_null_some _ _ Hsecret).
  unfold Auth.generateToken, Auth.getJWTSecret in Hgen. rewrite Hsecret in Hgen.
  cbn [Js.bind] in Hgen. unfold Jwt.sign in Hgen. rewrite Hne in Hgen.
  injection Hgen as Hdecode.
  unfold Auth.requireAuth, Auth.getAuthToken. rewrite bearer_token.
  rewrite (JsFacts.string_or_null_nonempty t Ht).
  unfold Auth.verifyToken, Auth.getJWTSecret. rewrite Hsecret. cbn [Js.bind].
  rewrite <- Hdecode. cbn [Jwt.verify Jwt.exp]. rewrite Hne, String.eqb_refl. cbn [negb].
  split; intro Hclock.
  - destruct (Z.geb_spec (Jwt.clockTimestamp now)
                (Jwt.clockTimestamp issued + Jwt.seven_days)); [lia|].
    eexists. split; reflexivity.
  - destruct (Z.geb_spec (Jwt.clockTimestamp now)
                (Jwt.clockTimestamp issued + Jwt.seven_days)); [reflexivity|lia].
Qed.

End WithJwt.

(** A decoder for examples: the one token string it knows is the token
    issued for [alice] at time [5000]. *)
Definition toy_decode (s : string) : Jwt.Token :=
  if String.eqb s "alice-token"
  then Jwt.Signed (Jwt.mkClaims AuthFacts.alice 5 604805)
         (AuthFacts.toy_hs256 "secret" (Jwt.mkClaims AuthFacts.alice 5 604805))
  else Jwt.Malformed s.

Lemma requireAuth_issued_witness :
  exists claims,
    Auth.requireAuth AuthFacts.toy_hs256 toy_decode ExportFacts.configured 6000
      (Auth.mkHeaders (Some "Bearer alice-token") None) = inl claims
    /\ Jwt.payload claims = AuthFacts.alice.
Proof.
  destruct (requireAuth_issued AuthFacts.toy_hs256 toy_decode ExportFacts.configured
              "secret" "alice-token" AuthFacts.alice 5000 6000 None)
    as [Hvalid _].
  - reflexivity.
  - discriminate.
  - reflexivity.
  - apply Hvalid. vm_compute. reflexivity.
Defined.

End TokenFacts.

(* ================================================================== *)
(** ** The handlers: methods, validation and the durable listings *)
(* ================================================================== *)

Module HandlerFacts.

Lemma other_method (method expected : string) :
  method <> expected -> String.eqb method expected = false.
Proof. apply String.eqb_neq. Qed.

Section WithCollaborators.
Variable openai : Upstream.Request -> Upstream.Completion.
Variable JSON_parse : string -> option Upstream.Analysis.
Variable Date_toString : Date -> string.
Variable Number_toString : Q -> string.

(** X15.  Each of these seven serverless handlers answers a method it
    does not serve with 405 and an [Allow] header naming the method it
    serves, and leaves its instance as it was: the three listings and the
    export serve [GET], the three creating handlers serve [POST].  A
    handler with a [userId] in its path answers 400 "Invalid user ID"
    when that is not a string, before it looks at the method. *)
Theorem method_not_allowed (env : Env.t) (method : string) (i : Db.Instance) :
  (method <> "GET" ->
   forall userId,
     Api.health_metrics_userId env method (Some userId) i
     = (Http.mk 405 [("Allow", "GET")] (Http.Json_error "Method not allowed"), i)
     /\ Api.export_userId Date_toString Number_toString env method (Some userId) i
        = (Http.mk 405 [("Allow", "GET")] (Http.Json_error "Method not allowed"), i)
     /\ ApiRest.dream_analysis_userId env method (Some userId) i
        = (Reply.Problem
             (Http.mk 405 [("Allow", "GET")] (Http.Json_error "Method not allowed")), i)
     /\ ApiRest.ai_chat_userId env method (Some userId) i
        = (Reply.Problem
             (Http.mk 405 [("Allow", "GET")] (Http.Json_error "Method not allowed")), i))
  /\ (method <> "POST" ->
      (forall d body,
         Api.ai_chat openai env method d body i
         = (Http.mk 405 [("Allow", "POST")] (Http.Json_error "Method not allowed"), i))
      /\ (forall uuid now body,
          Api.dream_analysis openai JSON_parse env method uuid now body i
          = (Http.mk 405 [("Allow", "POST")] (Http.Json_error "Method not allowed"), i))
      /\ (forall uuid now body,
          ApiRest.health_metrics_index env method uuid now body i
          = (Reply.Problem
               (Http.mk 405 [("Allow", "POST")] (Http.Json_error "Method not allowed")),
             i)))
  /\ (Api.health_metrics_userId env method None i
      = (Http.mk 400 [] (Http.Json_error "Invalid user ID"), i)
      /\ Api.export_userId Date_toString Number_toString env method None i
         = (Http.mk 400 [] (Http.Json_error "Invalid user ID"), i)
      /\ ApiRest.dream_analysis_userId env method None i
         = (Reply.Problem (Http.mk 400 [] (Http.Json_error "Invalid user ID")), i)
      /\ ApiRest.ai_chat_userId env method None i
         = (Reply.Problem (Http.mk 400 [] (Http.Json_error "Invalid user ID")), i)).
Proof.
  split; [|split].
  - intros Hm userId. apply other_method in Hm.
    unfold Api.health_metrics_userId, Api.export_userId,
      ApiRest.dream_analysis_userId, ApiRest.ai_chat_userId, ApiRest.listing.
    rewrite Hm. repeat split.
  - intros Hm. apply other_method in Hm.
    unfold Api.ai_chat, Api.dream_analysis, ApiRest.health_metrics_index.
    rewrite Hm. repeat split.
  - repeat split.
Qed.



End WithCollaborators.


(** A listing of at most [n] of the rows [mine], newest first: it is
    descending, it holds [min n (length mine)] rows, and [mine] is the
    listing together with rows that are each at most as recent as every
    row listed.  Nothing is said about the order of rows with equal
    timestamps. *)
Definition newest {R} (timestamp : R -> Date) (n : nat) (mine listed : list R) : Prop :=
  JsFacts.descending timestamp listed
  /\ length listed = Nat.min n (length mine)
  /\ exists rest,
       Permutation mine (listed ++ rest)
       /\ forall a b, In a listed -> In b rest -> timestamp b <= timestamp a.

(** What the query of a listing handler returns, read off one table. *)
Lemma select_recent_spec {R} (owner : R -> option string) (timestamp : R -> Date)
    (userId : string) (n : nat) (rows : list R) :
  let mine := Db.where_userId owner userId rows in
  let listed := ApiRest.select_recent owner timestamp userId n rows in
  newest timestamp n mine listed
  /\ IsolationFacts.owned_by owner userId listed.
Proof.
  cbn zeta. unfold ApiRest.select_recent, Db.limit, newest.
  assert (Hs : JsFacts.descending timestamp
                 (Db.orderBy_desc timestamp (Db.where_userId owner userId rows)))
    by apply JsFacts.sort_descending.
  split; [split; [|split]|].
  - now apply JsFacts.StronglySorted_firstn.
  - unfold Db.orderBy_desc. now rewrite length_firstn, JsFacts.sort_length.
  - exists (skipn n (Db.orderBy_desc timestamp (Db.where_userId owner userId rows))).
    split.
    + rewrite firstn_skipn. unfold Db.orderBy_desc. apply JsFacts.sort_perm.
    + intros a b Ha Hb.
      apply (ListingFacts.sorted_split (fun a b => timestamp b <= timestamp a)
               n _ Hs a b Ha Hb).
  - apply Forall_forall. intros r Hr. apply JsFacts.In_firstn in Hr.
    revert r Hr. apply Forall_forall. apply IsolationFacts.db_select_owned.
Qed.

(** X17.  With the connection string set, the serverless listings of
    dream analyses and of chat messages answer 200 with the newest of
    the user's rows, newest first: [min 20 n] of the user's [n] analyses
    and [min 50 n] of the user's [n] messages, every row of the user
    that is left out being at most as recent as every row returned, and
    every row returned carrying the queried [userId]; the tables are not
    changed.  The chat history thus comes newest first here. *)
Theorem serverless_listings (env : Env.t) (url userId : string) (i : Db.Instance) :
  Js.string_or_null (Env.DATABASE_URL env) = Some url ->
  (exists dreams,
     fst (ApiRest.dream_analysis_userId env "GET" (Some userId) i) = Reply.Data 200 dreams
     /\ Db.tables (snd (ApiRest.dream_analysis_userId env "GET" (Some userId) i))
        = Db.tables i
     /\ newest DreamAnalysis.timestamp 20
          (Db.where_userId DreamAnalysis.userId userId (Db.dreamAnalysis (Db.tables i)))
          dreams
     /\ IsolationFacts.owned_by DreamAnalysis.userId userId dreams)
  /\ (exists chats,
     fst (ApiRest.ai_chat_userId env "GET" (Some userId) i) = Reply.Data 200 chats
     /\ Db.tables (snd (ApiRest.ai_chat_userId env "GET" (Some userId) i)) = Db.tables i
     /\ newest AiChat.timestamp 50
          (Db.where_userId AiChat.userId userId (Db.aiChats (Db.tables i)))
          chats
     /\ IsolationFacts.owned_by AiChat.userId userId chats).
Proof.
  intro Hurl.
  assert (Hdb : exists cached, Db.getDb env (Db.cachedDb i) = (Js.Ok cached, Some cached)).
  { unfold Db.getDb. destruct (Db.cachedDb i) as [db|]; [now exists db|].
    rewrite Hurl. now exists url. }
  destruct Hdb as (cached & Hdb).
  split.
  - destruct (select_recent_spec DreamAnalysis.userId DreamAnalysis.timestamp userId 20
                (Db.dreamAnalysis (Db.tables i))) as (Hn & Ho).
    eexists. unfold ApiRest.dream_analysis_userId, ApiRest.listing.
    cbn [String.eqb Ascii.eqb Bool.eqb]. rewrite Hdb. cbn [fst snd Db.tables].
    split; [reflexivity|]. split; [reflexivity|]. split; [exact Hn|exact Ho].
  - destruct (select_recent_spec AiChat.userId AiChat.timestamp userId 50
                (Db.aiChats (Db.tables i))) as (Hn & Ho).
    eexists. unfold ApiRest.ai_chat_userId, ApiRest.listing.
    cbn [String.eqb Ascii.eqb Bool.eqb]. rewrite Hdb. cbn [fst snd Db.tables].
    split; [reflexivity|]. split; [reflexivity|]. split; [exact Hn|exact Ho].
Qed.

(** Three chat rows of one user in the durable store. *)
Definition three_chats : Db.Tables :=
  Db.mkTables [] [] []
    [ AiChat.mk "a" (Some "u1") "one" true 1000;
      AiChat.mk "b" (Some "u1") "two" false 2000;
      AiChat.mk "c" (Some "u1") "three" true 3000 ] [].

Lemma serverless_listings_witness :
  exists chats,
    fst (ApiRest.ai_chat_userId ExportFacts.configured "GET" (Some "u1")
           (Db.mkInstance None three_chats)) = Reply.Data 200 chats
    /\ List.map AiChat.id chats = ["c"; "b"; "a"].
Proof.
  destruct (serverless_listings ExportFacts.configured "postgres://db" "u1"
              (Db.mkInstance None three_chats) eq_refl) as (_ & chats & Hc & _).
  exists chats. split; [exact Hc|].
  vm_compute in Hc. injection Hc as <-. reflexivity.
Defined.



End HandlerFacts.

(* ================================================================== *)
(** ** A chat request that succeeds *)
(* ================================================================== *)

Module ChatFacts.

Lemma chats_ascending_created (uuid : string) (now : Date) (ins : InsertAiChat.t)
    (st : MemStorage.t) (u : string) :
  InsertAiChat.userId ins = Some u -> u <> "" ->
  ~ In uuid (Js.map_keys (MemStorage.aiChats st)) ->
  (forall c, In c (StoreFacts.chats_of st u) -> AiChat.timestamp c <= now) ->
  StoreFacts.chats_ascending (snd (MemStorage.createAiChat uuid now ins st)) u
  = (StoreFacts.chats_ascending st u ++ [fst (MemStorage.createAiChat uuid now ins st)])%list.
Proof.
  intros Hu Hne Hfresh Hnow. unfold StoreFacts.chats_ascending.
  rewrite InsertFacts.chats_of_created by assumption.
  rewrite Hu, InsertFacts.owner_matches by assumption.
  now rewrite ListingFacts.sort_asc_snoc by (intros y Hy; cbn; now apply Hnow).
Qed.

Lemma createAiChat_keys (uuid : string) (now : Date) (ins : InsertAiChat.t)
    (st : MemStorage.t) (k : string) :
  In k (Js.map_keys (MemStorage.aiChats (snd (MemStorage.createAiChat uuid now ins st))))
  <-> k = uuid \/ In k (Js.map_keys (MemStorage.aiChats st)).
Proof.
  unfold MemStorage.createAiChat. cbn [snd MemStorage.aiChats].
  apply KeyFacts.map_set_keys_In.
Qed.

(** The reply as [post_ai_chat] stores it. *)
Definition reply_message (d : Routes.ChatDraws) (body : Routes.ChatBody)
    (content : option string) : AiChat.t :=
  AiChat.mk (Routes.uuid2 d) (Js.string_or_null (Routes.insert_userId body))
            (Js.string_or content Upstream.fallbackReply) false (Routes.now2 d).

(** X19.  When the collaborator answers a chat request of the Express
    route, the route answers 200 with the stored reply, whose text is the
    collaborator's content or, when that is missing or empty, the
    fallback sentence.  With fresh distinct identifiers and a clock that
    does not run backwards, the user's listing, for every limit of at
    least two, then ends with the user's message followed by the reply. *)
Theorem post_ai_chat_success
    (openai : Upstream.Request -> Upstream.Completion)
    (d : Routes.ChatDraws) (body : Routes.ChatBody) (st : MemStorage.t)
    (u : string) (content : option string) (limit : Z) :
  Routes.chat_userId body = Some (Some u) -> u <> "" ->
  ~ In (Routes.uuid1 d) (Js.map_keys (MemStorage.aiChats st)) ->
  ~ In (Routes.uuid2 d) (Js.map_keys (MemStorage.aiChats st)) ->
  Routes.uuid1 d <> Routes.uuid2 d ->
  (forall c, In c (StoreFacts.chats_of st u) -> AiChat.timestamp c <= Routes.now1 d) ->
  Routes.now1 d <= Routes.now2 d ->
  openai (Routes.chat_request body (Routes.with_user_message d body st))
  = Upstream.Content content ->
  2 <= limit ->
  fst (Routes.post_ai_chat openai d body st)
  = Routes.json (Http.Json_chat (reply_message d body content))
  /\ MemStorage.getAiChats (snd (Routes.post_ai_chat openai d body st)) u limit
     = (StoreFacts.last_n (Z.to_nat limit - 2) (StoreFacts.chats_ascending st u)
        ++ [UpstreamFacts.user_message d body; reply_message d body content])%list.
Proof.
  intros Hbody Hne Hf1 Hf2 Hdiff Hnow Hclock Hopen Hlimit.
  assert (Hu : Routes.insert_userId body = Some u)
    by (unfold Routes.insert_userId; now rewrite Hbody).
  unfold Routes.post_ai_chat. rewrite Hopen.
  set (st1 := Routes.with_user_message d body st).
  set (ins2 := InsertAiChat.mk (Routes.insert_userId body)
                 (Js.string_or content Upstream.fallbackReply) false).
  assert (Hst1 : StoreFacts.chats_ascending st1 u
                 = (StoreFacts.chats_ascending st u ++ [UpstreamFacts.user_message d body])%list).
  { apply (chats_ascending_created (Routes.uuid1 d) (Routes.now1 d)
             (InsertAiChat.mk (Routes.insert_userId body) (Routes.message body) true) st u);
      assumption. }
  assert (Hf2' : ~ In (Routes.uuid2 d) (Js.map_keys (MemStorage.aiChats st1))).
  { unfold st1, Routes.with_user_message. rewrite createAiChat_keys.
    intros [H|H]; [congruence|contradiction]. }
  assert (Hnow2 : forall c, In c (StoreFacts.chats_of st1 u) ->
                    AiChat.timestamp c <= Routes.now2 d).
  { intros c Hc.
    assert (Hin : In c (StoreFacts.chats_ascending st1 u))
      by (apply JsFacts.sort_In; exact Hc).
    rewrite Hst1 in Hin. apply in_app_or in Hin. destruct Hin as [Hin|[<-|[]]].
    - apply JsFacts.sort_In in Hin. specialize (Hnow c Hin). lia.
    - cbn. exact Hclock. }
  assert (Hst2 := chats_ascending_created (Routes.uuid2 d) (Routes.now2 d) ins2 st1 u
                    Hu Hne Hf2' Hnow2).
  destruct (MemStorage.createAiChat (Routes.uuid2 d) (Routes.now2 d) ins2 st1)
    as [aiChat st2] eqn:Hcreate.
  cbn [fst snd] in *.
  assert (Hreply : aiChat = reply_message d body content).
  { unfold MemStorage.createAiChat in Hcreate. now injection Hcreate as <- _. }
  split; [now rewrite Hreply|].
  rewrite StoreFacts.getAiChats_unfold, JsFacts.slice_tail by lia.
  rewrite Hst2, Hst1, Hreply, <- app_assoc. cbn [app].
  rewrite !length_app. cbn [length].
  rewrite skipn_app.
  replace (length (StoreFacts.chats_ascending st u) + 2 - Z.to_nat limit
           - length (StoreFacts.chats_ascending st u))%nat with 0%nat by lia.
  cbn [skipn]. unfold StoreFacts.last_n. do 2 f_equal. lia.
Qed.

Definition answers (text : string) : Upstream.Request -> Upstream.Completion :=
  fun _ => Upstream.Content (Some text).

Lemma post_ai_chat_success_witness :
  List.map AiChat.message
    (MemStorage.getAiChats
       (snd (Routes.post_ai_chat (answers "breathe") UpstreamFacts.draws0
               UpstreamFacts.hello MemStorage.new)) "u1" 50)
  = ["hello"; "breathe"].
Proof.
  destruct (post_ai_chat_success (answers "breathe") UpstreamFacts.draws0
              UpstreamFacts.hello MemStorage.new "u1" (Some "breathe") 50)
    as [_ Hlist].
  - reflexivity.
  - discriminate.
  - intros [].
  - intros [].
  - discriminate.
  - intros c [].
  - cbn. lia.
  - reflexivity.
  - lia.
  - rewrite Hlist. reflexivity.
Defined.

End ChatFacts.

(* ================================================================== *)
(** ** The signal generator: steps, slow fields and the sliding window *)
(* ================================================================== *)

Module WalkFacts.

(** [Math.floor(r * k)] for [r] in [[0, 1)] is one of [0 .. k-1]. *)
Lemma floor_times_range (r : Q) (k : Z) :
  Signal.unit_interval r -> 0 < k ->
  0 <= Signal.floor_times r k <= k - 1.
Proof.
  intros [Hr0 Hr1] Hk. unfold Signal.floor_times.
  assert (Hk' : (0 < inject_Z k)%Q) by (unfold Qlt; cbn; lia).
  split.
  - apply Z.le_trans with (Qfloor 0); [cbn; lia|]. apply Qfloor_resp_le.
    apply Qmult_le_0_compat; [exact Hr0|now apply Qlt_le_weak].
  - assert (Hlt : (inject_Z (Qfloor (r * inject_Z k)) < inject_Z k)%Q).
    { eapply Qle_lt_trans; [apply Qfloor_le|].
      setoid_replace (inject_Z k) with (1 * inject_Z k)%Q at 2 by ring.
      now apply Qmult_lt_compat_r. }
    rewrite <- Zlt_Qlt in Hlt. lia.
Qed.

(** The random numbers of the four scalars and of the step counter. *)
Definition scalar_draws_ok (k : Signal.Tick) : Prop :=
  Signal.unit_interval (Signal.r_heartRate k)
  /\ Signal.unit_interval (Signal.r_stressLevel k)
  /\ Signal.unit_interval (Signal.r_sleepQuality k)
  /\ Signal.unit_interval (Signal.r_neuralActivity k)
  /\ Signal.unit_interval (Signal.r_dailySteps k).

Lemma tick0_scalar_draws : scalar_draws_ok SignalFacts.tick0.
Proof. repeat split; try discriminate; reflexivity. Qed.

(** X20.  One tick moves each scalar by a bounded step that is never the
    full step upwards: from values within their ranges, the heart rate
    and the sleep quality change by -3 to +2, the stress level by -5 to
    +4 and the neural activity by -4 to +3. *)
Theorem step_bounds (k : Signal.Tick) (prev : Signal.HealthMetrics) :
  scalar_draws_ok k ->
  Signal.metrics_in_range prev ->
  let next := Signal.nextMetrics k prev in
  Signal.heartRate prev - 3 <= Signal.heartRate next <= Signal.heartRate prev + 2
  /\ Signal.stressLevel prev - 5 <= Signal.stressLevel next <= Signal.stressLevel prev + 4
  /\ Signal.sleepQuality prev - 3 <= Signal.sleepQuality next <= Signal.sleepQuality prev + 2
  /\ Signal.neuralActivity prev - 4 <= Signal.neuralActivity next
     <= Signal.neuralActivity prev + 3.
Proof.
  intros (Hh & Hs & Hq & Hn & _) (Rh & Rs & Rq & Rn). cbn zeta.
  pose proof (floor_times_range _ 6 Hh ltac:(lia)).
  pose proof (floor_times_range _ 10 Hs ltac:(lia)).
  pose proof (floor_times_range _ 6 Hq ltac:(lia)).
  pose proof (floor_times_range _ 8 Hn ltac:(lia)).
  unfold Signal.nextMetrics, Signal.clamp, Signal.in_range in *.
  cbn [Signal.heartRate Signal.stressLevel Signal.sleepQuality Signal.neuralActivity].
  lia.
Qed.

Lemma step_bounds_witness :
  let prev := Signal.mkHealthMetrics 72 34 87 92 (Some 8247) None in
  Signal.heartRate prev - 3 <= Signal.heartRate (Signal.nextMetrics SignalFacts.tick0 prev)
  <= Signal.heartRate prev + 2.
Proof.
  cbv zeta.
  destruct (step_bounds SignalFacts.tick0
              (Signal.mkHealthMetrics 72 34 87 92 (Some 8247) None)) as (H & _).
  - exact tick0_scalar_draws.
  - unfold Signal.metrics_in_range, Signal.in_range; cbn. lia.
  - exact H.
Defined.

Section WithSine.
Variable Math_sin : Q -> Q.

Lemma run_cons (k : Signal.Tick) (ks : list Signal.Tick) (s : Signal.State) :
  Signal.run Math_sin (k :: ks) s
  = Signal.run Math_sin ks (Signal.updateMetrics Math_sin k s).
Proof. reflexivity. Qed.

(** X21.  The step counter never decreases and the sleep duration never
    changes: from a positive count [n], after any ticks the count is
    between [n] and [n] plus 49 per tick, and the sleep duration is the
    one before.  A count that is missing or zero is reset to 8247 by the
    next tick. *)
Theorem slow_fields (ks : list Signal.Tick) (s : Signal.State) (n : Z) :
  Forall (fun k => Signal.unit_interval (Signal.r_dailySteps k)) ks ->
  Signal.dailySteps (Signal.currentMetrics s) = Some n -> 0 < n ->
  (exists n',
     Signal.dailySteps (Signal.currentMetrics (Signal.run Math_sin ks s)) = Some n'
     /\ n <= n' <= n + 49 * Z.of_nat (length ks))
  /\ Signal.sleepDuration (Signal.currentMetrics (Signal.run Math_sin ks s))
     = Signal.sleepDuration (Signal.currentMetrics s)
  /\ (forall k prev,
        Signal.dailySteps prev = None \/ Signal.dailySteps prev = Some 0 ->
        Signal.dailySteps (Signal.nextMetrics k prev) = Some 8247).
Proof.
  intros Hks Hn Hpos. split; [|split].
  - revert s n Hn Hpos. induction Hks as [|k ks Hk Hks IH]; intros s n Hn Hpos.
    + exists n. cbn. split; [exact Hn|lia].
    + rewrite run_cons.
      pose proof (floor_times_range _ 50 Hk ltac:(lia)) as Hf.
      destruct (IH (Signal.updateMetrics Math_sin k s)
                   (n + Signal.floor_times (Signal.r_dailySteps k) 50))
        as (n' & Hn' & Hb).
      * cbn. rewrite Hn. cbn. destruct (Z.eqb_spec n 0); [lia|reflexivity].
      * lia.
      * exists n'. split; [exact Hn'|]. cbn [length]. lia.
  - clear. revert s. induction ks as [|k ks IH]; intro s; [reflexivity|].
    rewrite run_cons, IH. reflexivity.
  - intros k prev [H|H]; unfold Signal.nextMetrics; cbn; now rewrite H.
Qed.

(** X22.  After any number of ticks from the initial state, whatever is
    drawn, the activity of each of the five brain regions lies within
    [[20, 100]]. *)
Theorem regions_bounded (alpha0 beta0 : nat -> Q * Q) (now : Date)
    (ks : list Signal.Tick) :
  let r := Signal.regions
             (Signal.run Math_sin ks (Signal.initial Math_sin alpha0 beta0 now)) in
  Signal.in_range 20 100 (Signal.frontal r)
  /\ Signal.in_range 20 100 (Signal.temporal r)
  /\ Signal.in_range 20 100 (Signal.parietal r)
  /\ Signal.in_range 20 100 (Signal.occipital r)
  /\ Signal.in_range 20 100 (Signal.brainstem r).
Proof.
  cbn zeta.
  assert (H0 : let r := Signal.regions (Signal.initial Math_sin alpha0 beta0 now) in
               Signal.in_range 20 100 (Signal.frontal r)
               /\ Signal.in_range 20 100 (Signal.temporal r)
               /\ Signal.in_range 20 100 (Signal.parietal r)
               /\ Signal.in_range 20 100 (Signal.occipital r)
               /\ Signal.in_range 20 100 (Signal.brainstem r)).
  { unfold Signal.in_range; cbn. lia. }
  revert H0. generalize (Signal.initial Math_sin alpha0 beta0 now) as s.
  induction ks as [|k ks IH]; intros s Hs; [exact Hs|].
  rewrite run_cons. apply IH. cbn.
  repeat split; apply SignalFacts.clamp_in_range; lia.
Qed.

Lemma shift_is_skip (l : list Q) (x : Q) :
  l <> [] -> (Js.slice 1 None l ++ [x])%list = skipn 1 (l ++ [x]).
Proof.
  intro H. rewrite JsFacts.slice_one. destruct l; [contradiction|reflexivity].
Qed.

Lemma window (sample : Signal.Tick -> Q) (buffer : Signal.State -> list Q)
    (ks : list Signal.Tick) :
  (forall k s, buffer (Signal.updateMetrics Math_sin k s)
               = (Js.slice 1 None (buffer s) ++ [sample k])%list) ->
  forall s, buffer s <> [] ->
    buffer (Signal.run Math_sin ks s)
    = skipn (length ks) (buffer s ++ List.map sample ks).
Proof.
  intro Hstep. induction ks as [|k ks IH]; intros s Hs.
  - cbn. now rewrite app_nil_r.
  - rewrite run_cons, IH.
    + rewrite Hstep, shift_is_skip by assumption.
      destruct (buffer s) as [|b l]; [contradiction|]. cbn [app skipn List.map length].
      rewrite <- app_assoc. reflexivity.
    + rewrite Hstep. now destruct (Js.slice 1 None (buffer s)).
Qed.

(** X23.  The two waveform buffers are sliding windows: from non-empty
    buffers, after the ticks [ks] each buffer is the buffer before
    followed by the samples of the ticks, with as many of the oldest
    entries dropped as there were ticks.  From the initial state, once
    fifty or more ticks have run, each buffer holds exactly the samples
    of the last fifty ticks, oldest first. *)
Theorem sliding_window (ks : list Signal.Tick) :
  (forall s,
     Signal.alphaWaves (Signal.eegData s) <> [] ->
     Signal.betaWaves (Signal.eegData s) <> [] ->
     Signal.alphaWaves (Signal.eegData (Signal.run Math_sin ks s))
     = skipn (length ks)
         (Signal.alphaWaves (Signal.eegData s)
          ++ List.map (Signal.alphaSample Math_sin) ks)
     /\ Signal.betaWaves (Signal.eegData (Signal.run Math_sin ks s))
        = skipn (length ks)
            (Signal.betaWaves (Signal.eegData s)
             ++ List.map (Signal.betaSample Math_sin) ks))
  /\ (forall alpha0 beta0 now,
      (50 <= length ks)%nat ->
      let s := Signal.run Math_sin ks (Signal.initial Math_sin alpha0 beta0 now) in
      Signal.alphaWaves (Signal.eegData s)
      = List.map (Signal.alphaSample Math_sin) (skipn (length ks - 50) ks)
      /\ Signal.betaWaves (Signal.eegData s)
         = List.map (Signal.betaSample Math_sin) (skipn (length ks - 50) ks)).
Proof.
  assert (Hgen : forall s,
     Signal.alphaWaves (Signal.eegData s) <> [] ->
     Signal.betaWaves (Signal.eegData s) <> [] ->
     Signal.alphaWaves (Signal.eegData (Signal.run Math_sin ks s))
     = skipn (length ks)
         (Signal.alphaWaves (Signal.eegData s)
          ++ List.map (Signal.alphaSample Math_sin) ks)
     /\ Signal.betaWaves (Signal.eegData (Signal.run Math_sin ks s))
        = skipn (length ks)
            (Signal.betaWaves (Signal.eegData s)
             ++ List.map (Signal.betaSample Math_sin) ks)).
  { intros s Ha Hb. split.
    - apply (window (Signal.alphaSample Math_sin)
               (fun s => Signal.alphaWaves (Signal.eegData s))); [reflexivity|exact Ha].
    - apply (window (Signal.betaSample Math_sin)
               (fun s => Signal.betaWaves (Signal.eegData s))); [reflexivity|exact Hb]. }
  split; [exact Hgen|].
  intros alpha0 beta0 now Hlen. cbn zeta.
  destruct (Hgen (Signal.initial Math_sin alpha0 beta0 now)) as [Ha Hb].
  - cbn -[seq]. unfold Signal.Array_from. cbn. discriminate.
  - cbn -[seq]. unfold Signal.Array_from. cbn. discriminate.
  - rewrite Ha, Hb.
    assert (Hla : length (Signal.alphaWaves
                    (Signal.eegData (Signal.initial Math_sin alpha0 beta0 now))) = 50%nat)
      by (cbn -[seq]; unfold Signal.Array_from; now rewrite length_map, length_seq).
    assert (Hlb : length (Signal.betaWaves
                    (Signal.eegData (Signal.initial Math_sin alpha0 beta0 now))) = 50%nat)
      by (cbn -[seq]; unfold Signal.Array_from; now rewrite length_map, length_seq).
    rewrite !skipn_app, Hla, Hlb, !skipn_map.
    rewrite !(skipn_all2 (n := length ks)) by lia.
    split; reflexivity.
Qed.

End WithSine.

Lemma slow_fields_witness :
  exists n',
    Signal.dailySteps
      (Signal.currentMetrics
         (Signal.run SignalFacts.toy_sin
            [SignalFacts.tick0; SignalFacts.tick0]
            (Signal.initial SignalFacts.toy_sin
               (fun _ => (SignalFacts.half, SignalFacts.half))
               (fun _ => (SignalFacts.half, SignalFacts.half)) 0))) = Some n'
    /\ 8247 <= n' <= 8247 + 49 * 2.
Proof.
  destruct (slow_fields SignalFacts.toy_sin [SignalFacts.tick0; SignalFacts.tick0]
              (Signal.initial SignalFacts.toy_sin
                 (fun _ => (SignalFacts.half, SignalFacts.half))
                 (fun _ => (SignalFacts.half, SignalFacts.half)) 0) 8247)
    as ((n' & Hn & Hb) & _).
  - repeat (apply Forall_cons; [exact SignalFacts.half_unit|]). apply Forall_nil.
  - reflexivity.
  - lia.
  - exists n'. split; [exact Hn|]. cbn [length] in Hb. lia.
Defined.

End WalkFacts.

(* ================================================================== *)
(** ** The waveform generator and the two exports side by side *)
(* ================================================================== *)

Module WaveFacts.

(** The closed intervals of the two bands. *)
Definition alpha_range (x : Q) : Prop := (-50 <= x /\ x <= 70)%Q.
Definition beta_range (x : Q) : Prop := (-30 <= x /\ x <= 45)%Q.

Section WithSine.
Variable Math_sin : Q -> Q.
Hypothesis sine : Signal.sine_range Math_sin.

Lemma alpha_wave_range (x r : Q) :
  Signal.unit_interval r -> alpha_range (Signal.wave Math_sin x 50 r 20).
Proof.
  intros [Hr0 Hr1]. destruct (sine x) as [Hlo Hhi].
  unfold alpha_range, Signal.wave.
  change (inject_Z 50) with (50 # 1). change (inject_Z 20) with (20 # 1).
  split; lra.
Qed.

Lemma beta_wave_range (x r : Q) :
  Signal.unit_interval r -> beta_range (Signal.wave Math_sin x 30 r 15).
Proof.
  intros [Hr0 Hr1]. destruct (sine x) as [Hlo Hhi].
  unfold beta_range, Signal.wave.
  change (inject_Z 30) with (30 # 1). change (inject_Z 15) with (15 # 1).
  split; lra.
Qed.

End WithSine.

(** X24.  With [Math.sin] in [[-1, 1]] and random numbers in [[0, 1)],
    [generateEEGData(length)] returns two arrays of [length] samples,
    the alpha samples in [[-50, 70]] and the beta samples in
    [[-30, 45]], both ends included; the samples a tick of
    [updateMetrics] appends lie in the same intervals; and the initial
    buffers of the hook are those of [generateEEGData(50)]. *)
Theorem waveform_ranges (Math_sin : Q -> Q) :
  Signal.sine_range Math_sin ->
  (forall length alpha beta now,
     (forall i, Signal.unit_interval (snd (alpha i))) ->
     (forall i, Signal.unit_interval (snd (beta i))) ->
     let e := Simulation.generateEEGData Math_sin length alpha beta now in
     List.length (Signal.alphaWaves e) = length
     /\ List.length (Signal.betaWaves e) = length
     /\ Forall alpha_range (Signal.alphaWaves e)
     /\ Forall beta_range (Signal.betaWaves e))
  /\ (forall k, Signal.tick_draws_ok k ->
      alpha_range (Signal.alphaSample Math_sin k)
      /\ beta_range (Signal.betaSample Math_sin k))
  /\ (forall alpha beta now,
      Signal.eegData (Signal.initial Math_sin alpha beta now)
      = Simulation.generateEEGData Math_sin 50 alpha beta now).
Proof.
  intro Hsin. split; [|split].
  - intros length alpha beta now Ha Hb. cbn zeta.
    unfold Simulation.generateEEGData, Signal.Array_from.
    cbn [Signal.alphaWaves Signal.betaWaves].
    rewrite !length_map, !length_seq. repeat split.
    + apply Forall_forall. intros x Hx. apply in_map_iff in Hx.
      destruct Hx as (i & <- & _). now apply alpha_wave_range.
    + apply Forall_forall. intros x Hx. apply in_map_iff in Hx.
      destruct Hx as (i & <- & _). now apply beta_wave_range.
  - intros k [Ha Hb]. split.
    + now apply alpha_wave_range.
    + now apply beta_wave_range.
  - reflexivity.
Qed.

Lemma waveform_ranges_witness :
  Forall alpha_range
    (Signal.alphaWaves
       (Simulation.generateEEGData SignalFacts.toy_sin 3
          (fun _ => (SignalFacts.half, SignalFacts.half))
          (fun _ => (SignalFacts.half, SignalFacts.half)) 0)).
Proof.
  destruct (waveform_ranges SignalFacts.toy_sin SignalFacts.toy_sin_range) as (H & _).
  destruct (H 3%nat (fun _ => (SignalFacts.half, SignalFacts.half))
              (fun _ => (SignalFacts.half, SignalFacts.half)) 0)
    as (_ & _ & Ha & _).
  - intro i. exact SignalFacts.half_unit.
  - intro i. exact SignalFacts.half_unit.
  - exact Ha.
Defined.

End WaveFacts.

(* ================================================================== *)
(** ** The lines of an export, and the settings routes *)
(* ================================================================== *)

Module CsvFacts.

(** A character that may stand in a cell: no comma and no line feed. *)
Definition cell_char (c : ascii) : bool :=
  (negb (Ascii.eqb c ",") && negb (Ascii.eqb c "010"))%bool.

Definition cell (s : string) : Prop := TokenFacts.all_chars cell_char s = true.

(** A rendering that never prints a comma or a line feed. *)
Definition renders_cells {A} (f : A -> string) : Prop := forall x, cell (f x).

Lemma all_chars_append (p : ascii -> bool) (a b : string) :
  TokenFacts.all_chars p (a ++ b)
  = (TokenFacts.all_chars p a && TokenFacts.all_chars p b)%bool.
Proof.
  induction a as [|c a IH]; cbn; [reflexivity|].
  rewrite IH. apply andb_assoc.
Qed.

Lemma all_chars_concat (p : ascii -> bool) (sep : string) (l : list string) :
  TokenFacts.all_chars p sep = true ->
  Forall (fun s => TokenFacts.all_chars p s = true) l ->
  TokenFacts.all_chars p (String.concat sep l) = true.
Proof.
  intros Hsep Hl. induction Hl as [|x l Hx Hl IH]; [reflexivity|].
  cbn [String.concat]. destruct l as [|y l]; [exact Hx|].
  rewrite !all_chars_append, Hx, Hsep. exact IH.
Qed.

Lemma uint_cell (d : Decimal.uint) : cell (NilEmpty.string_of_uint d).
Proof. unfold cell. induction d; cbn; auto. Qed.

Lemma string_of_int_cell (n : Z) : cell (Js.string_of_int n).
Proof.
  unfold Js.string_of_int, NilZero.string_of_int, NilZero.string_of_uint.
  destruct (Z.to_int n) as [d|d]; destruct d; try reflexivity;
    try apply (uint_cell (Decimal.D0 _)); try apply (uint_cell (Decimal.D1 _));
    try apply (uint_cell (Decimal.D2 _)); try apply (uint_cell (Decimal.D3 _));
    try apply (uint_cell (Decimal.D4 _)); try apply (uint_cell (Decimal.D5 _));
    try apply (uint_cell (Decimal.D6 _)); try apply (uint_cell (Decimal.D7 _));
    try apply (uint_cell (Decimal.D8 _)); try apply (uint_cell (Decimal.D9 _)).
Qed.

Lemma append_assoc (a b c : string) : ((a ++ b) ++ c = a ++ (b ++ c))%string.
Proof. induction a as [|x a IH]; cbn; [reflexivity|now rewrite IH]. Qed.

Lemma split_aux_sep (sep : ascii) (a rest current : string) :
  TokenFacts.all_chars (fun c => negb (Ascii.eqb c sep)) a = true ->
  Text.split_aux sep (a ++ String sep rest) current
  = (current ++ a) :: Text.split_aux sep rest "".
Proof.
  revert current. induction a as [|c a IH]; intros current H; cbn in *.
  - rewrite Ascii.eqb_refl. f_equal.
    induction current as [|x current IHc]; cbn; [reflexivity|now f_equal].
  - apply andb_prop in H. destruct H as [Hc Ha].
    destruct (Ascii.eqb c sep); [discriminate|].
    rewrite IH by assumption. f_equal. apply append_assoc.
Qed.

(** Splitting what was joined gives the pieces back, when no piece holds
    the separator. *)
Lemma split_join (sep : ascii) (l : list string) :
  l <> [] ->
  Forall (fun s => TokenFacts.all_chars (fun c => negb (Ascii.eqb c sep)) s = true) l ->
  Text.split sep (Js.join (String sep EmptyString) l) = l.
Proof.
  intros Hne Hl. unfold Text.split, Js.join.
  induction Hl as [|x l Hx Hl IH]; [contradiction|].
  cbn [String.concat]. destruct l as [|y l].
  - rewrite TokenFacts.split_aux_free by assumption. reflexivity.
  - change (x ++ String sep EmptyString ++ String.concat (String sep EmptyString) (y :: l))%string
      with (x ++ String sep (String.concat (String sep EmptyString) (y :: l)))%string.
    rewrite split_aux_sep by assumption. cbn [append]. f_equal.
    apply IH. discriminate.
Qed.

Lemma cell_no_comma (s : string) :
  cell s -> TokenFacts.all_chars (fun c => negb (Ascii.eqb c ",")) s = true.
Proof.
  apply TokenFacts.all_chars_weaken. intro c. unfold cell_char.
  destruct (Ascii.eqb c ","); [discriminate|reflexivity].
Qed.

Lemma cell_no_newline (s : string) :
  cell s -> TokenFacts.all_chars (fun c => negb (Ascii.eqb c "010")) s = true.
Proof.
  apply TokenFacts.all_chars_weaken. intro c. unfold cell_char.
  destruct (Ascii.eqb c "010"); [now rewrite andb_false_r|reflexivity].
Qed.

Section WithToString.
Variable Date_toString : Date -> string.
Variable Number_toString : Q -> string.
Hypothesis dates : renders_cells Date_toString.
Hypothesis numbers : renders_cells Number_toString.

Lemma values_cells (m : HealthMetrics.t) :
  Forall cell (Csv.values Date_toString Number_toString m).
Proof.
  unfold Csv.values. repeat constructor;
    try apply string_of_int_cell; try apply dates.
  - destruct (HealthMetrics.dailySteps m); [apply string_of_int_cell|reflexivity].
  - destruct (HealthMetrics.sleepDuration m); [apply numbers|reflexivity].
Qed.

Lemma row_no_newline (m : HealthMetrics.t) :
  TokenFacts.all_chars (fun c => negb (Ascii.eqb c "010"))
    (Js.join "," (Csv.values Date_toString Number_toString m)) = true.
Proof.
  unfold Js.join. apply all_chars_concat; [reflexivity|].
  eapply Forall_impl; [|apply values_cells]. apply cell_no_newline.
Qed.

End WithToString.

(** X26.  When the host prints no comma and no line feed in a date or a
    number, an export body splits at line feeds into the header and one
    line per sample, and every line splits at commas into its seven
    cells, in the order of the seven names of the header. *)
Theorem export_lines
    (Date_toString : Date -> string) (Number_toString : Q -> string)
    (metrics : list HealthMetrics.t) :
  renders_cells Date_toString -> renders_cells Number_toString ->
  Text.split "010"
    (Js.join (String "010" EmptyString)
       (Csv.csvHeader :: Csv.csvRows Date_toString Number_toString metrics))
  = Csv.csvHeader :: Csv.csvRows Date_toString Number_toString metrics
  /\ List.map (Text.split ",") (Csv.csvRows Date_toString Number_toString metrics)
     = List.map (Csv.values Date_toString Number_toString) metrics
  /\ Text.split "," Csv.csvHeader = Csv.keys
  /\ length Csv.keys = 7%nat
  /\ (forall m, length (Csv.values Date_toString Number_toString m) = 7%nat).
Proof.
  intros Hd Hn. split; [|split; [|repeat split]].
  - apply split_join; [discriminate|].
    constructor; [reflexivity|].
    unfold Csv.csvRows. apply Forall_forall. intros row Hrow.
    apply in_map_iff in Hrow. destruct Hrow as (m & <- & _).
    now apply row_no_newline.
  - unfold Csv.csvRows. rewrite map_map. apply map_ext. intro m.
    apply (split_join ","); [discriminate|].
    eapply Forall_impl; [|apply (values_cells _ _ Hd Hn)]. apply cell_no_comma.
Qed.

Lemma show_date_cells : renders_cells ExportFacts.show_date.
Proof. intro d. apply string_of_int_cell. Qed.

Lemma show_number_cells : renders_cells ExportFacts.show_number.
Proof.
  intro q. unfold ExportFacts.show_number, cell.
  rewrite !all_chars_append.
  rewrite (string_of_int_cell (Qnum q)), (string_of_int_cell (Z.pos (Qden q))).
  reflexivity.
Qed.

Lemma export_lines_witness :
  List.map (Text.split ",")
    (Csv.csvRows ExportFacts.show_date ExportFacts.show_number (ExportFacts.samples "u1" 2))
  = List.map (Csv.values ExportFacts.show_date ExportFacts.show_number)
      (ExportFacts.samples "u1" 2).
Proof.
  destruct (export_lines ExportFacts.show_date ExportFacts.show_number
              (ExportFacts.samples "u1" 2) show_date_cells show_number_cells)
    as (_ & H & _).
  exact H.
Defined.

(** X27.  The settings routes: a body the schema rejects is answered 400
    and changes nothing; a valid body without a [userId] key is answered
    200 with the merged record, and in a store keyed by record
    identifiers a [GET] for the same user then answers with the same
    record. *)
Theorem settings_routes
    (uuid userId : string) (st : MemStorage.t) :
  Routes.post_settings uuid userId None st
  = (Routes.fail 400 "Invalid settings data", st)
  /\ (forall partial,
      KeyFacts.keyed UserSettings.id (MemStorage.userSettings st) ->
      PartialSettings.userId partial = None ->
      fst (Routes.post_settings uuid userId (Some partial) st)
      = Routes.json (Http.Json_settings
                       (Some (fst (MemStorage.updateUserSettings uuid userId partial st))))
      /\ Routes.get_settings userId (snd (Routes.post_settings uuid userId (Some partial) st))
         = fst (Routes.post_settings uuid userId (Some partial) st)).
Proof.
  split; [reflexivity|].
  intros partial Hk Hp.
  destruct (UpsertFacts.lookup_after_update uuid userId partial st Hk Hp) as [Hget _].
  cbn zeta in Hget. unfold Routes.post_settings, Routes.get_settings.
  destruct (MemStorage.updateUserSettings uuid userId partial st) as [settings st'].
  cbn [fst snd] in *. now rewrite Hget.
Qed.

Lemma settings_routes_witness :
  Routes.get_settings "u1"
    (snd (Routes.post_settings "s1" "u1" (Some PartialSettings.empty) MemStorage.new))
  = fst (Routes.post_settings "s1" "u1" (Some PartialSettings.empty) MemStorage.new).
Proof.
  destruct (settings_routes "s1" "u1" MemStorage.new) as [_ H].
  destruct (H PartialSettings.empty) as [_ Hget].
  - repeat split; [constructor|constructor|intros []].
  - reflexivity.
  - exact Hget.
Defined.

End CsvFacts.

(* ================================================================== *)
(** * The Express routes and the serverless handlers side by side *)
(* ================================================================== *)

Module PathFacts.

Section Strict.
Context {A : Type}.
Variable key : A -> Z.

(** Strictly descending by key: no two records share a key. *)
Definition strictly_descending : list A -> Prop :=
  StronglySorted (fun a b => key b < key a).

Lemma descending_strict (l : list A) :
  JsFacts.descending key l -> NoDup (map key l) -> strictly_descending l.
Proof.
  induction 1 as [|a l Hs IH Hall]; intro Hnd; [constructor|].
  cbn [map] in Hnd. inversion_clear Hnd as [|? ? Hnotin Hnd'].
  constructor; [now apply IH|].
  rewrite Forall_forall in *. intros b Hb. specialize (Hall b Hb).
  assert (key b <> key a).
  { intro E. apply Hnotin. rewrite <- E. now apply in_map. }
  lia.
Qed.

Lemma strictly_descending_snoc (l : list A) (a : A) :
  strictly_descending l -> Forall (fun y => key a < key y) l ->
  strictly_descending (l ++ [a]).
Proof.
  induction 1 as [|b l Hs IH Hall]; intro Habove; cbn [app].
  - repeat constructor.
  - inversion_clear Habove as [|? ? Hb Hrest].
    constructor; [now apply IH|].
    apply Forall_app. split; [exact Hall|]. now repeat constructor.
Qed.

Lemma ascending_rev (l : list A) :
  JsFacts.ascending key l -> NoDup (map key l) -> strictly_descending (rev l).
Proof.
  induction 1 as [|a l Hs IH Hall]; intro Hnd; [constructor|].
  cbn [map] in Hnd. inversion_clear Hnd as [|? ? Hnotin Hnd'].
  cbn [rev]. apply strictly_descending_snoc; [now apply IH|].
  rewrite Forall_forall in *. intros b Hb. apply in_rev in Hb.
  specialize (Hall b Hb).
  assert (key b <> key a).
  { intro E. apply Hnotin. rewrite <- E. now apply in_map. }
  lia.
Qed.

(** Two strictly descending lists with the same records are equal. *)
Lemma strictly_descending_unique (l1 l2 : list A) :
  Permutation l1 l2 -> strictly_descending l1 -> strictly_descending l2 -> l1 = l2.
Proof.
  revert l2. induction l1 as [|a l1 IH]; intros l2 Hp H1 H2.
  - apply Permutation_nil in Hp. now subst.
  - destruct l2 as [|b l2].
    { apply Permutation_sym, Permutation_nil in Hp. discriminate. }
    inversion_clear H1 as [|? ? Hs1 Ha]. inversion_clear H2 as [|? ? Hs2 Hb].
    assert (Hab : a = b).
    { assert (Hina : In a (b :: l2))
        by (eapply Permutation_in; [exact Hp|now left]).
      assert (Hinb : In b (a :: l1))
        by (eapply Permutation_in; [apply Permutation_sym; exact Hp|now left]).
      destruct Hina as [Hba|Hina]; [now symmetry|].
      destruct Hinb as [Hab|Hinb]; [exact Hab|].
      rewrite Forall_forall in Ha, Hb.
      specialize (Ha _ Hinb). specialize (Hb _ Hina). lia. }
    subst b. f_equal.
    apply IH; [now apply Permutation_cons_inv with a|assumption|assumption].
Qed.

(** With distinct keys, sorting descending gives one list whatever the
    order of the input, and sorting ascending gives its reverse. *)
Lemma sort_desc_perm (l1 l2 : list A) :
  Permutation l1 l2 -> NoDup (map key l1) ->
  Js.sort (fun a b => key b - key a) l1 = Js.sort (fun a b => key b - key a) l2.
Proof.
  intros Hp Hnd.
  assert (Hp1 := JsFacts.sort_perm (fun a b => key b - key a) l1).
  assert (Hp2 := JsFacts.sort_perm (fun a b => key b - key a) l2).
  apply strictly_descending_unique.
  - eapply perm_trans; [apply Permutation_sym; exact Hp1|].
    eapply perm_trans; [exact Hp|exact Hp2].
  - apply descending_strict; [apply JsFacts.sort_descending|].
    eapply Permutation_NoDup; [|exact Hnd]. now apply Permutation_map.
  - apply descending_strict; [apply JsFacts.sort_descending|].
    eapply Permutation_NoDup; [|exact Hnd]. apply Permutation_map.
    eapply perm_trans; [exact Hp|exact Hp2].
Qed.

Lemma sort_desc_rev_asc (l1 l2 : list A) :
  Permutation l1 l2 -> NoDup (map key l1) ->
  Js.sort (fun a b => key b - key a) l2
  = rev (Js.sort (fun a b => key a - key b) l1).
Proof.
  intros Hp Hnd.
  assert (Hp1 := JsFacts.sort_perm (fun a b => key a - key b) l1).
  assert (Hp2 := JsFacts.sort_perm (fun a b => key b - key a) l2).
  apply strictly_descending_unique.
  - eapply perm_trans; [apply Permutation_sym; exact Hp2|].
    eapply perm_trans; [apply Permutation_sym; exact Hp|].
    eapply perm_trans; [exact Hp1|apply Permutation_rev].
  - apply descending_strict; [apply JsFacts.sort_descending|].
    eapply Permutation_NoDup; [|exact Hnd]. apply Permutation_map.
    eapply perm_trans; [exact Hp|exact Hp2].
  - apply ascending_rev; [apply JsFacts.sort_ascending|].
    eapply Permutation_NoDup; [|exact Hnd]. now apply Permutation_map.
Qed.

End Strict.

(** X28.  When both stores hold the same records of a user, with pairwise
    distinct timestamps, whatever their storage order: the Express route
    and the serverless handler list the same dream analyses in the same
    order, and the serverless chat history is the Express chat history
    reversed (newest first against oldest first). *)
Theorem listings_side_by_side (env : Env.t) (url userId : string)
    (st : MemStorage.t) (i : Db.Instance) :
  Js.string_or_null (Env.DATABASE_URL env) = Some url ->
  Permutation (ListingFacts.dreams_of st userId)
              (Db.where_userId DreamAnalysis.userId userId
                 (Db.dreamAnalysis (Db.tables i))) ->
  NoDup (map DreamAnalysis.timestamp (ListingFacts.dreams_of st userId)) ->
  Permutation (StoreFacts.chats_of st userId)
              (Db.where_userId AiChat.userId userId (Db.aiChats (Db.tables i))) ->
  NoDup (map AiChat.timestamp (StoreFacts.chats_of st userId)) ->
  exists dreams chats,
    RoutesRest.get_dream_analysis userId st = Reply.Data 200 dreams
    /\ fst (ApiRest.dream_analysis_userId env "GET" (Some userId) i)
       = Reply.Data 200 dreams
    /\ RoutesRest.get_ai_chat userId st = Reply.Data 200 chats
    /\ fst (ApiRest.ai_chat_userId env "GET" (Some userId) i)
       = Reply.Data 200 (rev chats).
Proof.
  intros Hurl Hpd Hnd Hpc Hnc.
  assert (Hdb : exists cached, Db.getDb env (Db.cachedDb i) = (Js.Ok cached, Some cached)).
  { unfold Db.getDb. destruct (Db.cachedDb i) as [db|]; [now exists db|].
    rewrite Hurl. now exists url. }
  destruct Hdb as (cached & Hdb).
  do 2 eexists. split; [reflexivity|].
  unfold ApiRest.dream_analysis_userId, ApiRest.ai_chat_userId, ApiRest.listing.
  cbn [String.eqb Ascii.eqb Bool.eqb]. rewrite Hdb. cbn [fst].
  unfold ApiRest.select_recent, Db.limit, Db.orderBy_desc.
  split; [|split; [reflexivity|]].
  - f_equal. unfold MemStorage.getDreamAnalyses.
    rewrite JsFacts.slice_head by lia.
    change (Z.to_nat 20) with 20%nat. f_equal.
    symmetry. now apply sort_desc_perm.
  - f_equal. rewrite StoreFacts.getAiChats_unfold, JsFacts.slice_tail by lia.
    change (Z.to_nat 50) with 50%nat.
    rewrite <- firstn_rev. f_equal.
    now apply sort_desc_rev_asc.
Qed.

(** The chat rows of [chat_history], stored in the opposite order. *)
Definition mirrored (st : MemStorage.t) : Db.Instance :=
  Db.mkInstance None
    (Db.mkTables [] [] [] (rev (Js.map_values (MemStorage.aiChats st))) []).

Lemma listings_side_by_side_witness :
  exists chats,
    RoutesRest.get_ai_chat "u1" (StoreFacts.chat_history "u1" 3) = Reply.Data 200 chats
    /\ fst (ApiRest.ai_chat_userId ExportFacts.configured "GET" (Some "u1")
              (mirrored (StoreFacts.chat_history "u1" 3)))
       = Reply.Data 200 (rev chats)
    /\ List.map AiChat.timestamp chats = [1000; 2000; 3000].
Proof.
  destruct (listings_side_by_side ExportFacts.configured "postgres://db" "u1"
              (StoreFacts.chat_history "u1" 3)
              (mirrored (StoreFacts.chat_history "u1" 3)))
    as (dreams & chats & _ & _ & Hexpress & Hserverless).
  - reflexivity.
  - vm_compute. constructor.
  - vm_compute. constructor.
  - vm_compute.
    match goal with |- Permutation ?l _ => exact (Permutation_rev l) end.
  - vm_compute.
    repeat (apply NoDup_cons; [cbn; intuition discriminate|]). apply NoDup_nil.
  - exists chats. split; [exact Hexpress|]. split; [exact Hserverless|].
    vm_compute in Hexpress. injection Hexpress as <-. reflexivity.
Defined.

Section WithToString.
Variable Date_toString : Date -> string.
Variable Number_toString : Q -> string.

(** X25.  For a user with at least one and at most fifty metric samples,
    the same samples in both stores, in whatever storage order and with
    pairwise distinct timestamps, the Express export and the serverless
    export answer with the same response: the header line followed by
    one line per sample, newest first. *)
Theorem exports_agree
    (env : Env.t) (url userId : string) (st : MemStorage.t) (i : Db.Instance) :
  Js.string_or_null (Env.DATABASE_URL env) = Some url ->
  Permutation (ExportFacts.samples_of st userId)
              (ExportFacts.rows_of (Db.tables i) userId) ->
  NoDup (List.map HealthMetrics.timestamp (ExportFacts.samples_of st userId)) ->
  (1 <= length (ExportFacts.samples_of st userId) <= 50)%nat ->
  Routes.get_export Date_toString Number_toString userId st
  = fst (Api.export_userId Date_toString Number_toString env "GET" (Some userId) i)
  /\ Routes.get_export Date_toString Number_toString userId st
     = Http.mk 200 Csv.exportHeaders
         (Http.Text
            (Js.join (String "010" EmptyString)
               (Csv.csvHeader
                :: Csv.csvRows Date_toString Number_toString
                     (Js.sort (fun a b => HealthMetrics.timestamp b - HealthMetrics.timestamp a)
                        (ExportFacts.samples_of st userId))))).
Proof.
  intros Hurl Hsame Hdistinct [Hlo Hhi].
  set (sorted := Js.sort (fun a b => HealthMetrics.timestamp b - HealthMetrics.timestamp a)
                   (ExportFacts.samples_of st userId)).
  assert (Hlen : length sorted = length (ExportFacts.samples_of st userId))
    by apply JsFacts.sort_length.
  assert (Hexpress : Routes.export_metrics userId st = sorted).
  { unfold Routes.export_metrics. rewrite ExportFacts.getHealthMetrics_default.
    apply firstn_all2. fold sorted. lia. }
  assert (Hserverless : Api.export_metrics userId (Db.tables i) = sorted).
  { unfold Api.export_metrics, Db.orderBy_desc.
    fold (ExportFacts.rows_of (Db.tables i) userId).
    symmetry. now apply sort_desc_perm. }
  assert (Hright : Routes.get_export Date_toString Number_toString userId st
     = Http.mk 200 Csv.exportHeaders
         (Http.Text
            (Js.join (String "010" EmptyString)
               (Csv.csvHeader :: Csv.csvRows Date_toString Number_toString sorted)))).
  { unfold Routes.get_export. rewrite Hexpress.
    destruct sorted; [cbn in Hlen; lia|reflexivity]. }
  split; [|exact Hright].
  rewrite Hright. unfold Api.export_userId. cbn [String.eqb Ascii.eqb Bool.eqb].
  unfold Db.getDb. rewrite Hurl, Hserverless.
  destruct sorted; [cbn in Hlen; lia|].
  destruct (Db.cachedDb i); reflexivity.
Qed.

End WithToString.

Lemma exports_agree_witness :
  Routes.get_export ExportFacts.show_date ExportFacts.show_number "u1"
    (ExportFacts.mem_with (ExportFacts.samples "u1" 3))
  = fst (Api.export_userId ExportFacts.show_date ExportFacts.show_number
           ExportFacts.configured "GET" (Some "u1")
           (Db.mkInstance None
              (ExportFacts.db_with (rev (ExportFacts.samples "u1" 3))))).
Proof.
  destruct (exports_agree ExportFacts.show_date ExportFacts.show_number
              ExportFacts.configured "postgres://db" "u1"
              (ExportFacts.mem_with (ExportFacts.samples "u1" 3))
              (Db.mkInstance None
                 (ExportFacts.db_with (rev (ExportFacts.samples "u1" 3)))))
    as [H _].
  - reflexivity.
  - vm_compute.
    match goal with |- Permutation ?l _ => exact (Permutation_rev l) end.
  - vm_compute.
    repeat (apply NoDup_cons; [cbn; intuition discriminate|]). apply NoDup_nil.
  - vm_compute. split; repeat constructor.
  - exact H.
Defined.




End PathFacts.
